(** * Blocking master-mode I2C transactions of the KubOS STM32F4 HAL

    A shallow embedding of [src/source/i2c.c]: the flag poller
    ([hal_i2c_check_flag_timeout]), the error classifier
    ([hal_i2c_check_flag_special]), the address phase
    ([hal_i2c_master_request_read], [hal_i2c_master_request_write]), the
    set-up routines and the two transaction engines
    ([kprv_i2c_master_write], [kprv_i2c_master_read]).

    The driver talks to a memory-mapped peripheral whose registers are
    volatile: what a status read returns is decided by the bus, not by the
    program.  The peripheral is therefore an abstract device (class
    [I2C_TypeDef]) and every driver function is a computation that threads
    the device state and emits, in program order, the list of accesses it
    performed.  All theorems hold for every device; a scripted device
    ([scripted]) is used to run the driver on concrete inputs. *)

From Equations Require Import Equations.
From Stdlib Require Import List ZArith Lia Bool Arith.
Import ListNotations.
Local Open Scope Z_scope.

(** ** Data model *)

(** [KI2CStatus] (kubos-hal/i2c.h): the outcomes that i2c.c produces. *)
Inductive KI2CStatus : Set :=
| I2C_OK
| I2C_ERROR_AF
| I2C_ERROR_ADDR_TIMEOUT
| I2C_ERROR_TIMEOUT
| I2C_ERROR_NACK
| I2C_ERROR_TXE_TIMEOUT
| I2C_ERROR_BTF_TIMEOUT
| I2C_ERROR_NULL_HANDLE.

Definition KI2CStatus_eq_dec (a b : KI2CStatus) : {a = b} + {a <> b}.
Proof. decide equality. Defined.

Definition is_ok (r : KI2CStatus) : bool :=
  match r with I2C_OK => true | _ => false end.

(** The status flags named in i2c.c (vendor constants [I2C_FLAG_*]; they
    are pairwise distinct, so a comparison [flag == I2C_FLAG_BTF] is a
    pattern match). *)
Inductive i2c_flag : Set :=
| I2C_FLAG_SB
| I2C_FLAG_ADDR
| I2C_FLAG_BTF
| I2C_FLAG_TXE
| I2C_FLAG_RXNE
| I2C_FLAG_AF
| I2C_FLAG_BUSY.

(** The control bits of CR1 that i2c.c sets or clears. *)
Inductive cr1_bit : Set :=
| I2C_CR1_START
| I2C_CR1_STOP
| I2C_CR1_ACK
| I2C_CR1_POS.

(** [FlagStatus]: [SET] and [RESET]. *)
Abbreviation SET := true (only parsing).
Abbreviation RESET := false (only parsing).

(** // @TODO: This timeout value might be excessive and could be better tuned. *)
Definition FLAG_CHECK_TIMEOUT : Z := 100.

(** One access of the driver to the peripheral, to the scheduler or to the
    caller's buffer, as written in the source:
    - [RdFlag f v]  : [__HAL_I2C_GET_FLAG(handle, f)] evaluated to [v];
    - [ClrFlag f]   : [__HAL_I2C_CLEAR_FLAG(handle, f)];
    - [ClrAddr]     : [__HAL_I2C_CLEAR_ADDRFLAG(handle)];
    - [Cr1Set b]    : [Instance->CR1 |= b];
    - [Cr1Clr b]    : [Instance->CR1 &= ~b];
    - [DrWr v]      : [Instance->DR = v];
    - [DrRd v]      : a read of [Instance->DR] that returned [v];
    - [Store v]     : [( *ptr++ ) = v];
    - [Delay n]     : [vTaskDelay(n)]. *)
Inductive op : Set :=
| RdFlag (f : i2c_flag) (v : bool)
| ClrFlag (f : i2c_flag)
| ClrAddr
| Cr1Set (b : cr1_bit)
| Cr1Clr (b : cr1_bit)
| DrWr (v : Z)
| DrRd (v : Z)
| Store (v : Z)
| Delay (ticks : Z).

Definition op_eq_dec (a b : op) : {a = b} + {a <> b}.
Proof. repeat decide equality. Defined.

(** The peripheral behind [hal_handle->Instance].  The vendor macros and
    the register block are not part of i2c.c; the driver is parametric in
    them.  Reading a flag or the data register may change the device (time
    passes, reading DR clears RXNE, ...), hence the new state. *)
Class I2C_TypeDef (hw : Type) := {
  get_flag : i2c_flag -> hw -> bool * hw;
  clear_flag : i2c_flag -> hw -> hw;
  clear_addrflag : hw -> hw;
  cr1_set : cr1_bit -> hw -> hw;
  cr1_clear : cr1_bit -> hw -> hw;
  dr_write : Z -> hw -> hw;
  dr_read : hw -> Z * hw;
  task_delay : Z -> hw -> hw
}.

(** [KI2CNum]: the bus number, an enum (an integer). *)
Definition KI2CNum := nat.

(** A (nullable) pointer to an entry of the static array [hal_i2c_bus]. *)
Definition handle_ptr := option KI2CNum.

(** static hal_i2c_handle* hal_i2c_get_handle(KI2CNum num)
    { return &hal_i2c_bus[num]; }
    The address of an array element: never [NULL]. *)
Definition hal_i2c_get_handle (num : KI2CNum) : handle_ptr := Some num.

(** [uint8_t] and [uint16_t] truncation. *)
Definition u8 (v : Z) : Z := v mod 256.
Definition u16 (v : Z) : Z := v mod 65536.

(** Vendor macros [I2C_7BIT_ADD_READ] and [I2C_7BIT_ADD_WRITE]: the
    shifted address with the direction bit (bit 0) set, respectively
    cleared, as a byte. *)
Definition I2C_7BIT_ADD_READ (a : Z) : Z := u8 (Z.lor a 1).
Definition I2C_7BIT_ADD_WRITE (a : Z) : Z := u8 (Z.land a (Z.lnot 1)).

(** Measures of the three loops. *)
Definition polls_left (count : Z) : nat := Z.to_nat (FLAG_CHECK_TIMEOUT - count).
Arguments polls_left : simpl never.
Definition bytes_left (len : Z) : nat := Z.to_nat len.
Arguments bytes_left : simpl never.

(** ** The driver *)

Section Driver.
Context {hw : Type} {dev : I2C_TypeDef hw}.

(** A driver computation: from a device state to a result, the new device
    state and the accesses performed, oldest first. *)
Definition M (A : Type) : Type := hw -> A * hw * list op.

Definition mret {A} (a : A) : M A := fun h => (a, h, []).

Definition bind {A B} (m : M A) (k : A -> M B) : M B :=
  fun h =>
    let '(a, h1, t1) := m h in
    let '(b, h2, t2) := k a h1 in
    (b, h2, t1 ++ t2).

Definition result {A} (x : A * hw * list op) : A := fst (fst x).
Definition final {A} (x : A * hw * list op) : hw := snd (fst x).
Definition trace {A} (x : A * hw * list op) : list op := snd x.

Local Notation "x <- m ;; k" := (bind m (fun x => k))
  (at level 61, m at next level, right associativity).
Local Notation "m ;; k" := (bind m (fun _ => k))
  (at level 61, right associativity).

(** if ((ret = m) != I2C_OK) { return ret; } k *)
Definition ok_then (m : M KI2CStatus) (k : M KI2CStatus) : M KI2CStatus :=
  ret <- m ;; if is_ok ret then k else mret ret.

(** Register and memory accesses. *)
Definition GET_FLAG (f : i2c_flag) : M bool :=
  fun h => let (v, h') := get_flag f h in (v, h', [RdFlag f v]).
Definition CLEAR_FLAG (f : i2c_flag) : M unit :=
  fun h => (tt, clear_flag f h, [ClrFlag f]).
Definition CLEAR_ADDRFLAG : M unit :=
  fun h => (tt, clear_addrflag h, [ClrAddr]).
Definition CR1_SET (b : cr1_bit) : M unit :=
  fun h => (tt, cr1_set b h, [Cr1Set b]).
Definition CR1_CLEAR (b : cr1_bit) : M unit :=
  fun h => (tt, cr1_clear b h, [Cr1Clr b]).
Definition DR_WRITE (v : Z) : M unit :=
  fun h => (tt, dr_write v h, [DrWr v]).
Definition DR_READ : M Z :=
  fun h => let (v, h') := dr_read h in (v, h', [DrRd v]).
Definition vTaskDelay (n : Z) : M unit :=
  fun h => (tt, task_delay n h, [Delay n]).
(** uint8_t val = hal_handle->Instance->DR; ( *ptr++ ) = val; len--; *)
Definition read_byte : M unit :=
  v <- DR_READ ;; fun h => (tt, h, [Store (u8 v)]).

(** static KI2CStatus hal_i2c_check_flag_special(handle, flag) *)
Definition hal_i2c_check_flag_special (flag : i2c_flag) : M KI2CStatus :=
  match flag with
  | I2C_FLAG_BTF | I2C_FLAG_TXE =>
      (* Check for NACK *)
      af <- GET_FLAG I2C_FLAG_AF ;;
      if af then CLEAR_FLAG I2C_FLAG_AF ;; mret I2C_ERROR_NACK
      else mret I2C_OK
  | I2C_FLAG_ADDR =>
      af <- GET_FLAG I2C_FLAG_AF ;;
      if af then
        (* Generate Stop *)
        CR1_SET I2C_CR1_STOP ;;
        (* Clear AF *)
        CLEAR_FLAG I2C_FLAG_AF ;;
        mret I2C_ERROR_AF
      else mret I2C_OK
  | _ => mret I2C_OK
  end.

(** The loop of [hal_i2c_check_flag_timeout], entered with the current
    value of [count]:
    while ((__HAL_I2C_GET_FLAG(handle, flag) ? SET : RESET) == status) {
      if ((ret = hal_i2c_check_flag_special(handle, flag)) != I2C_OK) return ret;
      if (count >= FLAG_CHECK_TIMEOUT) return I2C_ERROR_TIMEOUT;
      count++; vTaskDelay(50);
    }
    return I2C_OK; *)
Equations? check_flag_loop (flag : i2c_flag) (status : bool) (count : Z)
  : M KI2CStatus by wf (polls_left count) lt :=
check_flag_loop flag status count :=
  v <- GET_FLAG flag ;;
  if Bool.eqb v status then
    ok_then (hal_i2c_check_flag_special flag)
      match Z_ge_dec count FLAG_CHECK_TIMEOUT with
      | left _ => mret I2C_ERROR_TIMEOUT
      | right _ => vTaskDelay 50 ;; check_flag_loop flag status (count + 1)
      end
  else mret I2C_OK.
Proof. unfold polls_left, FLAG_CHECK_TIMEOUT in *. lia. Qed.

(** static KI2CStatus hal_i2c_check_flag_timeout(handle, flag, status)
    ([count] is a uint16_t that starts at 0 and never exceeds 100). *)
Definition hal_i2c_check_flag_timeout (flag : i2c_flag) (status : bool)
  : M KI2CStatus :=
  check_flag_loop flag status 0.

(** static KI2CStatus hal_i2c_check_addr_timeout(handle, flag) *)
Definition hal_i2c_check_addr_timeout (flag : i2c_flag) : M KI2CStatus :=
  ret <- hal_i2c_check_flag_timeout flag RESET ;;
  match ret with
  | I2C_OK => mret I2C_OK
  | I2C_ERROR_TIMEOUT => mret I2C_ERROR_ADDR_TIMEOUT
  | _ => mret ret
  end.

(** static KI2CStatus hal_i2c_check_btf_timeout(handle) *)
Definition hal_i2c_check_btf_timeout : M KI2CStatus :=
  ret <- hal_i2c_check_flag_timeout I2C_FLAG_BTF RESET ;;
  match ret with
  | I2C_OK => mret I2C_OK
  | I2C_ERROR_TIMEOUT => mret I2C_ERROR_BTF_TIMEOUT
  | _ => mret ret
  end.

(** static KI2CStatus hal_i2c_check_txe_timeout(handle) *)
Definition hal_i2c_check_txe_timeout : M KI2CStatus :=
  ret <- hal_i2c_check_flag_timeout I2C_FLAG_TXE RESET ;;
  match ret with
  | I2C_OK => mret I2C_OK
  | I2C_ERROR_TIMEOUT => mret I2C_ERROR_TXE_TIMEOUT
  | _ => mret ret
  end.

(** static KI2CStatus hal_i2c_master_request_read(hal_handle, addr) *)
Definition hal_i2c_master_request_read (addr : Z) : M KI2CStatus :=
  (* Enable Acknowledge *)
  CR1_SET I2C_CR1_ACK ;;
  (* Generate Start *)
  CR1_SET I2C_CR1_START ;;
  (* Wait for SB *)
  ok_then (hal_i2c_check_flag_timeout I2C_FLAG_SB RESET)
    ((* Send slave address *)
     DR_WRITE (I2C_7BIT_ADD_READ addr) ;;
     (* Wait for ADDR *)
     hal_i2c_check_addr_timeout I2C_FLAG_ADDR).

(** The [switch (len)] of [hal_i2c_master_setup_read]: the acknowledge,
    POS and stop policy chosen once the address has been acknowledged. *)
Definition setup_read_switch (len : Z) : M unit :=
  match len with
  | 0 =>
      (* Clear ADDR *)
      CLEAR_ADDRFLAG ;;
      (* Generate Stop *)
      CR1_SET I2C_CR1_STOP
  | 1 =>
      (* Disable Acknowledge *)
      CR1_CLEAR I2C_CR1_ACK ;;
      (* Clear ADDR *)
      CLEAR_ADDRFLAG ;;
      (* Generate Stop *)
      CR1_SET I2C_CR1_STOP
  | 2 =>
      (* Disable Acknowledge *)
      CR1_CLEAR I2C_CR1_ACK ;;
      (* Enable POS *)
      CR1_SET I2C_CR1_POS ;;
      (* Clear ADDR *)
      CLEAR_ADDRFLAG
  | _ =>
      (* Enable Acknowledge *)
      CR1_SET I2C_CR1_ACK ;;
      (* Clear ADDR *)
      CLEAR_ADDRFLAG
  end.

(** The part of [hal_i2c_master_setup_read] before its [switch]: busy
    wait, POS reset and the address request. *)
Definition setup_read_address (addr : Z) : M KI2CStatus :=
  (* I2C_7BIT_ADD_READ expects an address already shifted *)
  let slave_addr := u16 (Z.shiftl addr 1) in
  (* Check if I2C Busy *)
  ok_then (hal_i2c_check_flag_timeout I2C_FLAG_BUSY SET)
    ((* Disable pos *)
     CR1_CLEAR I2C_CR1_POS ;;
     (* Send Slave Address *)
     hal_i2c_master_request_read slave_addr).

(** static KI2CStatus hal_i2c_master_setup_read(hal_handle, addr, len) *)
Definition hal_i2c_master_setup_read (addr : Z) (len : Z) : M KI2CStatus :=
  ok_then (setup_read_address addr)
    (setup_read_switch len ;; mret I2C_OK).

(** static KI2CStatus hal_i2c_master_request_write(hal_handle, addr) *)
Definition hal_i2c_master_request_write (addr : Z) : M KI2CStatus :=
  (* Generate Start *)
  CR1_SET I2C_CR1_START ;;
  (* Wait for SB *)
  ok_then (hal_i2c_check_flag_timeout I2C_FLAG_SB RESET)
    ((* Send slave address *)
     DR_WRITE (I2C_7BIT_ADD_WRITE addr) ;;
     (* Wait for ADDR *)
     hal_i2c_check_addr_timeout I2C_FLAG_ADDR).

(** static KI2CStatus hal_i2c_master_setup_write(hal_handle, addr) *)
Definition hal_i2c_master_setup_write (addr : Z) : M KI2CStatus :=
  (* I2C_7BIT_ADD_WRITE expects address already shifted *)
  let slave_addr := u16 (Z.shiftl addr 1) in
  (* Check if I2C is busy *)
  ok_then (hal_i2c_check_flag_timeout I2C_FLAG_BUSY SET)
    ((* Disable Pos *)
     CR1_CLEAR I2C_CR1_POS ;;
     (* Send Slave Address *)
     ret <- hal_i2c_master_request_write slave_addr ;;
     if is_ok ret then
       (* Clear ADDR flag *)
       CLEAR_ADDRFLAG ;; mret ret
     else mret ret).

(** if ((ret = m) != I2C_OK) { CR1 |= I2C_CR1_STOP; return ret; } k *)
Definition ok_else_stop (m : M KI2CStatus) (k : M KI2CStatus) : M KI2CStatus :=
  ret <- m ;;
  if is_ok ret then k
  else (* Generate Stop *) CR1_SET I2C_CR1_STOP ;; mret ret.

(** [kprv_i2c_master_write] from the head of its [while (len > 0)] loop
    to its [return]: [ptr] is the memory the pointer walks through
    ([*ptr++] takes the head), [len] the bytes still to send.  On leaving
    the loop the stop is generated and [ret], which holds [I2C_OK] there,
    is returned.  The final wait for BTF closes both arms of the
    second-byte conditional. *)
Equations? master_write_loop (ptr : list Z) (len : Z)
  : M KI2CStatus by wf (bytes_left len) lt :=
master_write_loop ptr len :=
  match Z_gt_dec len 0 with
  | left _ =>
      (* Wait until TXE is set *)
      ok_else_stop hal_i2c_check_txe_timeout
        ((* Write data *)
         DR_WRITE (hd 0 ptr) ;;
         btf <- GET_FLAG I2C_FLAG_BTF ;;
         if Bool.eqb btf SET && negb (len - 1 =? 0) then
           (* Write data *)
           DR_WRITE (hd 0 (tl ptr)) ;;
           (* Wait for BTF flag *)
           ok_else_stop hal_i2c_check_btf_timeout
             (master_write_loop (tl (tl ptr)) (len - 1 - 1))
         else
           (* Wait for BTF flag *)
           ok_else_stop hal_i2c_check_btf_timeout
             (master_write_loop (tl ptr) (len - 1)))
  | right _ =>
      (* Generate Stop *)
      CR1_SET I2C_CR1_STOP ;;
      mret I2C_OK
  end.
Proof. all: unfold bytes_left; lia. Qed.

(** KI2CStatus kprv_i2c_master_write(KI2CNum i2c, uint16_t addr, uint8_t *ptr, int len) *)
Definition kprv_i2c_master_write (i2c : KI2CNum) (addr : Z) (ptr : list Z) (len : Z)
  : M KI2CStatus :=
  match hal_i2c_get_handle i2c with
  | None => mret I2C_ERROR_NULL_HANDLE
  | Some _ =>
      ok_then (hal_i2c_master_setup_write addr)
        (master_write_loop ptr len)
  end.

(** [kprv_i2c_master_read] from the head of its [while (len > 0)] loop
    ("Data reading process") to its [return ret], where [ret] holds
    [I2C_OK]; [len] is the number of bytes still to read. *)
Equations? master_read_loop (len : Z) : M KI2CStatus by wf (bytes_left len) lt :=
master_read_loop len :=
  match Z_gt_dec len 0 with
  | left _ =>
      if len =? 1 then
        (* Wait for RXNE *)
        ok_then (hal_i2c_check_flag_timeout I2C_FLAG_RXNE SET)
          ((* Read data1 *)
           read_byte ;;
           master_read_loop (len - 1))
      else if len =? 2 then
        (* Wait for BTF *)
        ok_then hal_i2c_check_btf_timeout
          ((* Generate Stop *)
           CR1_SET I2C_CR1_STOP ;;
           (* Read data1 *)
           read_byte ;;
           (* Read data2 *)
           read_byte ;;
           master_read_loop (len - 1 - 1))
      else if len =? 3 then
        (* Wait for BTF to be set *)
        ok_then hal_i2c_check_btf_timeout
          ((* Disable Acknowledge *)
           CR1_CLEAR I2C_CR1_ACK ;;
           (* Read data *)
           read_byte ;;
           (* Wait for BTF to be set *)
           ok_then hal_i2c_check_btf_timeout
             ((* Generate Stop *)
              CR1_SET I2C_CR1_STOP ;;
              (* Read data *)
              read_byte ;;
              (* Read data *)
              read_byte ;;
              master_read_loop (len - 1 - 1 - 1)))
      else
        (* Wait for RXNE to be set *)
        ok_then (hal_i2c_check_flag_timeout I2C_FLAG_RXNE SET)
          ((* Read dataN *)
           read_byte ;;
           (* Read again if BTF is set *)
           btf <- GET_FLAG I2C_FLAG_BTF ;;
           if Bool.eqb btf SET then
             read_byte ;;
             master_read_loop (len - 1 - 1)
           else master_read_loop (len - 1))
  | right _ => mret I2C_OK
  end.
Proof. all: unfold bytes_left; lia. Qed.

(** KI2CStatus kprv_i2c_master_read(KI2CNum i2c, uint16_t addr, uint8_t *ptr, int len) *)
Definition kprv_i2c_master_read (i2c : KI2CNum) (addr : Z) (len : Z)
  : M KI2CStatus :=
  match hal_i2c_get_handle i2c with
  | None => mret I2C_ERROR_NULL_HANDLE
  | Some _ =>
      ok_then (hal_i2c_master_setup_read addr len)
        (master_read_loop len)
  end.

End Driver.

(** ** A scripted device

    The device state is a clock that advances by one at every access.  The
    value of a flag and of the data register at each instant is given by
    the script, so any finite behaviour of a real bus can be replayed. *)
Definition scripted (flags : nat -> i2c_flag -> bool) (data : nat -> Z)
  : I2C_TypeDef nat := {|
  get_flag f t := (flags t f, S t);
  clear_flag _ t := S t;
  clear_addrflag t := S t;
  cr1_set _ t := S t;
  cr1_clear _ t := S t;
  dr_write _ t := S t;
  dr_read t := (data t, S t);
  task_delay _ t := S t
|}.

(** A bus on which every wait of the source ends at its first poll: not
    busy, no acknowledge failure, RXNE read as reset, every other flag
    read as set. *)
Definition ready_flags (_ : nat) (f : i2c_flag) : bool :=
  match f with
  | I2C_FLAG_BUSY | I2C_FLAG_AF | I2C_FLAG_RXNE => false
  | _ => true
  end.

(** The data register answers with the instant of the read. *)
Definition clock_data (t : nat) : Z := Z.of_nat t.

(** ** Vocabulary of the statements *)

(** Number of stop conditions generated ([CR1 |= I2C_CR1_STOP]) in a trace. *)
Definition stops (t : list op) : nat :=
  count_occ op_eq_dec t (Cr1Set I2C_CR1_STOP).

(** The values written to, and read from, the data register, and the bytes
    stored in the caller's buffer, in order. *)
Definition dr_writes (t : list op) : list Z :=
  flat_map (fun o => match o with DrWr v => [v] | _ => [] end) t.
Definition dr_reads (t : list op) : list Z :=
  flat_map (fun o => match o with DrRd v => [v] | _ => [] end) t.
Definition stored (t : list op) : list Z :=
  flat_map (fun o => match o with Store v => [v] | _ => [] end) t.

(** The accesses of a wait that goes round its loop: the flag seen in the
    state [status] that keeps the loop going, the classifier seeing no
    acknowledge failure, and the delay. *)
Definition spin_op (flag : i2c_flag) (status : bool) (o : op) : Prop :=
  o = RdFlag flag status \/ o = RdFlag I2C_FLAG_AF false \/ o = Delay 50.

(** A wait that succeeded: it went round some number of times and then
    saw the flag in the other state. *)
Definition waited (flag : i2c_flag) (status : bool) (t : list op) : Prop :=
  exists pre, Forall (spin_op flag status) pre /\ t = pre ++ [RdFlag flag (negb status)].

(** A wait that failed with [r]: it went round and then either ran out of
    polls, or the classifier ended it (with its stop when the flag is
    ADDR). *)
Definition gave_up (flag : i2c_flag) (status : bool) (r : KI2CStatus) (t : list op) : Prop :=
  exists pre, Forall (spin_op flag status) pre /\
    ((r = I2C_ERROR_TIMEOUT /\ t = pre) \/
     (r = I2C_ERROR_NACK /\ (flag = I2C_FLAG_BTF \/ flag = I2C_FLAG_TXE) /\
      t = pre ++ [RdFlag flag status; RdFlag I2C_FLAG_AF true; ClrFlag I2C_FLAG_AF]) \/
     (r = I2C_ERROR_AF /\ flag = I2C_FLAG_ADDR /\
      t = pre ++ [RdFlag flag status; RdFlag I2C_FLAG_AF true;
                  Cr1Set I2C_CR1_STOP; ClrFlag I2C_FLAG_AF])).

(** Reads and clears of status flags and delays, as opposed to the
    accesses that act on the bus or on the buffer. *)
Definition status_only (o : op) : bool :=
  match o with
  | RdFlag _ _ | ClrFlag _ | Delay _ => true
  | _ => false
  end.

(** The control-register operations, ADDR clears, data-register accesses
    and stores of a trace, in order. *)
Definition actions (t : list op) : list op :=
  filter (fun o => negb (status_only o)) t.

(** switch (ret) { case I2C_OK: return I2C_OK;
                   case I2C_ERROR_TIMEOUT: return to;
                   default: return ret; } *)
Definition retag (to r : KI2CStatus) : KI2CStatus :=
  match r with
  | I2C_OK => I2C_OK
  | I2C_ERROR_TIMEOUT => to
  | _ => r
  end.

(** The bytes that [n] uses of [*ptr++] read. *)
Fixpoint deref_n (n : nat) (ptr : list Z) : list Z :=
  match n with
  | O => []
  | S k => hd 0 ptr :: deref_n k (tl ptr)
  end.

(** The time a trace spends in [vTaskDelay], in ticks. *)
Definition ticks (t : list op) : Z :=
  fold_right (fun o acc => match o with Delay n => n + acc | _ => acc end) 0 t.

Definition i2c_flag_eq_dec (a b : i2c_flag) : {a = b} + {a <> b}.
Proof. decide equality. Defined.

(** The number of times a trace reads the flag [flag]. *)
Definition polls (flag : i2c_flag) (t : list op) : nat :=
  length (filter (fun o => match o with
                           | RdFlag f _ => if i2c_flag_eq_dec f flag then true else false
                           | _ => false
                           end) t).

Section Vocabulary.
Context {hw : Type} {dev : I2C_TypeDef hw}.

(** One full turn of the loop of [hal_i2c_check_flag_timeout] in which
    nothing is found: poll, classifier, delay. *)
Definition poll_round (flag : i2c_flag) (h : hw) : hw :=
  task_delay 50
    (final (hal_i2c_check_flag_special flag (snd (get_flag flag h)))).

(** The device at the start of iteration [i] (from 0) of a wait started
    in [h], when all earlier iterations went round the loop. *)
Definition iteration_start (flag : i2c_flag) (i : nat) (h : hw) : hw :=
  Nat.iter i (poll_round flag) h.

(** What the poll of iteration [i] reads, and what the classifier reports
    on that iteration. *)
Definition flag_at (flag : i2c_flag) (i : nat) (h : hw) : bool :=
  fst (get_flag flag (iteration_start flag i h)).
Definition special_at (flag : i2c_flag) (i : nat) (h : hw) : KI2CStatus :=
  result (hal_i2c_check_flag_special flag
            (snd (get_flag flag (iteration_start flag i h)))).

(** What the classifier would read in the acknowledge-failure flag on
    iteration [i], right after the poll of that iteration. *)
Definition af_at (flag : i2c_flag) (i : nat) (h : hw) : bool :=
  fst (get_flag I2C_FLAG_AF (snd (get_flag flag (iteration_start flag i h)))).

(** The device at the moment a write, respectively a read, starts its
    wait for the start-condition-sent flag (SB): after the busy wait, the
    POS reset, (for a read) the acknowledge enable, and the start. *)
Definition start_wait_write (h : hw) : hw :=
  cr1_set I2C_CR1_START
    (cr1_clear I2C_CR1_POS
       (final (hal_i2c_check_flag_timeout I2C_FLAG_BUSY SET h))).
Definition start_wait_read (h : hw) : hw :=
  cr1_set I2C_CR1_START
    (cr1_set I2C_CR1_ACK
       (cr1_clear I2C_CR1_POS
          (final (hal_i2c_check_flag_timeout I2C_FLAG_BUSY SET h)))).

(** What a call of [kprv_i2c_master_read] with length [len] performs once
    its address phase has succeeded: the [switch] of the set-up, then the
    data loop. *)
Definition read_after_address (len : Z) : M KI2CStatus :=
  bind (setup_read_switch len) (fun _ => master_read_loop len).

(** The iterations of the general branch (the final [else], taken while
    more than three bytes remain) of the loop of [kprv_i2c_master_read],
    up to the first time the loop head is reached with at most three bytes
    remaining, or a wait fails.  Returns the status and the remaining
    length. *)
Equations? general_phase (len : Z) : M (KI2CStatus * Z) by wf (bytes_left len) lt :=
general_phase len :=
  match Z_gt_dec len 3 with
  | left _ =>
      bind (hal_i2c_check_flag_timeout I2C_FLAG_RXNE SET) (fun ret =>
      if is_ok ret then
        bind read_byte (fun _ =>
        bind (GET_FLAG I2C_FLAG_BTF) (fun btf =>
        if Bool.eqb btf SET then
          bind read_byte (fun _ => general_phase (len - 1 - 1))
        else general_phase (len - 1)))
      else mret (ret, len))
  | right _ => mret (I2C_OK, len)
  end.
Proof. all: unfold bytes_left; lia. Qed.

(** The accesses of a sequence of byte reads that returned [vs]. *)
Definition byte_reads (vs : list Z) : list op :=
  flat_map (fun v => [DrRd v; Store (u8 v)]) vs.

(** What an iteration of the loop of [kprv_i2c_master_write] does between
    its wait for TXE and its wait for BTF:
      DR = ( *ptr++ ); len--;
      if ((GET_FLAG(BTF) == SET) && (len != 0)) { DR = ( *ptr++ ); len--; }
    Returns the pointer and the length after it. *)
Definition bytes_out (ptr : list Z) (len : Z) : M (list Z * Z) :=
  fun h =>
    let h1 := dr_write (hd 0 ptr) h in
    let btf := fst (get_flag I2C_FLAG_BTF h1) in
    let h2 := snd (get_flag I2C_FLAG_BTF h1) in
    if Bool.eqb btf SET && negb (len - 1 =? 0)
    then ((tl (tl ptr), len - 1 - 1), dr_write (hd 0 (tl ptr)) h2,
          [DrWr (hd 0 ptr); RdFlag I2C_FLAG_BTF btf; DrWr (hd 0 (tl ptr))])
    else ((tl ptr, len - 1), h2, [DrWr (hd 0 ptr); RdFlag I2C_FLAG_BTF btf]).

(** [write_rounds ptr len h t ptr' len' h']: from the loop head with
    pointer [ptr], length [len] and device [h], the loop of
    [kprv_i2c_master_write] goes through some whole iterations, in each of
    which the wait for TXE and the wait for BTF both return [I2C_OK]; their
    accesses are [t], and the loop head is reached again with [ptr'],
    [len'] and [h']. *)
Inductive write_rounds
  : list Z -> Z -> hw -> list op -> list Z -> Z -> hw -> Prop :=
| rounds_none ptr len h : write_rounds ptr len h [] ptr len h
| rounds_more ptr len h t ptr' len' h' :
    0 < len ->
    let txe := hal_i2c_check_txe_timeout h in
    let b := bytes_out ptr len (final txe) in
    let btf := hal_i2c_check_btf_timeout (final b) in
    result txe = I2C_OK ->
    result btf = I2C_OK ->
    write_rounds (fst (result b)) (snd (result b)) (final btf) t ptr' len' h' ->
    write_rounds ptr len h (trace txe ++ trace b ++ trace btf ++ t) ptr' len' h'.

End Vocabulary.

(** A bus on which the start condition is never reported: not busy, SB
    never set. *)
Definition no_start_flags (_ : nat) (f : i2c_flag) : bool := false.

(** A bus that another master keeps busy: BUSY is always set. *)
Definition busy_flags (_ : nat) (f : i2c_flag) : bool :=
  match f with
  | I2C_FLAG_BUSY => true
  | _ => false
  end.

(** A bus on which a received byte waits in the data register: as
    [ready_flags], but RXNE is set (and stays set until DR is read). *)
Definition byte_waiting_flags (_ : nat) (f : i2c_flag) : bool :=
  match f with
  | I2C_FLAG_BUSY | I2C_FLAG_AF => false
  | _ => true
  end.

(** A slave that does not acknowledge a data byte at the last poll of a
    wait for BTF: BTF stays reset, and acknowledge failure shows at the
    instant of the classifier's read on iteration 100. *)
Definition late_nack_flags (t : nat) (f : i2c_flag) : bool :=
  match f with
  | I2C_FLAG_AF => Nat.eqb t 301
  | _ => false
  end.

(** A bus on which the address is acknowledged but no data byte ever
    finishes: as [ready_flags], with BTF never set. *)
Definition stalled_flags (_ : nat) (f : i2c_flag) : bool :=
  match f with
  | I2C_FLAG_BUSY | I2C_FLAG_AF | I2C_FLAG_RXNE | I2C_FLAG_BTF => false
  | _ => true
  end.

(** A slave that acknowledges its address and then refuses data: TXE and
    BTF stay reset and the acknowledge-failure flag is set. *)
Definition data_nack_flags (_ : nat) (f : i2c_flag) : bool :=
  match f with
  | I2C_FLAG_BUSY | I2C_FLAG_TXE | I2C_FLAG_BTF => false
  | _ => true
  end.

(** A slave that does not answer its address: the start condition is
    reported, ADDR stays reset and the acknowledge-failure flag is set. *)
Definition address_nack_flags (_ : nat) (f : i2c_flag) : bool :=
  match f with
  | I2C_FLAG_SB | I2C_FLAG_AF => true
  | _ => false
  end.

(** ** Running computations *)

Section Run.
Context {hw : Type} {dev : I2C_TypeDef hw}.

Lemma run_eta {A} (x : A * hw * list op) : x = (result x, final x, trace x).
Proof. destruct x as [[a h] t]. reflexivity. Qed.

Lemma result_bind {A B} (m : @M hw A) (k : A -> @M hw B) (h : hw) :
  result (bind m k h) = result (k (result (m h)) (final (m h))).
Proof.
  unfold bind. destruct (m h) as [[a h1] t1]. cbn.
  destruct (k a h1) as [[b h2] t2]. reflexivity.
Qed.

Lemma final_bind {A B} (m : @M hw A) (k : A -> @M hw B) (h : hw) :
  final (bind m k h) = final (k (result (m h)) (final (m h))).
Proof.
  unfold bind. destruct (m h) as [[a h1] t1]. cbn.
  destruct (k a h1) as [[b h2] t2]. reflexivity.
Qed.

Lemma trace_bind {A B} (m : @M hw A) (k : A -> @M hw B) (h : hw) :
  trace (bind m k h) = trace (m h) ++ trace (k (result (m h)) (final (m h))).
Proof.
  unfold bind. destruct (m h) as [[a h1] t1]. cbn.
  destruct (k a h1) as [[b h2] t2]. reflexivity.
Qed.

Lemma result_ok_then (m k : @M hw KI2CStatus) (h : hw) :
  result (ok_then m k h) =
  if is_ok (result (m h)) then result (k (final (m h))) else result (m h).
Proof.
  unfold ok_then. rewrite result_bind.
  destruct (is_ok (result (m h))); reflexivity.
Qed.

Lemma final_ok_then (m k : @M hw KI2CStatus) (h : hw) :
  final (ok_then m k h) =
  if is_ok (result (m h)) then final (k (final (m h))) else final (m h).
Proof.
  unfold ok_then. rewrite final_bind.
  destruct (is_ok (result (m h))); reflexivity.
Qed.

Lemma trace_ok_then (m k : @M hw KI2CStatus) (h : hw) :
  trace (ok_then m k h) =
  trace (m h) ++ if is_ok (result (m h)) then trace (k (final (m h))) else [].
Proof.
  unfold ok_then. rewrite trace_bind.
  destruct (is_ok (result (m h))); reflexivity.
Qed.

Lemma bind_run {A B} (m : @M hw A) (k : A -> @M hw B) (h : hw) :
  bind m k h =
  (result (k (result (m h)) (final (m h))),
   final (k (result (m h)) (final (m h))),
   trace (m h) ++ trace (k (result (m h)) (final (m h)))).
Proof.
  rewrite (run_eta (bind m k h)).
  rewrite result_bind, final_bind, trace_bind. reflexivity.
Qed.

Lemma get_flag_run (f : i2c_flag) (h : hw) :
  GET_FLAG f h =
  (fst (get_flag f h), snd (get_flag f h), [RdFlag f (fst (get_flag f h))]).
Proof. unfold GET_FLAG. destruct (get_flag f h). reflexivity. Qed.

Lemma read_byte_run (h : hw) :
  read_byte h =
  (tt, snd (dr_read h), [DrRd (fst (dr_read h)); Store (u8 (fst (dr_read h)))]).
Proof. unfold read_byte, bind, DR_READ. destruct (dr_read h). reflexivity. Qed.

Lemma is_ok_true r : is_ok r = true <-> r = I2C_OK.
Proof. destruct r; cbn; split; congruence. Qed.

Lemma is_ok_false r : is_ok r = false <-> r <> I2C_OK.
Proof. destruct r; cbn; split; congruence. Qed.

Lemma ok_then_ok (m k : @M hw KI2CStatus) (h : hw) :
  result (m h) = I2C_OK ->
  ok_then m k h =
  (result (k (final (m h))), final (k (final (m h))),
   trace (m h) ++ trace (k (final (m h)))).
Proof.
  intros E. rewrite (run_eta (ok_then m k h)).
  rewrite result_ok_then, final_ok_then, trace_ok_then, E. reflexivity.
Qed.

Lemma ok_then_err (m k : @M hw KI2CStatus) (h : hw) :
  result (m h) <> I2C_OK -> ok_then m k h = m h.
Proof.
  intros E. apply is_ok_false in E. rewrite (run_eta (ok_then m k h)).
  rewrite result_ok_then, final_ok_then, trace_ok_then, E, app_nil_r.
  symmetry. apply run_eta.
Qed.

Lemma ok_else_stop_ok (m k : @M hw KI2CStatus) (h : hw) :
  result (m h) = I2C_OK ->
  ok_else_stop m k h =
  (result (k (final (m h))), final (k (final (m h))),
   trace (m h) ++ trace (k (final (m h)))).
Proof.
  intros E. unfold ok_else_stop. rewrite bind_run, E. reflexivity.
Qed.

Lemma ok_else_stop_err (m k : @M hw KI2CStatus) (h : hw) :
  result (m h) <> I2C_OK ->
  ok_else_stop m k h =
  (result (m h), cr1_set I2C_CR1_STOP (final (m h)),
   trace (m h) ++ [Cr1Set I2C_CR1_STOP]).
Proof.
  intros E. apply is_ok_false in E. unfold ok_else_stop.
  rewrite bind_run, E. reflexivity.
Qed.

End Run.

(** ** Traces *)

Lemma actions_app (a b : list op) : actions (a ++ b) = actions a ++ actions b.
Proof. apply filter_app. Qed.

Lemma stops_app (a b : list op) : stops (a ++ b) = (stops a + stops b)%nat.
Proof. apply count_occ_app. Qed.

Lemma stops_actions (t : list op) : stops (actions t) = stops t.
Proof.
  induction t as [|o t IH]; [reflexivity|].
  unfold stops, actions in *. cbn [filter].
  destruct o; cbn [status_only negb]; cbn [count_occ];
    try destruct (op_eq_dec _ _); try discriminate; try congruence;
    rewrite IH; reflexivity.
Qed.

Lemma dr_writes_actions (t : list op) : dr_writes (actions t) = dr_writes t.
Proof.
  induction t as [|o t IH]; [reflexivity|].
  destruct o; cbn; unfold actions, dr_writes in *; cbn; rewrite ?IH; reflexivity.
Qed.

Lemma dr_reads_actions (t : list op) : dr_reads (actions t) = dr_reads t.
Proof.
  induction t as [|o t IH]; [reflexivity|].
  destruct o; cbn; unfold actions, dr_reads in *; cbn; rewrite ?IH; reflexivity.
Qed.

Lemma stored_actions (t : list op) : stored (actions t) = stored t.
Proof.
  induction t as [|o t IH]; [reflexivity|].
  destruct o; cbn; unfold actions, stored in *; cbn; rewrite ?IH; reflexivity.
Qed.

Lemma spin_actions flag status (pre : list op) :
  Forall (spin_op flag status) pre -> actions pre = [].
Proof.
  induction 1 as [|o t Ho _ IH]; [reflexivity|].
  unfold actions in *. cbn [filter].
  destruct Ho as [->|[->| ->]]; cbn; exact IH.
Qed.

Lemma in_actions (o : op) (t : list op) :
  In o t -> status_only o = false -> In o (actions t).
Proof.
  intros Hin Hs. unfold actions. apply filter_In. rewrite Hs. auto.
Qed.

(** A successful wait acts neither on the bus nor on the buffer. *)
Lemma waited_actions flag status (t : list op) :
  waited flag status t -> actions t = [].
Proof.
  intros (pre & Hp & ->). rewrite actions_app, (spin_actions _ _ _ Hp).
  reflexivity.
Qed.

(** A failed wait acts on the bus only through the stop that the
    classifier generates when the address is not acknowledged. *)
Lemma gave_up_actions flag status r (t : list op) :
  gave_up flag status r t ->
  actions t = if KI2CStatus_eq_dec r I2C_ERROR_AF then [Cr1Set I2C_CR1_STOP] else [].
Proof.
  intros (pre & Hp & [(-> & ->)|[(-> & _ & ->)|(-> & _ & ->)]]);
    rewrite ?actions_app, (spin_actions _ _ _ Hp); cbn; reflexivity.
Qed.

Lemma gave_up_result flag status r (t : list op) :
  gave_up flag status r t ->
  r = I2C_ERROR_TIMEOUT \/
  (r = I2C_ERROR_NACK /\ (flag = I2C_FLAG_BTF \/ flag = I2C_FLAG_TXE)) \/
  (r = I2C_ERROR_AF /\ flag = I2C_FLAG_ADDR).
Proof.
  intros (pre & Hp & [(-> & _)|[(-> & Hf & _)|(-> & Hf & _)]]); auto.
Qed.

(** ** The error classifier and the flag poller *)

Section Waits.
Context {hw : Type} {dev : I2C_TypeDef hw}.

(** The three ways [hal_i2c_check_flag_special] can go. *)
Lemma special_cases (flag : i2c_flag) (h : hw) :
  let x := hal_i2c_check_flag_special flag h in
  ((flag = I2C_FLAG_BTF \/ flag = I2C_FLAG_TXE) /\
   fst (get_flag I2C_FLAG_AF h) = true /\
   result x = I2C_ERROR_NACK /\
   trace x = [RdFlag I2C_FLAG_AF true; ClrFlag I2C_FLAG_AF] /\
   final x = clear_flag I2C_FLAG_AF (snd (get_flag I2C_FLAG_AF h)))
  \/
  (flag = I2C_FLAG_ADDR /\
   fst (get_flag I2C_FLAG_AF h) = true /\
   result x = I2C_ERROR_AF /\
   trace x = [RdFlag I2C_FLAG_AF true; Cr1Set I2C_CR1_STOP; ClrFlag I2C_FLAG_AF] /\
   final x = clear_flag I2C_FLAG_AF
               (cr1_set I2C_CR1_STOP (snd (get_flag I2C_FLAG_AF h))))
  \/
  (result x = I2C_OK /\
   ((flag <> I2C_FLAG_BTF /\ flag <> I2C_FLAG_TXE /\ flag <> I2C_FLAG_ADDR /\
     trace x = [] /\ final x = h) \/
    ((flag = I2C_FLAG_BTF \/ flag = I2C_FLAG_TXE \/ flag = I2C_FLAG_ADDR) /\
     fst (get_flag I2C_FLAG_AF h) = false /\
     trace x = [RdFlag I2C_FLAG_AF false] /\
     final x = snd (get_flag I2C_FLAG_AF h)))).
Proof.
  unfold hal_i2c_check_flag_special, bind, GET_FLAG, CLEAR_FLAG, CR1_SET, mret.
  destruct flag; cbn;
    try (right; right; split; [reflexivity|]; left;
         repeat split; congruence);
    destruct (get_flag I2C_FLAG_AF h) as [[|] h1]; cbn; auto 10.
Qed.

Lemma special_result (flag : i2c_flag) (h : hw) :
  let r := result (hal_i2c_check_flag_special flag h) in
  r = I2C_OK \/ r = I2C_ERROR_NACK \/ r = I2C_ERROR_AF.
Proof.
  destruct (special_cases flag h) as [H|[H|H]]; cbn in *; intuition.
Qed.

(** One iteration of the loop of [hal_i2c_check_flag_timeout], written out. *)
Lemma check_flag_loop_step (flag : i2c_flag) (status : bool) (count : Z) (h : hw) :
  let p := get_flag flag h in
  let s := hal_i2c_check_flag_special flag (snd p) in
  check_flag_loop flag status count h =
  if Bool.eqb (fst p) status then
    if is_ok (result s) then
      if count >=? FLAG_CHECK_TIMEOUT then
        (I2C_ERROR_TIMEOUT, final s, RdFlag flag status :: trace s)
      else
        let y := check_flag_loop flag status (count + 1) (task_delay 50 (final s)) in
        (result y, final y, RdFlag flag status :: trace s ++ Delay 50 :: trace y)
    else (result s, final s, RdFlag flag status :: trace s)
  else (I2C_OK, snd p, [RdFlag flag (negb status)]).
Proof.
  cbn zeta. rewrite check_flag_loop_equation_1.
  unfold bind at 1. unfold GET_FLAG.
  destruct (get_flag flag h) as [v h1]. cbn [fst snd].
  destruct (Bool.eqb v status) eqn:Ev.
  - apply Bool.eqb_prop in Ev. subst v.
    unfold ok_then, bind.
    destruct (hal_i2c_check_flag_special flag h1) as [[r h2] t2]. cbn.
    destruct (is_ok r); cbn.
    + destruct (Z_ge_dec count FLAG_CHECK_TIMEOUT) as [Hge|Hlt].
      * assert (E : (count >=? FLAG_CHECK_TIMEOUT) = true) by (apply Z.geb_le; lia).
        rewrite E. cbn. rewrite app_nil_r. reflexivity.
      * destruct (count >=? FLAG_CHECK_TIMEOUT) eqn:E.
        { apply Z.geb_le in E. lia. }
        unfold vTaskDelay.
        destruct (check_flag_loop flag status (count + 1) (task_delay 50 h2))
          as [[r3 h3] t3]. cbn. reflexivity.
    + rewrite app_nil_r. reflexivity.
  - cbn. apply Bool.eqb_false_iff in Ev.
    destruct v, status; cbn; congruence.
Qed.

Lemma waited_more flag status pre t :
  Forall (spin_op flag status) pre -> waited flag status t ->
  waited flag status (pre ++ t).
Proof.
  intros Hp (q & Hq & ->). exists (pre ++ q). split.
  - apply Forall_app; auto.
  - now rewrite app_assoc.
Qed.

Lemma gave_up_more flag status r pre t :
  Forall (spin_op flag status) pre -> gave_up flag status r t ->
  gave_up flag status r (pre ++ t).
Proof.
  intros Hp (q & Hq & H). exists (pre ++ q). split.
  - apply Forall_app; auto.
  - rewrite <- !app_assoc.
    destruct H as [(-> & ->)|[(-> & Hf & ->)|(-> & Hf & ->)]]; auto 10.
Qed.

(** What the classifier leaves in the trace when it reports nothing. *)
Lemma special_ok_spin flag status (h : hw) :
  result (hal_i2c_check_flag_special flag h) = I2C_OK ->
  Forall (spin_op flag status) (trace (hal_i2c_check_flag_special flag h)).
Proof.
  intros Hr. destruct (special_cases flag h) as [H|[H|[_ [H|H]]]]; cbn zeta in H.
  - destruct H as (_ & _ & E & _). congruence.
  - destruct H as (_ & _ & E & _). congruence.
  - destruct H as (_ & _ & _ & -> & _). constructor.
  - destruct H as (_ & _ & -> & _).
    constructor; [unfold spin_op; auto | constructor].
Qed.

(** Every run of the poller is a successful wait or a failed one. *)
Lemma check_flag_loop_shape (flag : i2c_flag) (status : bool) :
  forall (n : nat) (count : Z) (h : hw), polls_left count = n ->
  let x := check_flag_loop flag status count h in
  (result x = I2C_OK /\ waited flag status (trace x)) \/
  (result x <> I2C_OK /\ gave_up flag status (result x) (trace x)).
Proof.
  induction n as [|n IH]; intros count h Hn; cbn zeta;
    rewrite check_flag_loop_step; cbn zeta;
    destruct (get_flag flag h) as [v h1]; cbn [fst snd];
    (destruct (Bool.eqb v status);
     [| left; split; [reflexivity| exists []; split; [constructor|reflexivity]]]);
    pose proof (special_ok_spin flag status h1) as Hspin;
    destruct (special_cases flag h1) as [H|[H|[H _]]]; cbn zeta in H.
  1,4: destruct H as (Hf & _ & Hr & Ht & _); rewrite Hr, Ht; cbn;
       right; split; [discriminate|];
       exists []; split; [constructor|]; right; left; auto.
  1,3: destruct H as (Hf & _ & Hr & Ht & _); rewrite Hr, Ht; cbn;
       right; split; [discriminate|];
       exists []; split; [constructor|]; right; right; auto.
  - rewrite H in *. cbn [is_ok].
    assert (E : (count >=? FLAG_CHECK_TIMEOUT) = true).
    { apply Z.geb_le. unfold polls_left in Hn. lia. }
    rewrite E. right. split; [discriminate|].
    exists (RdFlag flag status :: trace (hal_i2c_check_flag_special flag h1)).
    split; [|left; auto].
    constructor; [unfold spin_op; auto | auto].
  - rewrite H in *. cbn [is_ok].
    destruct (count >=? FLAG_CHECK_TIMEOUT) eqn:E.
    + right. split; [discriminate|].
      exists (RdFlag flag status :: trace (hal_i2c_check_flag_special flag h1)).
      split; [|left; auto].
      constructor; [unfold spin_op; auto | auto].
    + assert (Hn' : polls_left (count + 1) = n).
      { unfold polls_left in *.
        assert (~ FLAG_CHECK_TIMEOUT <= count) by (rewrite <- Z.geb_le; congruence).
        lia. }
      specialize (IH (count + 1)
                     (task_delay 50 (final (hal_i2c_check_flag_special flag h1))) Hn').
      cbn zeta in IH. cbn [result trace fst snd].
      assert (Hpre : Forall (spin_op flag status)
                (RdFlag flag status ::
                 trace (hal_i2c_check_flag_special flag h1) ++ [Delay 50])).
      { constructor; [unfold spin_op; auto|].
        apply Forall_app. split; auto.
        constructor; [unfold spin_op; auto | constructor]. }
      replace (RdFlag flag status ::
               trace (hal_i2c_check_flag_special flag h1) ++
               Delay 50 :: trace (check_flag_loop flag status (count + 1)
                 (task_delay 50 (final (hal_i2c_check_flag_special flag h1)))))
        with ((RdFlag flag status ::
               trace (hal_i2c_check_flag_special flag h1) ++ [Delay 50]) ++
              trace (check_flag_loop flag status (count + 1)
                 (task_delay 50 (final (hal_i2c_check_flag_special flag h1)))))
        by (cbn; rewrite <- app_assoc; reflexivity).
      destruct IH as [[Hr Hw]|[Hr Hg]].
      * left. split; [exact Hr|]. apply waited_more; auto.
      * right. split; [exact Hr|]. apply gave_up_more; auto.
Qed.

(** The result of one iteration, in the vocabulary of [flag_at] and
    [special_at]. *)
Lemma check_flag_loop_here (flag : i2c_flag) (status : bool) (count : Z) (i : nat) (h : hw) :
  let r := result (check_flag_loop flag status count (iteration_start flag i h)) in
  (flag_at flag i h <> status -> r = I2C_OK) /\
  (flag_at flag i h = status -> special_at flag i h <> I2C_OK ->
   r = special_at flag i h) /\
  (flag_at flag i h = status -> special_at flag i h = I2C_OK ->
   FLAG_CHECK_TIMEOUT <= count -> r = I2C_ERROR_TIMEOUT) /\
  (flag_at flag i h = status -> special_at flag i h = I2C_OK ->
   count < FLAG_CHECK_TIMEOUT ->
   r = result (check_flag_loop flag status (count + 1) (iteration_start flag (S i) h))).
Proof.
  cbn zeta. rewrite check_flag_loop_step. cbn zeta.
  unfold flag_at, special_at.
  change (iteration_start flag (S i) h)
    with (poll_round flag (iteration_start flag i h)).
  unfold poll_round.
  set (hi := iteration_start flag i h).
  destruct (get_flag flag hi) as [v h1]. cbn [fst snd].
  set (s := hal_i2c_check_flag_special flag h1).
  repeat split.
  - intros Hv. apply Bool.eqb_false_iff in Hv. rewrite Hv. reflexivity.
  - intros -> Hs. rewrite Bool.eqb_reflx.
    apply is_ok_false in Hs. rewrite Hs. reflexivity.
  - intros -> Hs Hc. rewrite Bool.eqb_reflx.
    apply is_ok_true in Hs. rewrite Hs.
    assert (E : (count >=? FLAG_CHECK_TIMEOUT) = true) by (apply Z.geb_le; lia).
    rewrite E. reflexivity.
  - intros -> Hs Hc. rewrite Bool.eqb_reflx.
    apply is_ok_true in Hs. rewrite Hs.
    destruct (count >=? FLAG_CHECK_TIMEOUT) eqn:E.
    + apply Z.geb_le in E. lia.
    + reflexivity.
Qed.

(** As long as the flag stays put and the classifier is silent, the wait
    is still going on, [i] iterations later. *)
Lemma check_flag_loop_ahead (flag : i2c_flag) (status : bool) (h : hw) :
  forall (i : nat) (count : Z),
  (forall j, (j < i)%nat ->
     flag_at flag j h = status /\ special_at flag j h = I2C_OK) ->
  count + Z.of_nat i <= FLAG_CHECK_TIMEOUT ->
  result (check_flag_loop flag status count h) =
  result (check_flag_loop flag status (count + Z.of_nat i) (iteration_start flag i h)).
Proof.
  induction i as [|i IH]; intros count Hq Hc.
  - cbn. rewrite Z.add_0_r. reflexivity.
  - rewrite IH by (try lia; intros j Hj; apply Hq; lia).
    destruct (Hq i) as [Hf Hs]; [lia|].
    destruct (check_flag_loop_here flag status (count + Z.of_nat i) i h)
      as (_ & _ & _ & Hgo).
    rewrite Hgo by (auto; lia).
    f_equal. f_equal. lia.
Qed.

(** Every wait of the driver succeeds or gives up. *)
Lemma flag_wait_cases (flag : i2c_flag) (status : bool) (h : hw) :
  let x := hal_i2c_check_flag_timeout flag status h in
  (result x = I2C_OK /\ waited flag status (trace x)) \/
  (result x <> I2C_OK /\ gave_up flag status (result x) (trace x)).
Proof. exact (check_flag_loop_shape flag status (polls_left 0) 0 h eq_refl). Qed.

Lemma addr_timeout_run (flag : i2c_flag) (h : hw) :
  let y := hal_i2c_check_flag_timeout flag RESET h in
  hal_i2c_check_addr_timeout flag h =
  (retag I2C_ERROR_ADDR_TIMEOUT (result y), final y, trace y).
Proof.
  cbn zeta. unfold hal_i2c_check_addr_timeout, bind.
  destruct (hal_i2c_check_flag_timeout flag false h) as [[r h1] t].
  destruct r; cbn; rewrite app_nil_r; reflexivity.
Qed.

Lemma btf_timeout_run (h : hw) :
  let y := hal_i2c_check_flag_timeout I2C_FLAG_BTF RESET h in
  hal_i2c_check_btf_timeout h =
  (retag I2C_ERROR_BTF_TIMEOUT (result y), final y, trace y).
Proof.
  cbn zeta. unfold hal_i2c_check_btf_timeout, bind.
  destruct (hal_i2c_check_flag_timeout I2C_FLAG_BTF false h) as [[r h1] t].
  destruct r; cbn; rewrite app_nil_r; reflexivity.
Qed.

Lemma txe_timeout_run (h : hw) :
  let y := hal_i2c_check_flag_timeout I2C_FLAG_TXE RESET h in
  hal_i2c_check_txe_timeout h =
  (retag I2C_ERROR_TXE_TIMEOUT (result y), final y, trace y).
Proof.
  cbn zeta. unfold hal_i2c_check_txe_timeout, bind.
  destruct (hal_i2c_check_flag_timeout I2C_FLAG_TXE false h) as [[r h1] t].
  destruct r; cbn; rewrite app_nil_r; reflexivity.
Qed.

(** The waits of the data phase act neither on the bus nor on the buffer,
    and fail only with a NACK or with their own timeout. *)
Lemma btf_wait_cases (h : hw) :
  let x := hal_i2c_check_btf_timeout h in
  (result x = I2C_OK /\ waited I2C_FLAG_BTF false (trace x)) \/
  ((result x = I2C_ERROR_BTF_TIMEOUT \/ result x = I2C_ERROR_NACK) /\
   actions (trace x) = []).
Proof.
  cbn zeta. rewrite btf_timeout_run. cbn [result trace fst snd].
  destruct (flag_wait_cases I2C_FLAG_BTF false h) as [[Hr Hw]|[Hr Hg]]; cbn zeta in *.
  - left. rewrite Hr. auto.
  - right. pose proof (gave_up_actions _ _ _ _ Hg) as Ha.
    destruct (gave_up_result _ _ _ _ Hg) as [E|[[E _]|[E F]]];
      try discriminate; rewrite E in *; cbn in *; auto.
Qed.

Lemma txe_wait_cases (h : hw) :
  let x := hal_i2c_check_txe_timeout h in
  (result x = I2C_OK /\ waited I2C_FLAG_TXE false (trace x)) \/
  ((result x = I2C_ERROR_TXE_TIMEOUT \/ result x = I2C_ERROR_NACK) /\
   actions (trace x) = []).
Proof.
  cbn zeta. rewrite txe_timeout_run. cbn [result trace fst snd].
  destruct (flag_wait_cases I2C_FLAG_TXE false h) as [[Hr Hw]|[Hr Hg]]; cbn zeta in *.
  - left. rewrite Hr. auto.
  - right. pose proof (gave_up_actions _ _ _ _ Hg) as Ha.
    destruct (gave_up_result _ _ _ _ Hg) as [E|[[E _]|[E F]]];
      try discriminate; rewrite E in *; cbn in *; auto.
Qed.

(** A wait on a flag that the classifier ignores (SB, RXNE, BUSY) fails
    only with the generic timeout. *)
Lemma plain_wait_cases (flag : i2c_flag) (status : bool) (h : hw) :
  flag <> I2C_FLAG_BTF -> flag <> I2C_FLAG_TXE -> flag <> I2C_FLAG_ADDR ->
  let x := hal_i2c_check_flag_timeout flag status h in
  (result x = I2C_OK /\ waited flag status (trace x)) \/
  (result x = I2C_ERROR_TIMEOUT /\ actions (trace x) = []).
Proof.
  intros H1 H2 H3. cbn zeta.
  destruct (flag_wait_cases flag status h) as [[Hr Hw]|[Hr Hg]]; cbn zeta in *.
  - left. auto.
  - right. pose proof (gave_up_actions _ _ _ _ Hg) as Ha.
    destruct (gave_up_result _ _ _ _ Hg) as [E|[[E [F|F]]|[E F]]];
      try contradiction. rewrite E in *. cbn in *. auto.
Qed.

(** The common end of both address requests: wait for SB, send the
    address byte, wait for ADDR. *)
Lemma request_cases (byte : Z) (h : hw) :
  let x := ok_then (hal_i2c_check_flag_timeout I2C_FLAG_SB RESET)
             (bind (DR_WRITE byte)
                (fun _ => hal_i2c_check_addr_timeout I2C_FLAG_ADDR)) h in
  (result x = I2C_OK /\
   exists w2 w3, waited I2C_FLAG_SB false w2 /\ waited I2C_FLAG_ADDR false w3 /\
     trace x = w2 ++ [DrWr byte] ++ w3) \/
  (result x = I2C_ERROR_TIMEOUT /\ actions (trace x) = [] /\
   result (hal_i2c_check_flag_timeout I2C_FLAG_SB RESET h) = I2C_ERROR_TIMEOUT) \/
  (result x = I2C_ERROR_ADDR_TIMEOUT /\ actions (trace x) = [DrWr byte]) \/
  (result x = I2C_ERROR_AF /\ actions (trace x) = [DrWr byte; Cr1Set I2C_CR1_STOP]).
Proof.
  cbn zeta.
  destruct (flag_wait_cases I2C_FLAG_SB false h) as [[Hr Hw]|[Hr Hg]]; cbn zeta in *.
  - rewrite (ok_then_ok _ _ _ Hr). cbn [result final trace fst snd].
    rewrite bind_run. cbn [DR_WRITE result final trace fst snd].
    set (h1 := dr_write byte _).
    rewrite addr_timeout_run. cbn [result final trace fst snd].
    destruct (flag_wait_cases I2C_FLAG_ADDR false h1) as [[Hr1 Hw1]|[Hr1 Hg1]]; cbn zeta in *.
    + left. rewrite Hr1. split; [reflexivity|]. eauto.
    + right. pose proof (gave_up_actions _ _ _ _ Hg1) as Ha.
      rewrite !actions_app, Ha, (waited_actions _ _ _ Hw).
      destruct (gave_up_result _ _ _ _ Hg1) as [E|[[E [F|F]]|[E _]]];
        try discriminate; rewrite E; cbn; auto.
  - rewrite (ok_then_err _ _ _ Hr).
    pose proof (gave_up_actions _ _ _ _ Hg) as Ha.
    destruct (gave_up_result _ _ _ _ Hg) as [E|[[E [F|F]]|[E F]]];
      try discriminate.
    right. left. rewrite E in *. cbn in Ha. auto.
Qed.

End Waits.

(** ** The address phase *)

Section AddressPhase.
Context {hw : Type} {dev : I2C_TypeDef hw}.

(** The outcomes of an address request and what each did on the bus. *)
Lemma request_write_cases (addr : Z) (h : hw) :
  let x := hal_i2c_master_request_write addr h in
  let a := I2C_7BIT_ADD_WRITE addr in
  (result x = I2C_OK /\ actions (trace x) = [Cr1Set I2C_CR1_START; DrWr a]) \/
  (result x = I2C_ERROR_TIMEOUT /\ actions (trace x) = [Cr1Set I2C_CR1_START]) \/
  (result x = I2C_ERROR_ADDR_TIMEOUT /\
   actions (trace x) = [Cr1Set I2C_CR1_START; DrWr a]) \/
  (result x = I2C_ERROR_AF /\
   actions (trace x) = [Cr1Set I2C_CR1_START; DrWr a; Cr1Set I2C_CR1_STOP]).
Proof.
  cbn zeta. unfold hal_i2c_master_request_write.
  rewrite bind_run. cbn [CR1_SET result final trace fst snd].
  destruct (request_cases (I2C_7BIT_ADD_WRITE addr) (cr1_set I2C_CR1_START h))
    as [H|[H|[H|H]]]; cbn zeta in H.
  - destruct H as (Hx & w2 & w3 & Hw2 & Hw3 & Ht). left. split; [exact Hx|].
    rewrite Ht, !actions_app, (waited_actions _ _ _ Hw2), (waited_actions _ _ _ Hw3).
    reflexivity.
  - destruct H as (Hx & Ht & _). right. left. split; [exact Hx|].
    rewrite actions_app, Ht. reflexivity.
  - destruct H as (Hx & Ht). right. right. left. split; [exact Hx|].
    rewrite actions_app, Ht. reflexivity.
  - destruct H as (Hx & Ht). right. right. right. split; [exact Hx|].
    rewrite actions_app, Ht. reflexivity.
Qed.

Lemma request_read_cases (addr : Z) (h : hw) :
  let x := hal_i2c_master_request_read addr h in
  let a := I2C_7BIT_ADD_READ addr in
  (result x = I2C_OK /\
   actions (trace x) = [Cr1Set I2C_CR1_ACK; Cr1Set I2C_CR1_START; DrWr a]) \/
  (result x = I2C_ERROR_TIMEOUT /\
   actions (trace x) = [Cr1Set I2C_CR1_ACK; Cr1Set I2C_CR1_START]) \/
  (result x = I2C_ERROR_ADDR_TIMEOUT /\
   actions (trace x) = [Cr1Set I2C_CR1_ACK; Cr1Set I2C_CR1_START; DrWr a]) \/
  (result x = I2C_ERROR_AF /\
   actions (trace x) =
     [Cr1Set I2C_CR1_ACK; Cr1Set I2C_CR1_START; DrWr a; Cr1Set I2C_CR1_STOP]).
Proof.
  cbn zeta. unfold hal_i2c_master_request_read.
  rewrite !bind_run. cbn [CR1_SET result final trace fst snd].
  destruct (request_cases (I2C_7BIT_ADD_READ addr)
              (cr1_set I2C_CR1_START (cr1_set I2C_CR1_ACK h)))
    as [H|[H|[H|H]]]; cbn zeta in H.
  - destruct H as (Hx & w2 & w3 & Hw2 & Hw3 & Ht). left. split; [exact Hx|].
    rewrite Ht, !actions_app, (waited_actions _ _ _ Hw2), (waited_actions _ _ _ Hw3).
    reflexivity.
  - destruct H as (Hx & Ht & _). right. left. split; [exact Hx|].
    rewrite !actions_app, Ht. reflexivity.
  - destruct H as (Hx & Ht). right. right. left. split; [exact Hx|].
    rewrite !actions_app, Ht. reflexivity.
  - destruct H as (Hx & Ht). right. right. right. split; [exact Hx|].
    rewrite !actions_app, Ht. reflexivity.
Qed.

(** The outcomes of [hal_i2c_master_setup_write] and what each did on the
    bus. *)
Lemma setup_write_cases (addr : Z) (h : hw) :
  let s := hal_i2c_master_setup_write addr h in
  let a := I2C_7BIT_ADD_WRITE (u16 (Z.shiftl addr 1)) in
  (result s = I2C_OK /\
   actions (trace s) = [Cr1Clr I2C_CR1_POS; Cr1Set I2C_CR1_START; DrWr a; ClrAddr]) \/
  (result s = I2C_ERROR_TIMEOUT /\
   (actions (trace s) = [] \/
    actions (trace s) = [Cr1Clr I2C_CR1_POS; Cr1Set I2C_CR1_START])) \/
  (result s = I2C_ERROR_ADDR_TIMEOUT /\
   actions (trace s) = [Cr1Clr I2C_CR1_POS; Cr1Set I2C_CR1_START; DrWr a]) \/
  (result s = I2C_ERROR_AF /\
   actions (trace s) =
     [Cr1Clr I2C_CR1_POS; Cr1Set I2C_CR1_START; DrWr a; Cr1Set I2C_CR1_STOP]).
Proof.
  cbn zeta. unfold hal_i2c_master_setup_write.
  destruct (plain_wait_cases I2C_FLAG_BUSY true h) as [[Hr Hw]|[Hr Ha]];
    try discriminate; cbn zeta in *.
  - rewrite (ok_then_ok _ _ _ Hr). cbn [result final trace fst snd].
    set (h0 := final _).
    rewrite bind_run. cbn [CR1_CLEAR result final trace fst snd].
    rewrite bind_run.
    set (q := hal_i2c_master_request_write _ _).
    pose proof (request_write_cases (u16 (Z.shiftl addr 1)) (cr1_clear I2C_CR1_POS h0)) as H.
    cbn zeta in H. fold q in H.
    cbn [result final trace fst snd].
    rewrite !actions_app, (waited_actions _ _ _ Hw).
    destruct H as [[Hx Ht]|[[Hx Ht]|[[Hx Ht]|[Hx Ht]]]]; rewrite Hx, Ht;
      cbn [is_ok]; rewrite ?bind_run;
      cbn [CLEAR_ADDRFLAG mret result final trace fst snd]; cbn; auto 10.
  - rewrite ok_then_err by (rewrite Hr; discriminate).
    right. left. auto.
Qed.

(** The outcomes of the address part of [hal_i2c_master_setup_read]. *)
Lemma setup_read_address_cases (addr : Z) (h : hw) :
  let s := setup_read_address addr h in
  let a := I2C_7BIT_ADD_READ (u16 (Z.shiftl addr 1)) in
  (result s = I2C_OK /\
   actions (trace s) =
     [Cr1Clr I2C_CR1_POS; Cr1Set I2C_CR1_ACK; Cr1Set I2C_CR1_START; DrWr a]) \/
  (result s = I2C_ERROR_TIMEOUT /\
   (actions (trace s) = [] \/
    actions (trace s) =
      [Cr1Clr I2C_CR1_POS; Cr1Set I2C_CR1_ACK; Cr1Set I2C_CR1_START])) \/
  (result s = I2C_ERROR_ADDR_TIMEOUT /\
   actions (trace s) =
     [Cr1Clr I2C_CR1_POS; Cr1Set I2C_CR1_ACK; Cr1Set I2C_CR1_START; DrWr a]) \/
  (result s = I2C_ERROR_AF /\
   actions (trace s) =
     [Cr1Clr I2C_CR1_POS; Cr1Set I2C_CR1_ACK; Cr1Set I2C_CR1_START; DrWr a;
      Cr1Set I2C_CR1_STOP]).
Proof.
  cbn zeta. unfold setup_read_address.
  destruct (plain_wait_cases I2C_FLAG_BUSY true h) as [[Hr Hw]|[Hr Ha]];
    try discriminate; cbn zeta in *.
  - rewrite (ok_then_ok _ _ _ Hr). cbn [result final trace fst snd].
    set (h0 := final _).
    rewrite bind_run. cbn [CR1_CLEAR result final trace fst snd].
    set (q := hal_i2c_master_request_read _ _).
    pose proof (request_read_cases (u16 (Z.shiftl addr 1)) (cr1_clear I2C_CR1_POS h0)) as H.
    cbn zeta in H. fold q in H.
    rewrite !actions_app, (waited_actions _ _ _ Hw).
    destruct H as [[Hx Ht]|[[Hx Ht]|[[Hx Ht]|[Hx Ht]]]]; rewrite Hx, Ht;
      cbn; auto 10.
  - rewrite ok_then_err by (rewrite Hr; discriminate).
    right. left. auto.
Qed.

(** When the address part of the set-up of a read fails, ADDR has not
    been cleared, POS has not been set, acknowledge has not been disabled
    and nothing was read. *)
Lemma setup_read_address_failed (addr : Z) (h : hw) :
  let s := setup_read_address addr h in
  result s <> I2C_OK ->
  forall o, In o (trace s) ->
    o <> ClrAddr /\ o <> Cr1Set I2C_CR1_POS /\ o <> Cr1Clr I2C_CR1_ACK /\
    (forall v, o <> DrRd v) /\ (forall v, o <> Store v).
Proof.
  cbn zeta. intros Hr o Hin.
  destruct (status_only o) eqn:Hs.
  - destruct o; cbn in Hs; try discriminate; repeat split; intros; discriminate.
  - pose proof (in_actions o _ Hin Hs) as Ha.
    destruct (setup_read_address_cases addr h)
      as [[E _]|[[_ [E|E]]|[[_ E]|[_ E]]]]; cbn zeta in E;
      [contradiction| | | |]; rewrite E in Ha; cbn in Ha;
      repeat (destruct Ha as [<-|Ha]; [repeat split; intros; discriminate|]);
      contradiction.
Qed.

End AddressPhase.

(** ** The write loop *)

Lemma deref_n_firstn n : forall ptr, (n <= length ptr)%nat -> deref_n n ptr = firstn n ptr.
Proof.
  induction n as [|n IH]; intros ptr Hl; [reflexivity|].
  destruct ptr as [|p ptr]; cbn in *; [lia|]. rewrite IH by lia. reflexivity.
Qed.

Lemma stops_DrWr (l : list Z) : stops (map DrWr l) = 0%nat.
Proof. induction l; cbn; auto. Qed.
Lemma dr_writes_DrWr (l : list Z) : dr_writes (map DrWr l) = l.
Proof. induction l; cbn; unfold dr_writes in *; cbn; congruence. Qed.

Section WriteLoop.
Context {hw : Type} {dev : I2C_TypeDef hw}.

(** The write loop: its only actions are writes of successive bytes of
    the buffer to the data register, followed by one stop, which is the
    last access of the loop.  All [len] bytes are written when it
    succeeds; when it fails, the stop follows the wait that failed. *)
Lemma write_loop_shape :
  forall (n : nat) (ptr : list Z) (len : Z) (h : hw), bytes_left len = n ->
  let x := master_write_loop ptr len h in
  exists body k,
    trace x = body ++ [Cr1Set I2C_CR1_STOP] /\
    actions body = map DrWr (deref_n k ptr) /\
    (k <= Z.to_nat len)%nat /\
    ((result x = I2C_OK /\ k = Z.to_nat len) \/
     ((result x = I2C_ERROR_TXE_TIMEOUT \/ result x = I2C_ERROR_BTF_TIMEOUT \/
       result x = I2C_ERROR_NACK) /\
      exists pre h',
        (body = pre ++ trace (hal_i2c_check_txe_timeout h') /\
         result (hal_i2c_check_txe_timeout h') = result x) \/
        (body = pre ++ trace (hal_i2c_check_btf_timeout h') /\
         result (hal_i2c_check_btf_timeout h') = result x))).
Proof.
  induction n as [n IH] using lt_wf_ind. intros ptr len h Hn. cbn zeta.
  rewrite master_write_loop_equation_1.
  destruct (Z_gt_dec len 0) as [Hpos|Hle].
  2:{ exists [], 0%nat. rewrite bind_run. cbn.
      repeat split; try lia. left. split; [reflexivity|lia]. }
  destruct (txe_wait_cases h) as [[Hr Hw]|[Hr Ha]]; cbn zeta in *.
  2:{ rewrite ok_else_stop_err by (destruct Hr as [E|E]; rewrite E; discriminate).
      cbn [result final trace fst snd].
      exists (trace (hal_i2c_check_txe_timeout h)), 0%nat.
      repeat split; try lia; [exact Ha|]. right. split; [tauto|].
      exists [], h. left. auto. }
  rewrite (ok_else_stop_ok _ _ _ Hr). cbn [result final trace fst snd].
  set (h0 := final _).
  rewrite bind_run. cbn [DR_WRITE result final trace fst snd].
  rewrite bind_run, get_flag_run. cbn [result final trace fst snd].
  set (h1 := dr_write _ _). set (btf := fst (get_flag I2C_FLAG_BTF h1)).
  set (h2 := snd (get_flag I2C_FLAG_BTF h1)).
  pose proof (waited_actions _ _ _ Hw) as Haw.
  destruct (Bool.eqb btf true && negb (len - 1 =? 0)) eqn:Ec.
  - (* second byte in the same iteration *)
    apply andb_prop in Ec. destruct Ec as [_ Ec].
    apply negb_true_iff, Z.eqb_neq in Ec.
    rewrite bind_run. cbn [DR_WRITE result final trace fst snd].
    set (h3 := dr_write _ h2).
    destruct (btf_wait_cases h3) as [[Hr3 Hw3]|[Hr3 Ha3]]; cbn zeta in *.
    + rewrite (ok_else_stop_ok _ _ _ Hr3). cbn [result final trace fst snd].
      set (h4 := final _).
      destruct (IH (bytes_left (len - 1 - 1))
                  ltac:(unfold bytes_left in *; lia)
                  (tl (tl ptr)) (len - 1 - 1) h4 eq_refl)
        as (body & k & Ht & Hact & Hk & Hres).
      cbn zeta in *. rewrite Ht.
      exists (trace (hal_i2c_check_txe_timeout h) ++
              [DrWr (hd 0 ptr)] ++ [RdFlag I2C_FLAG_BTF btf] ++
              [DrWr (hd 0 (tl ptr))] ++ trace (hal_i2c_check_btf_timeout h3) ++ body),
             (S (S k)).
      split; [rewrite <- !app_assoc; reflexivity|].
      split.
      { rewrite !actions_app, Haw, (waited_actions _ _ _ Hw3), Hact. reflexivity. }
      split; [lia|].
      destruct Hres as [[Hx Hk']|[Hx (pre & h' & Hb)]].
      * left. split; [exact Hx|lia].
      * right. split; [exact Hx|].
        exists (trace (hal_i2c_check_txe_timeout h) ++
                [DrWr (hd 0 ptr)] ++ [RdFlag I2C_FLAG_BTF btf] ++
                [DrWr (hd 0 (tl ptr))] ++ trace (hal_i2c_check_btf_timeout h3) ++ pre), h'.
        destruct Hb as [[Hb Hrb]|[Hb Hrb]]; [left|right]; split; auto;
          rewrite Hb, <- !app_assoc; reflexivity.
    + rewrite ok_else_stop_err by (destruct Hr3 as [E|E]; rewrite E; discriminate).
      cbn [result final trace fst snd].
      exists (trace (hal_i2c_check_txe_timeout h) ++
              [DrWr (hd 0 ptr)] ++ [RdFlag I2C_FLAG_BTF btf] ++
              [DrWr (hd 0 (tl ptr))] ++ trace (hal_i2c_check_btf_timeout h3)),
             2%nat.
      split; [rewrite <- !app_assoc; reflexivity|].
      split; [rewrite !actions_app, Haw, Ha3; reflexivity|].
      split; [lia|].
      right. split; [tauto|].
      exists (trace (hal_i2c_check_txe_timeout h) ++
              [DrWr (hd 0 ptr)] ++ [RdFlag I2C_FLAG_BTF btf] ++
              [DrWr (hd 0 (tl ptr))]), h3.
      right. split; [rewrite <- !app_assoc; reflexivity | reflexivity].
  - destruct (btf_wait_cases h2) as [[Hr3 Hw3]|[Hr3 Ha3]]; cbn zeta in *.
    + rewrite (ok_else_stop_ok _ _ _ Hr3). cbn [result final trace fst snd].
      set (h4 := final _).
      destruct (IH (bytes_left (len - 1))
                  ltac:(unfold bytes_left in *; lia)
                  (tl ptr) (len - 1) h4 eq_refl)
        as (body & k & Ht & Hact & Hk & Hres).
      cbn zeta in *. rewrite Ht.
      exists (trace (hal_i2c_check_txe_timeout h) ++
              [DrWr (hd 0 ptr)] ++ [RdFlag I2C_FLAG_BTF btf] ++
              trace (hal_i2c_check_btf_timeout h2) ++ body),
             (S k).
      split; [rewrite <- !app_assoc; reflexivity|].
      split.
      { rewrite !actions_app, Haw, (waited_actions _ _ _ Hw3), Hact. reflexivity. }
      split; [lia|].
      destruct Hres as [[Hx Hk']|[Hx (pre & h' & Hb)]].
      * left. split; [exact Hx|lia].
      * right. split; [exact Hx|].
        exists (trace (hal_i2c_check_txe_timeout h) ++
                [DrWr (hd 0 ptr)] ++ [RdFlag I2C_FLAG_BTF btf] ++
                trace (hal_i2c_check_btf_timeout h2) ++ pre), h'.
        destruct Hb as [[Hb Hrb]|[Hb Hrb]]; [left|right]; split; auto;
          rewrite Hb, <- !app_assoc; reflexivity.
    + rewrite ok_else_stop_err by (destruct Hr3 as [E|E]; rewrite E; discriminate).
      cbn [result final trace fst snd].
      exists (trace (hal_i2c_check_txe_timeout h) ++
              [DrWr (hd 0 ptr)] ++ [RdFlag I2C_FLAG_BTF btf] ++
              trace (hal_i2c_check_btf_timeout h2)),
             1%nat.
      split; [rewrite <- !app_assoc; reflexivity|].
      split; [rewrite !actions_app, Haw, Ha3; reflexivity|].
      split; [lia|].
      right. split; [tauto|].
      exists (trace (hal_i2c_check_txe_timeout h) ++
              [DrWr (hd 0 ptr)] ++ [RdFlag I2C_FLAG_BTF btf]), h2.
      right. split; [rewrite <- !app_assoc; reflexivity | reflexivity].
Qed.

(** The write loop, wait by wait: whole iterations whose waits succeed,
    then either the loop ends and the stop is generated, or a wait fails
    and the stop follows it at once, its error being the result. *)
Lemma write_loop_rounds :
  forall (n : nat) (ptr : list Z) (len : Z) (h : hw), bytes_left len = n ->
  let x := master_write_loop ptr len h in
  exists t ptr' len' h',
    write_rounds ptr len h t ptr' len' h' /\
    ((len' <= 0 /\ result x = I2C_OK /\ trace x = t ++ [Cr1Set I2C_CR1_STOP]) \/
     (0 < len' /\
      let txe := hal_i2c_check_txe_timeout h' in
      let b := bytes_out ptr' len' (final txe) in
      let btf := hal_i2c_check_btf_timeout (final b) in
      (result txe <> I2C_OK /\ result x = result txe /\
       trace x = t ++ trace txe ++ [Cr1Set I2C_CR1_STOP]) \/
      (result txe = I2C_OK /\ result btf <> I2C_OK /\ result x = result btf /\
       trace x = t ++ trace txe ++ trace b ++ trace btf ++ [Cr1Set I2C_CR1_STOP]))).
Proof.
  induction n as [n IH] using lt_wf_ind. intros ptr len h Hn. cbn zeta.
  rewrite master_write_loop_equation_1.
  destruct (Z_gt_dec len 0) as [Hpos|Hle].
  2:{ exists [], ptr, len, h. split; [constructor|].
      left. rewrite bind_run. cbn. repeat split. lia. }
  destruct (KI2CStatus_eq_dec (result (hal_i2c_check_txe_timeout h)) I2C_OK) as [Hr|Hr].
  2:{ exists [], ptr, len, h. split; [constructor|].
      right. split; [lia|]. left.
      rewrite (ok_else_stop_err _ _ _ Hr). cbn [result final trace fst snd].
      repeat split. exact Hr. }
  rewrite (ok_else_stop_ok _ _ _ Hr). cbn [result final trace fst snd].
  set (h0 := final (hal_i2c_check_txe_timeout h)).
  rewrite bind_run. cbn [DR_WRITE result final trace fst snd].
  rewrite bind_run, get_flag_run. cbn [result final trace fst snd].
  set (b := bytes_out ptr len h0).
  match goal with
  | |- context [trace (?f ?s)] =>
      match f with (if _ then _ else _) => set (y := f s) end
  end.
  assert (Hy : [DrWr (hd 0 ptr)] ++ [RdFlag I2C_FLAG_BTF
                 (fst (get_flag I2C_FLAG_BTF (dr_write (hd 0 ptr) h0)))] ++ trace y =
               trace b ++
               trace (ok_else_stop hal_i2c_check_btf_timeout
                        (master_write_loop (fst (result b)) (snd (result b))) (final b)) /\
               result y =
               result (ok_else_stop hal_i2c_check_btf_timeout
                        (master_write_loop (fst (result b)) (snd (result b))) (final b))).
  { subst y b. unfold bytes_out.
    destruct (Bool.eqb _ true && negb (len - 1 =? 0)).
    - rewrite bind_run. cbn [DR_WRITE result final trace fst snd]. split; reflexivity.
    - cbn [result final trace fst snd]. split; reflexivity. }
  destruct Hy as [Hyt Hyr].
  assert (Hlen : snd (result b) = len - 1 \/ (snd (result b) = len - 1 - 1 /\ len <> 1)).
  { subst b. unfold bytes_out.
    destruct (Bool.eqb _ true && negb (len - 1 =? 0)) eqn:Ec; cbn; [right|left; auto].
    apply andb_prop in Ec. destruct Ec as [_ Ec].
    apply negb_true_iff, Z.eqb_neq in Ec. split; [reflexivity|lia]. }
  rewrite Hyr. 
  replace (trace (hal_i2c_check_txe_timeout h) ++ [DrWr (hd 0 ptr)] ++
           [RdFlag I2C_FLAG_BTF (fst (get_flag I2C_FLAG_BTF (dr_write (hd 0 ptr) h0)))] ++
           trace y)
    with (trace (hal_i2c_check_txe_timeout h) ++ trace b ++
          trace (ok_else_stop hal_i2c_check_btf_timeout
                   (master_write_loop (fst (result b)) (snd (result b))) (final b)))
    by (rewrite <- Hyt; reflexivity).
  clearbody y. clear Hyt Hyr y.
  destruct (KI2CStatus_eq_dec (result (hal_i2c_check_btf_timeout (final b))) I2C_OK)
    as [Hr3|Hr3].
  2:{ exists [], ptr, len, h. split; [constructor|].
      right. split; [lia|]. right. fold h0. fold b.
      rewrite (ok_else_stop_err _ _ _ Hr3). cbn [result final trace fst snd].
      repeat split; auto. }
  rewrite (ok_else_stop_ok _ _ _ Hr3). cbn [result final trace fst snd].
  set (h4 := final (hal_i2c_check_btf_timeout (final b))).
  destruct (IH (bytes_left (snd (result b)))
              ltac:(unfold bytes_left in *; lia)
              (fst (result b)) (snd (result b)) h4 eq_refl)
    as (t & ptr' & len' & h' & Hro & Hend).
  cbn zeta in Hend.
  exists (trace (hal_i2c_check_txe_timeout h) ++ trace b ++
          trace (hal_i2c_check_btf_timeout (final b)) ++ t), ptr', len', h'.
  split.
  { apply rounds_more; auto. lia. }
  destruct Hend as [(H1 & H2 & H3)|(H1 & [(H2 & H3 & H4)|(H2 & H3 & H4 & H5)])].
  - left. rewrite H2, H3, <- !app_assoc. auto.
  - right. split; [exact H1|]. left. rewrite H3, H4, <- !app_assoc. auto.
  - right. split; [exact H1|]. right. rewrite H4, H5, <- !app_assoc. auto.
Qed.

End WriteLoop.

(** ** The read loop *)

Section ReadLoop.
Context {hw : Type} {dev : I2C_TypeDef hw}.

Lemma switch_trace (len : Z) (h : hw) :
  trace (setup_read_switch len h) =
  match len with
  | 0 => [ClrAddr; Cr1Set I2C_CR1_STOP]
  | 1 => [Cr1Clr I2C_CR1_ACK; ClrAddr; Cr1Set I2C_CR1_STOP]
  | 2 => [Cr1Clr I2C_CR1_ACK; Cr1Set I2C_CR1_POS; ClrAddr]
  | _ => [Cr1Set I2C_CR1_ACK; ClrAddr]
  end.
Proof.
  destruct len as [|p|p]; [reflexivity| |reflexivity].
  destruct p as [p|p|]; [reflexivity| |reflexivity].
  destruct p as [p|p|]; reflexivity.
Qed.

Lemma switch_final (len : Z) (h : hw) :
  final (setup_read_switch len h) =
  match len with
  | 0 => cr1_set I2C_CR1_STOP (clear_addrflag h)
  | 1 => cr1_set I2C_CR1_STOP (clear_addrflag (cr1_clear I2C_CR1_ACK h))
  | 2 => clear_addrflag (cr1_set I2C_CR1_POS (cr1_clear I2C_CR1_ACK h))
  | _ => clear_addrflag (cr1_set I2C_CR1_ACK h)
  end.
Proof.
  destruct len as [|p|p]; [reflexivity| |reflexivity].
  destruct p as [p|p|]; [reflexivity| |reflexivity].
  destruct p as [p|p|]; reflexivity.
Qed.

(** A read is its address phase followed, when that succeeded, by the
    set-up switch and the data loop. *)
Lemma master_read_unfold (i2c : KI2CNum) (addr len : Z) (h : hw) :
  kprv_i2c_master_read i2c addr len h =
  ok_then (setup_read_address addr) (read_after_address len) h.
Proof.
  unfold kprv_i2c_master_read, hal_i2c_get_handle, hal_i2c_master_setup_read.
  destruct (KI2CStatus_eq_dec (result (setup_read_address addr h)) I2C_OK) as [E|E].
  - rewrite (ok_then_ok (setup_read_address addr) (read_after_address len) h E).
    assert (E2 : result (ok_then (setup_read_address addr)
                   (bind (setup_read_switch len) (fun _ => mret I2C_OK)) h) = I2C_OK).
    { rewrite (ok_then_ok _ _ _ E). cbn [result fst]. rewrite bind_run. reflexivity. }
    rewrite (ok_then_ok _ _ _ E2).
    rewrite (ok_then_ok _ _ _ E). cbn [result final trace fst snd].
    unfold read_after_address. rewrite !bind_run.
    cbn [mret result final trace fst snd]. rewrite app_nil_r, <- app_assoc.
    reflexivity.
  - rewrite (ok_then_err (setup_read_address addr) (read_after_address len) h E).
    assert (E2 : ok_then (setup_read_address addr)
                   (bind (setup_read_switch len) (fun _ => mret I2C_OK)) h
                 = setup_read_address addr h).
    { apply ok_then_err. exact E. }
    rewrite ok_then_err; rewrite E2; auto.
Qed.

Lemma read_loop_done (len : Z) (h : hw) :
  len <= 0 -> master_read_loop len h = (I2C_OK, h, []).
Proof.
  intros Hl. rewrite master_read_loop_equation_1.
  destruct (Z_gt_dec len 0); [lia|reflexivity].
Qed.

(** The last-byte branch ([len == 1]). *)
Lemma read_loop_1_cases (h : hw) :
  let x := master_read_loop 1 h in
  (result x = I2C_OK /\
   exists w v, waited I2C_FLAG_RXNE true w /\
     trace x = w ++ [DrRd v; Store (u8 v)]) \/
  (result x = I2C_ERROR_TIMEOUT /\ actions (trace x) = []).
Proof.
  cbn zeta. rewrite master_read_loop_equation_1. cbn.
  destruct (plain_wait_cases I2C_FLAG_RXNE true h) as [[Hr Hw]|[Hr Ha]];
    try discriminate; cbn zeta in *.
  - rewrite (ok_then_ok _ _ _ Hr). cbn [result final trace fst snd].
    rewrite bind_run, read_byte_run. cbn [result final trace fst snd].
    rewrite read_loop_done by lia. cbn [result trace fst snd].
    left. split; [reflexivity|]. rewrite app_nil_r. eauto.
  - rewrite ok_then_err by (rewrite Hr; discriminate). auto.
Qed.

(** The two-byte branch ([len == 2]). *)
Lemma read_loop_2_cases (h : hw) :
  let x := master_read_loop 2 h in
  (result x = I2C_OK /\
   exists w v1 v2, waited I2C_FLAG_BTF false w /\
     trace x = w ++ [Cr1Set I2C_CR1_STOP; DrRd v1; Store (u8 v1);
                     DrRd v2; Store (u8 v2)]) \/
  ((result x = I2C_ERROR_BTF_TIMEOUT \/ result x = I2C_ERROR_NACK) /\
   actions (trace x) = []).
Proof.
  cbn zeta. rewrite master_read_loop_equation_1. cbn.
  destruct (btf_wait_cases h) as [[Hr Hw]|[Hr Ha]]; cbn zeta in *.
  - rewrite (ok_then_ok _ _ _ Hr). cbn [result final trace fst snd].
    rewrite !bind_run, !read_byte_run. cbn [CR1_SET result final trace fst snd].
    rewrite read_loop_done by lia. cbn [result trace fst snd].
    left. split; [reflexivity|]. rewrite app_nil_r. cbn. eauto.
  - rewrite ok_then_err by (destruct Hr as [E|E]; rewrite E; discriminate). auto.
Qed.

(** The three-byte branch ([len == 3]). *)
Lemma read_loop_3_cases (h : hw) :
  let x := master_read_loop 3 h in
  (result x = I2C_OK /\
   exists w1 w2 v1 v2 v3,
     waited I2C_FLAG_BTF false w1 /\ waited I2C_FLAG_BTF false w2 /\
     trace x = w1 ++ [Cr1Clr I2C_CR1_ACK; DrRd v1; Store (u8 v1)] ++
               w2 ++ [Cr1Set I2C_CR1_STOP; DrRd v2; Store (u8 v2);
                      DrRd v3; Store (u8 v3)]) \/
  ((result x = I2C_ERROR_BTF_TIMEOUT \/ result x = I2C_ERROR_NACK) /\
   (actions (trace x) = [] \/
    exists w1 w2 v1, waited I2C_FLAG_BTF false w1 /\ actions w2 = [] /\
      trace x = w1 ++ [Cr1Clr I2C_CR1_ACK; DrRd v1; Store (u8 v1)] ++ w2)).
Proof.
  cbn zeta. rewrite master_read_loop_equation_1. cbn.
  destruct (btf_wait_cases h) as [[Hr Hw]|[Hr Ha]]; cbn zeta in *.
  - rewrite (ok_then_ok _ _ _ Hr). cbn [result final trace fst snd].
    rewrite !bind_run, !read_byte_run. cbn [CR1_CLEAR result final trace fst snd].
    set (h1 := snd (dr_read _)).
    destruct (btf_wait_cases h1) as [[Hr1 Hw1]|[Hr1 Ha1]]; cbn zeta in *.
    + rewrite (ok_then_ok _ _ _ Hr1). cbn [result final trace fst snd].
      rewrite !bind_run, !read_byte_run. cbn [CR1_SET result final trace fst snd].
      rewrite read_loop_done by lia. cbn [result trace fst snd].
      left. split; [reflexivity|]. rewrite app_nil_r. cbn.
      do 5 eexists. split; [exact Hw|]. split; [exact Hw1|]. reflexivity.
    + rewrite ok_then_err by (destruct Hr1 as [E|E]; rewrite E; discriminate).
      right. split; [exact Hr1|]. right.
      do 3 eexists. split; [exact Hw|]. split; [exact Ha1|]. reflexivity.
  - rewrite ok_then_err by (destruct Hr as [E|E]; rewrite E; discriminate). auto.
Qed.

End ReadLoop.

(** ** The general branch of the read loop *)

Section General.
Context {hw : Type} {dev : I2C_TypeDef hw}.

(** The general branch: it only polls and reads bytes, it hands over to
    the loop head with three or two bytes remaining, and the loop is the
    general phase followed by the loop from there. *)
Lemma general_phase_spec :
  forall (n : nat) (len : Z) (h : hw), bytes_left len = n ->
  let g := general_phase len h in
  let r := fst (result g) in
  let k := snd (result g) in
  (exists vs, actions (trace g) = byte_reads vs /\
     (r = I2C_OK -> Z.of_nat (length vs) = len - k)) /\
  (r = I2C_OK \/ r = I2C_ERROR_TIMEOUT) /\
  (r = I2C_OK -> len > 3 -> k = 3 \/ k = 2) /\
  (len <= 3 -> g = (I2C_OK, len, h, [])) /\
  master_read_loop len h =
    (if is_ok r then
       let y := master_read_loop k (final g) in
       (result y, final y, trace g ++ trace y)
     else (r, final g, trace g)).
Proof.
  induction n as [n IH] using lt_wf_ind. intros len h Hn. cbn zeta.
  rewrite general_phase_equation_1.
  destruct (Z_gt_dec len 3) as [Hgt|Hle].
  2:{ cbn. split; [exists []; split; [reflexivity|intros _; cbn; lia]|].
      split; [auto|]. split; [intros; lia|]. split; [reflexivity|].
      destruct (master_read_loop len h) as [[r1 h1] t1]. reflexivity. }
  rewrite master_read_loop_equation_1.
  destruct (Z_gt_dec len 0) as [_|?]; [|lia].
  destruct (len =? 1) eqn:E1; [apply Z.eqb_eq in E1; lia|].
  destruct (len =? 2) eqn:E2; [apply Z.eqb_eq in E2; lia|].
  destruct (len =? 3) eqn:E3; [apply Z.eqb_eq in E3; lia|].
  clear E1 E2 E3.
  destruct (plain_wait_cases I2C_FLAG_RXNE true h) as [[Hr Hw]|[Hr Ha]];
    try discriminate; cbn zeta in *.
  2:{ rewrite ok_then_err by (rewrite Hr; discriminate).
      rewrite bind_run, Hr. cbn [is_ok mret result final trace fst snd].
      rewrite app_nil_r.
      split; [exists []; split; [exact Ha|discriminate]|].
      split; [auto|]. split; [discriminate|]. split; [intros; lia|].
      rewrite <- Hr. apply run_eta. }
  rewrite (ok_then_ok _ _ _ Hr). rewrite (bind_run (hal_i2c_check_flag_timeout _ _)), Hr.
  cbn [is_ok result final trace fst snd].
  set (w := hal_i2c_check_flag_timeout I2C_FLAG_RXNE true h) in *.
  rewrite !(bind_run read_byte), !(bind_run (GET_FLAG _)), !read_byte_run, !get_flag_run.
  cbn [result final trace fst snd].
  set (h1 := snd (dr_read (final w))). set (v1 := fst (dr_read (final w))).
  set (btf := fst (get_flag I2C_FLAG_BTF h1)). set (h2 := snd (get_flag I2C_FLAG_BTF h1)).
  pose proof (waited_actions _ _ _ Hw) as Haw.
  destruct (Bool.eqb btf true).
  - rewrite !(bind_run read_byte), !read_byte_run. cbn [result final trace fst snd].
    set (h3 := snd (dr_read h2)). set (v2 := fst (dr_read h2)).
    destruct (IH (bytes_left (len - 1 - 1)) ltac:(unfold bytes_left in *; lia)
                (len - 1 - 1) h3 eq_refl) as ((vs & Hact & Hlen) & Hres & Hk & Hsmall & Hloop).
    cbn zeta in *. rewrite Hloop.
    set (g := general_phase (len - 1 - 1) h3) in *.
    split.
    { exists (v1 :: v2 :: vs). split.
      - rewrite !actions_app, Haw, Hact. reflexivity.
      - intros Hok. specialize (Hlen Hok). cbn [length]. lia. }
    split; [exact Hres|].
    split.
    { intros Hok _. destruct (Z_gt_dec (len - 1 - 1) 3) as [Hg|Hg]; [auto|].
      rewrite Hsmall by lia. cbn. lia. }
    split; [intros; lia|].
    destruct (is_ok (fst (result g))); cbn [result final trace fst snd];
      rewrite <- ?app_assoc; reflexivity.
  - destruct (IH (bytes_left (len - 1)) ltac:(unfold bytes_left in *; lia)
                (len - 1) h2 eq_refl) as ((vs & Hact & Hlen) & Hres & Hk & Hsmall & Hloop).
    cbn zeta in *. rewrite Hloop.
    set (g := general_phase (len - 1) h2) in *.
    split.
    { exists (v1 :: vs). split.
      - rewrite !actions_app, Haw, Hact. reflexivity.
      - intros Hok. specialize (Hlen Hok). cbn [length]. lia. }
    split; [exact Hres|].
    split.
    { intros Hok _. destruct (Z_gt_dec (len - 1) 3) as [Hg|Hg]; [auto|].
      rewrite Hsmall by lia. cbn. lia. }
    split; [intros; lia|].
    destruct (is_ok (fst (result g))); cbn [result final trace fst snd];
      rewrite <- ?app_assoc; reflexivity.
Qed.
End General.

(** ** The poller, iteration by iteration *)

Section Poller.
Context {hw : Type} {dev : I2C_TypeDef hw}.

Lemma special_at_not_timeout (flag : i2c_flag) (i : nat) (h : hw) :
  special_at flag i h <> I2C_ERROR_TIMEOUT.
Proof.
  unfold special_at.
  destruct (special_result flag (snd (get_flag flag (iteration_start flag i h))))
    as [E|[E|E]]; cbn zeta in E; rewrite E; discriminate.
Qed.

(** An error of the classifier on iteration [i] is the result of the
    wait. *)
Lemma poll_error_wins (flag : i2c_flag) (status : bool) (h : hw) (i : nat) :
  (i <= 100)%nat ->
  (forall j, (j < i)%nat ->
     flag_at flag j h = status /\ special_at flag j h = I2C_OK) ->
  flag_at flag i h = status ->
  special_at flag i h <> I2C_OK ->
  result (hal_i2c_check_flag_timeout flag status h) = special_at flag i h.
Proof.
  intros Hi Hq Hf Hs. unfold hal_i2c_check_flag_timeout.
  rewrite (check_flag_loop_ahead flag status h i 0 Hq)
    by (unfold FLAG_CHECK_TIMEOUT; lia).
  destruct (check_flag_loop_here flag status (0 + Z.of_nat i) i h)
    as (_ & Herr & _).
  exact (Herr Hf Hs).
Qed.

(** The generic timeout is the result exactly when all 101 iterations go
    round the loop. *)
Lemma poll_timeout_iff (flag : i2c_flag) (status : bool) (h : hw) :
  result (hal_i2c_check_flag_timeout flag status h) = I2C_ERROR_TIMEOUT <->
  forall i, (i <= 100)%nat ->
    flag_at flag i h = status /\ special_at flag i h = I2C_OK.
Proof.
  unfold hal_i2c_check_flag_timeout. split.
  - intros Hr i. induction i as [i IH] using lt_wf_ind. intros Hi.
    assert (Hq : forall j, (j < i)%nat ->
              flag_at flag j h = status /\ special_at flag j h = I2C_OK)
      by (intros j Hj; apply IH; lia).
    rewrite (check_flag_loop_ahead flag status h i 0 Hq) in Hr
      by (unfold FLAG_CHECK_TIMEOUT; lia).
    destruct (check_flag_loop_here flag status (0 + Z.of_nat i) i h)
      as (Hok & Herr & _).
    destruct (Bool.bool_dec (flag_at flag i h) status) as [Hf|Hf].
    + split; [exact Hf|].
      destruct (KI2CStatus_eq_dec (special_at flag i h) I2C_OK) as [Hs|Hs]; [exact Hs|].
      rewrite (Herr Hf Hs) in Hr. exfalso.
      exact (special_at_not_timeout flag i h Hr).
    + rewrite (Hok Hf) in Hr. discriminate.
  - intros Hall.
    rewrite (check_flag_loop_ahead flag status h 100 0)
      by (unfold FLAG_CHECK_TIMEOUT; try lia; intros j Hj; apply Hall; lia).
    destruct (check_flag_loop_here flag status (0 + Z.of_nat 100) 100%nat h)
      as (_ & _ & Hto & _).
    destruct (Hall 100%nat) as [Hf Hs]; [lia|].
    apply Hto; auto. unfold FLAG_CHECK_TIMEOUT. lia.
Qed.

(** On a wait for BTF, TXE or ADDR, an acknowledge failure that shows on
    iteration [i] makes the classifier report an error. *)
Lemma af_seen_is_reported (flag : i2c_flag) (i : nat) (h : hw) :
  flag = I2C_FLAG_BTF \/ flag = I2C_FLAG_TXE \/ flag = I2C_FLAG_ADDR ->
  af_at flag i h = true ->
  special_at flag i h =
    match flag with I2C_FLAG_ADDR => I2C_ERROR_AF | _ => I2C_ERROR_NACK end.
Proof.
  unfold af_at, special_at. intros Hf Haf.
  destruct (special_cases flag (snd (get_flag flag (iteration_start flag i h))))
    as [H|[H|[_ [H|H]]]]; cbn zeta in H.
  - destruct H as ([->| ->] & _ & E & _); exact E.
  - destruct H as (-> & _ & E & _). exact E.
  - destruct H as (H1 & H2 & H3 & _). destruct Hf as [Hf|[Hf|Hf]]; contradiction.
  - destruct H as (_ & E & _). congruence.
Qed.

End Poller.

(** ** The two entry points *)

Section Facade.
Context {hw : Type} {dev : I2C_TypeDef hw}.

(** Every wait begins with a read of its flag. *)
Lemma flag_wait_first (flag : i2c_flag) (status : bool) (h : hw) :
  exists v t, trace (hal_i2c_check_flag_timeout flag status h) = RdFlag flag v :: t.
Proof.
  unfold hal_i2c_check_flag_timeout. rewrite check_flag_loop_step. cbn zeta.
  destruct (Bool.eqb (fst (get_flag flag h)) status); [|cbn; eauto].
  destruct (is_ok _); [|cbn; eauto].
  destruct (0 >=? FLAG_CHECK_TIMEOUT); cbn; eauto.
Qed.

Lemma ok_then_first (m k : @M hw KI2CStatus) (h : hw) (o : op) :
  (exists t, trace (m h) = o :: t) -> exists t, trace (ok_then m k h) = o :: t.
Proof.
  intros (t & Ht). rewrite trace_ok_then, Ht. cbn. eauto.
Qed.

(** The data loop of a read ends with [I2C_OK], the generic timeout (of
    a wait on RXNE), the BTF timeout or a NACK. *)
Lemma read_loop_result (len : Z) (h : hw) :
  let r := result (master_read_loop len h) in
  r = I2C_OK \/ r = I2C_ERROR_TIMEOUT \/ r = I2C_ERROR_BTF_TIMEOUT \/ r = I2C_ERROR_NACK.
Proof.
  cbn zeta.
  destruct (general_phase_spec _ len h eq_refl) as (_ & Hr & Hk & Hsmall & Hloop).
  cbn zeta in *. rewrite Hloop.
  set (g := general_phase len h) in *.
  destruct Hr as [Hr|Hr]; rewrite Hr; cbn [is_ok result fst]; [|auto].
  assert (Hk3 : snd (result g) <= 3).
  { destruct (Z_gt_dec len 3) as [Hg|Hg].
    - destruct (Hk Hr Hg) as [E|E]; rewrite E; lia.
    - rewrite Hsmall by lia. cbn. lia. }
  set (k := snd (result g)) in *. set (h1 := final g).
  destruct (Z_le_gt_dec k 0) as [H0|H0].
  { rewrite read_loop_done by exact H0. auto. }
  assert (Hc : k = 1 \/ k = 2 \/ k = 3) by lia.
  destruct Hc as [->|[->| ->]].
  - destruct (read_loop_1_cases h1) as [[E _]|[E _]]; cbn zeta in E; rewrite E; auto.
  - destruct (read_loop_2_cases h1) as [[E _]|[[E|E] _]]; cbn zeta in E; rewrite E; auto.
  - destruct (read_loop_3_cases h1) as [[E _]|[[E|E] _]]; cbn zeta in E; rewrite E; auto.
Qed.

End Facade.

(** * Main results *)

(** C1 does not hold as stated.  On a bus that is always ready, a 4-byte
    read reads two bytes in its first pass through the general branch, so
    two bytes remain; what it does from there is not what a fresh 2-byte
    read does after its address phase: the fresh read first disables
    acknowledge, sets POS and clears ADDR, the long read does none of
    these. *)
Lemma long_read_tail_counterexample :
  let a := @setup_read_address nat (scripted ready_flags clock_data) 0x50 0%nat in
  let h1 := final (@setup_read_switch nat (scripted ready_flags clock_data) 4 (final a)) in
  let g := @general_phase nat (scripted ready_flags clock_data) 4 h1 in
  result a = I2C_OK /\
  result g = (I2C_OK, 2) /\
  trace (@kprv_i2c_master_read nat (scripted ready_flags clock_data) 1%nat 0x50 4 0%nat) =
    trace a ++ [Cr1Set I2C_CR1_ACK; ClrAddr] ++ trace g ++
    trace (@master_read_loop nat (scripted ready_flags clock_data) 2 (final g)) /\
  actions (trace (@master_read_loop nat (scripted ready_flags clock_data) 2 (final g))) <>
  actions (trace (@read_after_address nat (scripted ready_flags clock_data) 2 (final g))).
Proof.
  vm_compute. repeat split. discriminate.
Qed.

(** C1, as amended.  For a read with more than three bytes to go whose
    waits in the general branch all succeed: the general branch hands over
    to the loop head with exactly 3 or 2 bytes remaining (never 1 or 0),
    having acted on the bus only by reading [len - k] bytes; the rest of
    the read is the data loop run with the remaining count [k], and that
    is exactly what a fresh read of length [k] performs after its own
    address phase and set-up switch, when these end in the same device
    state.  The set-up switch of the fresh read is not part of the tail of
    the long read: with 2 bytes remaining, the long read's data loop never
    disables acknowledge, never sets POS and never clears ADDR. *)
Theorem long_read_tail :
  forall (hw : Type) (dev : I2C_TypeDef hw) (len : Z) (h : hw),
  let g := general_phase len h in
  let k := snd (result g) in
  let tail := master_read_loop k (final g) in
  len > 3 ->
  fst (result g) = I2C_OK ->
  (k = 3 \/ k = 2) /\
  (exists vs, actions (trace g) = byte_reads vs /\ Z.of_nat (length vs) = len - k) /\
  master_read_loop len h = (result tail, final tail, trace g ++ trace tail) /\
  (forall (i2c : KI2CNum) (addr : Z) (h0 : hw),
     let a := setup_read_address addr h0 in
     result a = I2C_OK ->
     final (setup_read_switch k (final a)) = final g ->
     kprv_i2c_master_read i2c addr k h0 =
     (result tail, final tail,
      trace a ++ trace (setup_read_switch k (final a)) ++ trace tail)) /\
  (k = 2 ->
   forall o, In o (trace (master_read_loop len h)) ->
     o <> Cr1Clr I2C_CR1_ACK /\ o <> Cr1Set I2C_CR1_POS /\ o <> ClrAddr).
Proof.
  intros hw dev len h g k tail Hlen Hok.
  destruct (general_phase_spec _ len h eq_refl)
    as ((vs & Hact & Hvs) & _ & Hk & _ & Hloop).
  cbn zeta in *. fold g in Hact, Hvs, Hk, Hloop. fold k in Hvs, Hk, Hloop.
  rewrite Hok in Hloop. cbn [is_ok] in Hloop. fold tail in Hloop.
  split; [exact (Hk Hok Hlen)|].
  split; [exists vs; split; [exact Hact | exact (Hvs Hok)]|].
  split; [exact Hloop|].
  split.
  - intros i2c addr h0 Ha Hfin.
    rewrite master_read_unfold.
    rewrite (ok_then_ok (setup_read_address addr) _ h0 Ha).
    unfold read_after_address. rewrite bind_run.
    cbn [result final trace fst snd]. rewrite Hfin. fold tail.
    reflexivity.
  - intros Hk2 o Hin. rewrite Hloop in Hin. cbn [trace snd] in Hin.
    assert (Hno : ~ In o (actions (trace g ++ trace tail)) ->
                  status_only o = true).
    { intros Hn. destruct (status_only o) eqn:E; [reflexivity|].
      exfalso. apply Hn. apply in_actions; assumption. }
    assert (Hta : actions (trace tail) = [] \/
                  exists v1 v2, actions (trace tail) =
                    [Cr1Set I2C_CR1_STOP; DrRd v1; Store (u8 v1); DrRd v2; Store (u8 v2)]).
    { subst tail. rewrite Hk2.
      destruct (read_loop_2_cases (final g)) as [(_ & w & v1 & v2 & Hw & Ht)|(_ & Ha)];
        cbn zeta in *.
      - right. exists v1, v2. rewrite Ht, actions_app, (waited_actions _ _ _ Hw).
        reflexivity.
      - left. exact Ha. }
    assert (Hbr : forall o', In o' (byte_reads vs) -> exists v, o' = DrRd v \/ o' = Store v).
    { clear. induction vs as [|v vs IH]; intros o' Hin; [destruct Hin|].
      cbn in Hin. destruct Hin as [<-|[<-|Hin]]; eauto. }
    destruct (in_dec op_eq_dec o (actions (trace g ++ trace tail))) as [Hi|Hn].
    + rewrite actions_app, Hact in Hi. apply in_app_or in Hi.
      destruct Hi as [Hi|Hi].
      * destruct (Hbr _ Hi) as (v & [->| ->]); repeat split; discriminate.
      * destruct Hta as [E|(v1 & v2 & E)]; rewrite E in Hi; cbn in Hi;
          [contradiction|].
        repeat (destruct Hi as [<-|Hi]; [repeat split; discriminate|]).
        contradiction.
    + apply Hno in Hn. destruct o; cbn in Hn; try discriminate;
        repeat split; discriminate.
Qed.

(** C1 on a bus that is always ready: five bytes. *)
Lemma long_read_tail_witness :
  @master_read_loop nat (scripted ready_flags clock_data) 5 9%nat =
  (let g := @general_phase nat (scripted ready_flags clock_data) 5 9%nat in
   let tail := @master_read_loop nat (scripted ready_flags clock_data)
                 (snd (result g)) (final g) in
   (result tail, final tail, trace g ++ trace tail)).
Proof.
  apply (long_read_tail nat (scripted ready_flags clock_data) 5 9%nat);
    [lia | reflexivity].
Defined.

(** C2.  A read of length 2 whose address phase failed is that address
    phase and nothing more (POS not set, ADDR not cleared).  A read of
    length 2 whose address phase succeeded: up to there
    the driver has acted on the bus by the POS reset, the acknowledge
    enable, the start and the address byte, so ADDR has not been cleared
    and no stop generated; then acknowledge is disabled and POS set, and
    only then ADDR is cleared, with no stop in the set-up; in the data
    phase the wait for BTF ends on the observation that BTF is set, the
    stop follows it at once and precedes the first of the two reads of the
    data register, each stored in the buffer.  If the wait for BTF fails
    nothing more is done on the bus. *)
Theorem read_length_2_order :
  forall (hw : Type) (dev : I2C_TypeDef hw) (i2c : KI2CNum) (addr : Z) (h : hw),
  let a := setup_read_address addr h in
  let x := kprv_i2c_master_read i2c addr 2 h in
  (result a <> I2C_OK ->
   x = a /\
   forall o, In o (trace x) ->
     o <> ClrAddr /\ o <> Cr1Set I2C_CR1_POS /\ o <> Cr1Clr I2C_CR1_ACK /\
     (forall v, o <> DrRd v) /\ (forall v, o <> Store v)) /\
  (result a = I2C_OK ->
   actions (trace a) =
     [Cr1Clr I2C_CR1_POS; Cr1Set I2C_CR1_ACK; Cr1Set I2C_CR1_START;
      DrWr (I2C_7BIT_ADD_READ (u16 (Z.shiftl addr 1)))] /\
   ((result x = I2C_OK /\
    exists w v1 v2, waited I2C_FLAG_BTF RESET w /\
      trace x = trace a ++
                [Cr1Clr I2C_CR1_ACK; Cr1Set I2C_CR1_POS; ClrAddr] ++
                w ++
                [Cr1Set I2C_CR1_STOP; DrRd v1; Store (u8 v1);
                 DrRd v2; Store (u8 v2)]) \/
   ((result x = I2C_ERROR_BTF_TIMEOUT \/ result x = I2C_ERROR_NACK) /\
    exists w, actions w = [] /\
      trace x = trace a ++
                [Cr1Clr I2C_CR1_ACK; Cr1Set I2C_CR1_POS; ClrAddr] ++ w))).
Proof.
  intros hw dev i2c addr h a x. split.
  { intros Ha.
    assert (Hx : x = a).
    { subst x. rewrite master_read_unfold. apply ok_then_err. exact Ha. }
    split; [exact Hx|]. rewrite Hx.
    exact (setup_read_address_failed addr h Ha). }
  intros Ha. split.
  - destruct (setup_read_address_cases addr h) as [[_ E]|[[E _]|[[E _]|[E _]]]];
      cbn zeta in E; fold a in E; congruence.
  - subst x. rewrite master_read_unfold.
    rewrite (ok_then_ok (setup_read_address addr) _ h Ha). fold a.
    cbn [result trace fst snd]. unfold read_after_address.
    rewrite bind_run. cbn [result final trace fst snd].
    rewrite switch_trace, switch_final.
    destruct (read_loop_2_cases
                (clear_addrflag (cr1_set I2C_CR1_POS (cr1_clear I2C_CR1_ACK (final a)))))
      as [(Hr & w & v1 & v2 & Hw & Ht)|(Hr & Hact)]; cbn zeta in *.
    + left. split; [exact Hr|]. exists w, v1, v2. split; [exact Hw|].
      rewrite Ht. reflexivity.
    + right. split; [exact Hr|]. eexists. split; [exact Hact|]. reflexivity.
Qed.

(** C2 on a bus that is always ready. *)
Lemma read_length_2_order_witness :
  exists w v1 v2, waited I2C_FLAG_BTF RESET w /\
    trace (@kprv_i2c_master_read nat (scripted ready_flags clock_data) 1%nat 0x50 2 0%nat) =
    trace (@setup_read_address nat (scripted ready_flags clock_data) 0x50 0%nat) ++
    [Cr1Clr I2C_CR1_ACK; Cr1Set I2C_CR1_POS; ClrAddr] ++ w ++
    [Cr1Set I2C_CR1_STOP; DrRd v1; Store (u8 v1); DrRd v2; Store (u8 v2)].
Proof.
  destruct (read_length_2_order nat (scripted ready_flags clock_data) 1%nat 0x50 0%nat)
    as [_ Hok].
  destruct (Hok eq_refl) as [_ [[_ H]|[[H|H] _]]].
  - exact H.
  - vm_compute in H. discriminate H.
  - vm_compute in H. discriminate H.
Defined.

(** C3.  A read of length 3 whose address phase failed is that address
    phase and nothing more (acknowledge, enabled before the start, is not
    disabled).  A read of length 3 whose address phase succeeded: acknowledge
    was enabled before the start and is enabled again by the set-up, which
    then clears ADDR; in the data phase the first wait for BTF ends on the
    observation that BTF is set, acknowledge is disabled right after it
    and before the first read of the data register; the second wait for
    BTF ends on BTF set, the stop follows it at once and precedes the last
    two reads.  If a wait fails nothing more is done on the bus. *)
Theorem read_length_3_order :
  forall (hw : Type) (dev : I2C_TypeDef hw) (i2c : KI2CNum) (addr : Z) (h : hw),
  let a := setup_read_address addr h in
  let x := kprv_i2c_master_read i2c addr 3 h in
  (result a <> I2C_OK ->
   x = a /\
   forall o, In o (trace x) ->
     o <> ClrAddr /\ o <> Cr1Set I2C_CR1_POS /\ o <> Cr1Clr I2C_CR1_ACK /\
     (forall v, o <> DrRd v) /\ (forall v, o <> Store v)) /\
  (result a = I2C_OK ->
   actions (trace a) =
     [Cr1Clr I2C_CR1_POS; Cr1Set I2C_CR1_ACK; Cr1Set I2C_CR1_START;
      DrWr (I2C_7BIT_ADD_READ (u16 (Z.shiftl addr 1)))] /\
   ((result x = I2C_OK /\
    exists w1 w2 v1 v2 v3,
      waited I2C_FLAG_BTF RESET w1 /\ waited I2C_FLAG_BTF RESET w2 /\
      trace x = trace a ++ [Cr1Set I2C_CR1_ACK; ClrAddr] ++
                w1 ++ [Cr1Clr I2C_CR1_ACK; DrRd v1; Store (u8 v1)] ++
                w2 ++ [Cr1Set I2C_CR1_STOP; DrRd v2; Store (u8 v2);
                       DrRd v3; Store (u8 v3)]) \/
   ((result x = I2C_ERROR_BTF_TIMEOUT \/ result x = I2C_ERROR_NACK) /\
    ((exists w1, actions w1 = [] /\
        trace x = trace a ++ [Cr1Set I2C_CR1_ACK; ClrAddr] ++ w1) \/
     (exists w1 w2 v1, waited I2C_FLAG_BTF RESET w1 /\ actions w2 = [] /\
        trace x = trace a ++ [Cr1Set I2C_CR1_ACK; ClrAddr] ++
                  w1 ++ [Cr1Clr I2C_CR1_ACK; DrRd v1; Store (u8 v1)] ++ w2))))).
Proof.
  intros hw dev i2c addr h a x. split.
  { intros Ha.
    assert (Hx : x = a).
    { subst x. rewrite master_read_unfold. apply ok_then_err. exact Ha. }
    split; [exact Hx|]. rewrite Hx.
    exact (setup_read_address_failed addr h Ha). }
  intros Ha. split.
  - destruct (setup_read_address_cases addr h) as [[_ E]|[[E _]|[[E _]|[E _]]]];
      cbn zeta in E; fold a in E; congruence.
  - subst x. rewrite master_read_unfold.
    rewrite (ok_then_ok (setup_read_address addr) _ h Ha). fold a.
    cbn [result trace fst snd]. unfold read_after_address.
    rewrite bind_run. cbn [result final trace fst snd].
    rewrite switch_trace, switch_final.
    destruct (read_loop_3_cases (clear_addrflag (cr1_set I2C_CR1_ACK (final a))))
      as [(Hr & w1 & w2 & v1 & v2 & v3 & Hw1 & Hw2 & Ht)|(Hr & [Hact|(w1 & w2 & v1 & Hw1 & Hw2 & Ht)])];
      cbn zeta in *.
    + left. split; [exact Hr|]. exists w1, w2, v1, v2, v3.
      split; [exact Hw1|]. split; [exact Hw2|]. rewrite Ht. reflexivity.
    + right. split; [exact Hr|]. left. eexists. split; [exact Hact|]. reflexivity.
    + right. split; [exact Hr|]. right. exists w1, w2, v1.
      split; [exact Hw1|]. split; [exact Hw2|]. rewrite Ht. reflexivity.
Qed.

(** C3 on a bus that is always ready. *)
Lemma read_length_3_order_witness :
  exists w1 w2 v1 v2 v3,
    waited I2C_FLAG_BTF RESET w1 /\ waited I2C_FLAG_BTF RESET w2 /\
    trace (@kprv_i2c_master_read nat (scripted ready_flags clock_data) 1%nat 0x50 3 0%nat) =
    trace (@setup_read_address nat (scripted ready_flags clock_data) 0x50 0%nat) ++
    [Cr1Set I2C_CR1_ACK; ClrAddr] ++
    w1 ++ [Cr1Clr I2C_CR1_ACK; DrRd v1; Store (u8 v1)] ++
    w2 ++ [Cr1Set I2C_CR1_STOP; DrRd v2; Store (u8 v2); DrRd v3; Store (u8 v3)].
Proof.
  destruct (read_length_3_order nat (scripted ready_flags clock_data) 1%nat 0x50 0%nat)
    as [_ Hok].
  destruct (Hok eq_refl) as [_ [[_ H]|[[H|H] _]]].
  - exact H.
  - vm_compute in H. discriminate H.
  - vm_compute in H. discriminate H.
Defined.

(** C4.  A read of length 1 whose address phase succeeded disables
    acknowledge, then clears ADDR, then generates the stop at once, as
    claimed; but its wait on RXNE is made with [SET], so the loop goes
    round while RXNE is set and the data register is read right after
    RXNE was seen reset.  On a bus where the received byte waits in the
    data register (RXNE set until DR is read), the read sees RXNE set 101
    times and returns the generic timeout without reading the byte. *)
Theorem read_length_1_rxne_polarity :
  (forall (hw : Type) (dev : I2C_TypeDef hw) (i2c : KI2CNum) (addr : Z) (h : hw),
   let a := setup_read_address addr h in
   let x := kprv_i2c_master_read i2c addr 1 h in
   result a = I2C_OK ->
   (result x = I2C_OK /\
    exists w v, waited I2C_FLAG_RXNE SET w /\
      trace x = trace a ++
                [Cr1Clr I2C_CR1_ACK; ClrAddr; Cr1Set I2C_CR1_STOP] ++
                w ++ [DrRd v; Store (u8 v)]) \/
   (result x = I2C_ERROR_TIMEOUT /\
    exists w, actions w = [] /\
      trace x = trace a ++
                [Cr1Clr I2C_CR1_ACK; ClrAddr; Cr1Set I2C_CR1_STOP] ++ w)) /\
  (let x := @kprv_i2c_master_read nat (scripted byte_waiting_flags clock_data)
              1%nat 0x50 1 0%nat in
   result x = I2C_ERROR_TIMEOUT /\
   In (RdFlag I2C_FLAG_RXNE true) (trace x) /\
   dr_reads (trace x) = [] /\ stored (trace x) = []).
Proof.
  split.
  - intros hw dev i2c addr h a x Ha.
    subst x. rewrite master_read_unfold.
    rewrite (ok_then_ok (setup_read_address addr) _ h Ha). fold a.
    cbn [result trace fst snd]. unfold read_after_address.
    rewrite bind_run. cbn [result final trace fst snd].
    rewrite switch_trace, switch_final.
    destruct (read_loop_1_cases
                (cr1_set I2C_CR1_STOP (clear_addrflag (cr1_clear I2C_CR1_ACK (final a)))))
      as [(Hr & w & v & Hw & Ht)|(Hr & Hact)]; cbn zeta in *.
    + left. split; [exact Hr|]. exists w, v. split; [exact Hw|].
      rewrite Ht. reflexivity.
    + right. split; [exact Hr|]. eexists. split; [exact Hact|]. reflexivity.
  - vm_compute. repeat split. do 10 right. left. reflexivity.
Qed.

(** C5.  For a write of length [len >= 0]: if the address phase
    ([hal_i2c_master_setup_write]) succeeds, the whole call generates
    exactly one stop, and it is its last access; before it, the data phase
    has written to the data register the first [k] bytes of the buffer and
    nothing else, with [k = len] (also when [len = 0]) if the write
    succeeds, and otherwise the stop right after the wait (for TXE or for
    BTF) that failed.  Wait by wait: the data phase goes through whole
    iterations of the loop in which both waits return [I2C_OK]; then
    either no byte is left, the stop is generated and [I2C_OK] returned,
    or the next wait (for TXE, or after the bytes that followed a
    successful wait for TXE, for BTF) returns an error: that first error is
    the result of the call, and the stop comes right after that wait, with
    no further wait or write.  If the address phase fails, the call is that
    address phase and nothing more: the engine adds no stop; the only stop
    that can be in the trace is the classifier's, on an address that was
    not acknowledged. *)
Theorem write_generates_one_stop :
  forall (hw : Type) (dev : I2C_TypeDef hw)
         (i2c : KI2CNum) (addr : Z) (ptr : list Z) (len : Z) (h : hw),
  0 <= len ->
  let s := hal_i2c_master_setup_write addr h in
  let x := kprv_i2c_master_write i2c addr ptr len h in
  (result s = I2C_OK ->
   stops (trace x) = 1%nat /\
   exists body k,
     trace x = trace s ++ body ++ [Cr1Set I2C_CR1_STOP] /\
     stops (trace s) = 0%nat /\ stops body = 0%nat /\
     dr_writes body = deref_n k ptr /\
     ((k <= length ptr)%nat -> dr_writes body = firstn k ptr) /\
     (k <= Z.to_nat len)%nat /\
     ((result x = I2C_OK /\ k = Z.to_nat len) \/
      (result x <> I2C_OK /\
       exists pre h',
         (body = pre ++ trace (hal_i2c_check_txe_timeout h') /\
          result (hal_i2c_check_txe_timeout h') = result x) \/
         (body = pre ++ trace (hal_i2c_check_btf_timeout h') /\
          result (hal_i2c_check_btf_timeout h') = result x))) /\
     exists t ptr' len' h',
       write_rounds ptr len (final s) t ptr' len' h' /\
       ((len' <= 0 /\ result x = I2C_OK /\ body = t) \/
        (0 < len' /\
         let txe := hal_i2c_check_txe_timeout h' in
         let b := bytes_out ptr' len' (final txe) in
         let btf := hal_i2c_check_btf_timeout (final b) in
         (result txe <> I2C_OK /\ result x = result txe /\
          body = t ++ trace txe) \/
         (result txe = I2C_OK /\ result btf <> I2C_OK /\
          result x = result btf /\
          body = t ++ trace txe ++ trace b ++ trace btf)))) /\
  (result s <> I2C_OK ->
   x = s /\
   stops (trace x) =
     if KI2CStatus_eq_dec (result s) I2C_ERROR_AF then 1%nat else 0%nat).
Proof.
  intros hw dev i2c addr ptr len h Hlen s x.
  unfold kprv_i2c_master_write, hal_i2c_get_handle in x. fold s in x.
  pose proof (setup_write_cases addr h) as Hs. cbn zeta in Hs. fold s in Hs.
  split.
  - intros Hok. subst x. unfold s at 1 2. rewrite (ok_then_ok _ _ _ Hok).
    fold s. cbn [result final trace fst snd].
    destruct (write_loop_shape _ ptr len (final s) eq_refl)
      as (body & k & Ht & Hact & Hk & Hres).
    destruct (write_loop_rounds _ ptr len (final s) eq_refl)
      as (t & ptr' & len' & h' & Hro & Hend).
    cbn zeta in *. rewrite Ht in *.
    assert (Hs0 : stops (trace s) = 0%nat).
    { rewrite <- stops_actions.
      destruct Hs as [[_ E]|[[E _]|[[E _]|[E _]]]]; try congruence.
      rewrite E. reflexivity. }
    assert (Hb0 : stops body = 0%nat).
    { rewrite <- stops_actions, Hact. apply stops_DrWr. }
    split.
    { rewrite !stops_app, Hs0, Hb0. reflexivity. }
    assert (Hdw : dr_writes body = deref_n k ptr).
    { rewrite <- dr_writes_actions, Hact. apply dr_writes_DrWr. }
    exists body, k.
    split; [reflexivity|]. split; [exact Hs0|]. split; [exact Hb0|].
    split; [exact Hdw|].
    split; [intros Hkl; rewrite Hdw; apply deref_n_firstn; exact Hkl|].
    split; [exact Hk|].
    split.
    { destruct Hres as [Hx|[Hx Hp]]; [left; exact Hx|].
      right. split; [|exact Hp].
      destruct Hx as [E|[E|E]]; rewrite E; discriminate. }
    exists t, ptr', len', h'. split; [exact Hro|].
    destruct Hend as [(H1 & H2 & H3)|(H1 & [(H2 & H3 & H4)|(H2 & H3 & H4 & H5)])].
    + left. split; [exact H1|]. split; [exact H2|].
      apply app_inj_tail in H3. apply H3.
    + right. split; [exact H1|]. left. split; [exact H2|]. split; [exact H3|].
      rewrite app_assoc in H4. apply app_inj_tail in H4. apply H4.
    + right. split; [exact H1|]. right.
      split; [exact H2|]. split; [exact H3|]. split; [exact H4|].
      rewrite !app_assoc in H5. apply app_inj_tail in H5.
      rewrite <- !app_assoc in H5. apply H5.
  - intros Herr. subst x. unfold s at 1 2. rewrite (ok_then_err _ _ _ Herr). fold s.
    split; [reflexivity|].
    rewrite <- stops_actions.
    destruct Hs as [[E _]|[[E [Ha|Ha]]|[[E Ha]|[E Ha]]]]; try congruence;
      rewrite E, Ha; reflexivity.
Qed.

(** C5 on a bus that is always ready: three bytes, one stop. *)
Lemma write_generates_one_stop_witness :
  stops (trace (@kprv_i2c_master_write nat (scripted ready_flags clock_data)
                  1%nat 0x50 [1; 2; 3] 3 0%nat)) = 1%nat.
Proof.
  apply (write_generates_one_stop nat (scripted ready_flags clock_data)
           1%nat 0x50 [1; 2; 3] 3 0%nat); [lia | reflexivity].
Defined.

(** C6 does not hold as stated for every flag wait.  On a bus on which
    every flag, the acknowledge-failure flag included, reads as set, the
    wait for RXNE of the read loop sees acknowledge failure set on each of
    its 101 iterations, and yet returns the generic [I2C_ERROR_TIMEOUT]:
    on a wait for RXNE the classifier does not look at that flag. *)
Lemma flag_wait_priority_counterexample :
  (forall i, (i <= 100)%nat ->
     @flag_at nat (scripted (fun _ _ => true) clock_data) I2C_FLAG_RXNE i 0%nat = SET /\
     @af_at nat (scripted (fun _ _ => true) clock_data) I2C_FLAG_RXNE i 0%nat = SET) /\
  ~ (result (@hal_i2c_check_flag_timeout nat (scripted (fun _ _ => true) clock_data)
               I2C_FLAG_RXNE SET 0%nat) <> I2C_ERROR_TIMEOUT).
Proof.
  split; [intros i _; split; reflexivity|].
  intros H. apply H. vm_compute. reflexivity.
Qed.

(** C6, as amended.  [hal_i2c_check_flag_timeout] polls the flag, and on
    every iteration on which the flag is still in the state [status] that
    keeps the loop going, it runs the classifier before it compares [count]
    with [FLAG_CHECK_TIMEOUT]: an error reported by the classifier on any
    of the iterations 0..100 is the result, also on iteration 100 where
    the bound is exhausted, and is never the generic timeout; and the
    generic timeout is returned exactly when on each of the 101 iterations
    the flag is still in that state and the classifier reports nothing.  On
    a wait for BTF, TXE or ADDR the classifier reports an error whenever
    the acknowledge-failure flag reads as set on that iteration.  On a wait
    for any other flag (BUSY, SB, RXNE) the classifier reports nothing on
    any iteration, whatever the acknowledge-failure flag reads: such a wait
    returns [I2C_OK] or the generic timeout, and the generic timeout
    exactly when the flag is still in the state [status] on each of the
    101 iterations. *)
Theorem check_flag_timeout_priority :
  forall (hw : Type) (dev : I2C_TypeDef hw) (flag : i2c_flag) (status : bool) (h : hw),
  let r := result (hal_i2c_check_flag_timeout flag status h) in
  (forall i, (i <= 100)%nat ->
     (forall j, (j < i)%nat ->
        flag_at flag j h = status /\ special_at flag j h = I2C_OK) ->
     flag_at flag i h = status ->
     special_at flag i h <> I2C_OK ->
     r = special_at flag i h /\ r <> I2C_ERROR_TIMEOUT) /\
  (r = I2C_ERROR_TIMEOUT <->
   forall i, (i <= 100)%nat ->
     flag_at flag i h = status /\ special_at flag i h = I2C_OK) /\
  (forall i,
     flag = I2C_FLAG_BTF \/ flag = I2C_FLAG_TXE \/ flag = I2C_FLAG_ADDR ->
     af_at flag i h = true ->
     special_at flag i h <> I2C_OK) /\
  (flag <> I2C_FLAG_BTF -> flag <> I2C_FLAG_TXE -> flag <> I2C_FLAG_ADDR ->
   (forall i, special_at flag i h = I2C_OK) /\
   (r = I2C_OK \/ r = I2C_ERROR_TIMEOUT) /\
   (r = I2C_ERROR_TIMEOUT <->
    forall i, (i <= 100)%nat -> flag_at flag i h = status)).
Proof.
  intros hw dev flag status h r. subst r. split; [|split; [|split]].
  - intros i Hi Hq Hf Hs.
    rewrite (poll_error_wins flag status h i Hi Hq Hf Hs).
    split; [reflexivity | apply special_at_not_timeout].
  - apply poll_timeout_iff.
  - intros i Hf Haf. rewrite (af_seen_is_reported flag i h Hf Haf).
    destruct flag; discriminate.
  - intros H1 H2 H3.
    assert (Hq : forall i, special_at flag i h = I2C_OK).
    { intros i. unfold special_at. destruct flag; try reflexivity; contradiction. }
    split; [exact Hq|]. split.
    + destruct (plain_wait_cases flag status h H1 H2 H3) as [[E _]|[E _]];
        cbn zeta in E; auto.
    + rewrite poll_timeout_iff. split.
      * intros Hall i Hi. apply Hall. exact Hi.
      * intros Hall i Hi. split; [apply Hall; exact Hi | apply Hq].
Qed.

(** C6, as amended, on a bus where the acknowledge failure shows on the
    very iteration on which the bound is exhausted: the NACK is returned, not the
    timeout. *)
Lemma check_flag_timeout_priority_witness :
  result (@hal_i2c_check_flag_timeout nat (scripted late_nack_flags clock_data)
            I2C_FLAG_BTF RESET 0%nat) = I2C_ERROR_NACK.
Proof.
  destruct (check_flag_timeout_priority nat (scripted late_nack_flags clock_data)
              I2C_FLAG_BTF RESET 0%nat) as [H _].
  apply (H 100%nat).
  - lia.
  - intros j Hj.
    do 100 (destruct j as [|j]; [vm_compute; split; reflexivity|]).
    lia.
  - vm_compute. reflexivity.
  - vm_compute. discriminate.
Defined.

(** C7.  The classifier [hal_i2c_check_flag_special]: while waiting on a
    data-progress flag (BTF or TXE) with the acknowledge-failure flag set,
    it clears that flag and returns the NACK error, and generates no stop
    (its accesses are the read of AF and the clear, nothing else); while
    waiting on the ADDR flag with acknowledge-failure set, it generates a
    stop, then clears the flag, and returns the address-acknowledge error;
    in every other case (another flag, or acknowledge-failure not set) it
    returns [I2C_OK] and does nothing beyond reading AF. *)
Theorem classifier_outcomes :
  forall (hw : Type) (dev : I2C_TypeDef hw) (flag : i2c_flag) (h : hw),
  let x := hal_i2c_check_flag_special flag h in
  let af := fst (get_flag I2C_FLAG_AF h) in
  ((flag = I2C_FLAG_BTF \/ flag = I2C_FLAG_TXE) -> af = true ->
     result x = I2C_ERROR_NACK /\
     trace x = [RdFlag I2C_FLAG_AF true; ClrFlag I2C_FLAG_AF] /\
     stops (trace x) = 0%nat) /\
  (flag = I2C_FLAG_ADDR -> af = true ->
     result x = I2C_ERROR_AF /\
     trace x = [RdFlag I2C_FLAG_AF true; Cr1Set I2C_CR1_STOP; ClrFlag I2C_FLAG_AF] /\
     stops (trace x) = 1%nat) /\
  (((flag <> I2C_FLAG_BTF /\ flag <> I2C_FLAG_TXE /\ flag <> I2C_FLAG_ADDR) \/
    af = false) ->
     result x = I2C_OK /\
     (trace x = [] \/ trace x = [RdFlag I2C_FLAG_AF false]) /\
     stops (trace x) = 0%nat).
Proof.
  intros hw dev flag h x af.
  destruct (special_cases flag h) as [H|[H|[Hr H]]]; fold x in H; fold af in H.
  - destruct H as (Hf & Haf & Hr & Ht & _). rewrite Hr, Ht.
    split; [|split].
    + intros _ _. repeat split.
    + intros ->. destruct Hf; discriminate.
    + intros [(H1 & H2 & _)|H1]; [destruct Hf; contradiction | congruence].
  - destruct H as (Hf & Haf & Hr & Ht & _). rewrite Hr, Ht.
    split; [|split].
    + intros [E|E]; congruence.
    + intros _ _. repeat split.
    + intros [(_ & _ & H1)|H1]; congruence.
  - fold x in Hr. rewrite Hr.
    destruct H as [(H1 & H2 & H3 & Ht & _)|(Hf & Haf & Ht & _)]; rewrite Ht.
    + split; [|split].
      * intros [E|E]; contradiction.
      * intros E; contradiction.
      * intros _. repeat split. left. reflexivity.
    + split; [|split].
      * intros _ E. congruence.
      * intros _ E. congruence.
      * intros _. repeat split. right. reflexivity.
Qed.

(** C7 on a bus with every flag set: acknowledge failure seen while
    waiting on BTF. *)
Lemma classifier_outcomes_witness :
  result (@hal_i2c_check_flag_special nat (scripted (fun _ _ => true) clock_data)
            I2C_FLAG_BTF 0%nat) = I2C_ERROR_NACK.
Proof.
  apply (classifier_outcomes nat (scripted (fun _ _ => true) clock_data)
           I2C_FLAG_BTF 0%nat); [left|]; reflexivity.
Defined.

(** C8 does not hold as stated.  On a bus that never reports the start
    condition, the wait for SB uses up its 101 polls and the write, and
    the read, return [I2C_ERROR_TIMEOUT]: the outcome is not distinct from
    the generic timeout, and it is the outcome a write returns when the
    bus stays busy. *)
Lemma start_timeout_counterexample :
  (forall i, (i <= 100)%nat ->
     @flag_at nat (scripted no_start_flags clock_data) I2C_FLAG_SB i
       (@start_wait_write nat (scripted no_start_flags clock_data) 0%nat) = RESET) /\
  ~ (result (@kprv_i2c_master_write nat (scripted no_start_flags clock_data)
               1%nat 0x50 [1] 1 0%nat) <> I2C_ERROR_TIMEOUT) /\
  ~ (result (@kprv_i2c_master_read nat (scripted no_start_flags clock_data)
               1%nat 0x50 1 0%nat) <> I2C_ERROR_TIMEOUT) /\
  result (@kprv_i2c_master_write nat (scripted no_start_flags clock_data)
            1%nat 0x50 [1] 1 0%nat) =
  result (@kprv_i2c_master_write nat (scripted busy_flags clock_data)
            1%nat 0x50 [1] 1 0%nat).
Proof.
  split; [intros i _; reflexivity|].
  split; [intros H; apply H; vm_compute; reflexivity|].
  split; [intros H; apply H; vm_compute; reflexivity|].
  vm_compute. reflexivity.
Qed.

(** C8, as amended.  For every write and every read whose busy wait
    succeeded and in which SB is read as reset on each of the 101 polls of
    the wait for the start condition, the outcome is the generic timeout
    [I2C_ERROR_TIMEOUT], returned unchanged through the address phase and
    the set-up. *)
Theorem start_wait_timeout_is_generic :
  forall (hw : Type) (dev : I2C_TypeDef hw)
         (i2c : KI2CNum) (addr : Z) (ptr : list Z) (len : Z) (h : hw),
  result (hal_i2c_check_flag_timeout I2C_FLAG_BUSY SET h) = I2C_OK ->
  ((forall i, (i <= 100)%nat -> flag_at I2C_FLAG_SB i (start_wait_write h) = RESET) ->
   result (kprv_i2c_master_write i2c addr ptr len h) = I2C_ERROR_TIMEOUT) /\
  ((forall i, (i <= 100)%nat -> flag_at I2C_FLAG_SB i (start_wait_read h) = RESET) ->
   result (kprv_i2c_master_read i2c addr len h) = I2C_ERROR_TIMEOUT).
Proof.
  intros hw dev i2c addr ptr len h Hbusy.
  assert (Hsb : forall h1 : hw,
            (forall i, (i <= 100)%nat -> flag_at I2C_FLAG_SB i h1 = false) ->
            result (hal_i2c_check_flag_timeout I2C_FLAG_SB false h1) = I2C_ERROR_TIMEOUT).
  { intros h1 Hall. apply poll_timeout_iff. intros i Hi. split; [auto|]. reflexivity. }
  split; intros Hall.
  - unfold kprv_i2c_master_write, hal_i2c_get_handle.
    assert (E : result (hal_i2c_master_setup_write addr h) = I2C_ERROR_TIMEOUT).
    { unfold hal_i2c_master_setup_write.
      rewrite (ok_then_ok _ _ _ Hbusy). cbn [result fst].
      rewrite !result_bind. cbn [CR1_CLEAR result final fst snd].
      unfold hal_i2c_master_request_write.
      rewrite result_bind. cbn [CR1_SET result final fst snd].
      fold (start_wait_write h).
      rewrite ok_then_err by (rewrite (Hsb _ Hall); discriminate).
      rewrite (Hsb _ Hall). reflexivity. }
    rewrite ok_then_err by (rewrite E; discriminate). exact E.
  - rewrite master_read_unfold.
    assert (E : result (setup_read_address addr h) = I2C_ERROR_TIMEOUT).
    { unfold setup_read_address.
      rewrite (ok_then_ok _ _ _ Hbusy). cbn [result fst].
      rewrite !result_bind. cbn [CR1_CLEAR result final fst snd].
      unfold hal_i2c_master_request_read.
      rewrite !result_bind. cbn [CR1_SET result final fst snd].
      fold (start_wait_read h).
      rewrite ok_then_err by (rewrite (Hsb _ Hall); discriminate).
      exact (Hsb _ Hall). }
    rewrite ok_then_err by (rewrite E; discriminate). exact E.
Qed.

(** C8, as amended, on a bus that never reports the start condition. *)
Lemma start_wait_timeout_is_generic_witness :
  result (@kprv_i2c_master_write nat (scripted no_start_flags clock_data)
            1%nat 0x50 [1] 1 0%nat) = I2C_ERROR_TIMEOUT /\
  result (@kprv_i2c_master_read nat (scripted no_start_flags clock_data)
            1%nat 0x50 1 0%nat) = I2C_ERROR_TIMEOUT.
Proof.
  destruct (start_wait_timeout_is_generic nat (scripted no_start_flags clock_data)
              1%nat 0x50 [1] 1 0%nat eq_refl) as [Hw Hr].
  split; [apply Hw | apply Hr]; intros i _; reflexivity.
Defined.

(** C9.  [hal_i2c_get_handle] returns the address of an array element
    and so never the null pointer, whatever the bus number: the null test
    of [kprv_i2c_master_write] and [kprv_i2c_master_read] never fires.
    For every bus number, registered or not, neither function returns
    [I2C_ERROR_NULL_HANDLE], and both access the bus registers, starting
    with a read of the BUSY flag. *)
Theorem null_handle_is_never_reported :
  forall (hw : Type) (dev : I2C_TypeDef hw)
         (i2c : KI2CNum) (addr : Z) (ptr : list Z) (len : Z) (h : hw),
  let xw := kprv_i2c_master_write i2c addr ptr len h in
  let xr := kprv_i2c_master_read i2c addr len h in
  hal_i2c_get_handle i2c <> None /\
  result xw <> I2C_ERROR_NULL_HANDLE /\
  (exists v t, trace xw = RdFlag I2C_FLAG_BUSY v :: t) /\
  result xr <> I2C_ERROR_NULL_HANDLE /\
  (exists v t, trace xr = RdFlag I2C_FLAG_BUSY v :: t).
Proof.
  intros hw dev i2c addr ptr len h xw xr.
  split; [discriminate|].
  destruct (flag_wait_first I2C_FLAG_BUSY true h) as (v & Hfirst).
  split; [|split; [|split]].
  - subst xw. unfold kprv_i2c_master_write, hal_i2c_get_handle.
    rewrite result_ok_then.
    destruct (setup_write_cases addr h) as [[E _]|[[E _]|[[E _]|[E _]]]];
      cbn zeta in E; rewrite E; cbn [is_ok]; try discriminate.
    destruct (write_loop_shape _ ptr len
                (final (hal_i2c_master_setup_write addr h)) eq_refl)
      as (body & k & _ & _ & _ & [[Hx _]|[[Hx|[Hx|Hx]] _]]);
      cbn zeta in Hx; rewrite Hx; discriminate.
  - exists v. subst xw. unfold kprv_i2c_master_write, hal_i2c_get_handle.
    apply ok_then_first. unfold hal_i2c_master_setup_write.
    apply ok_then_first. exact Hfirst.
  - subst xr. rewrite master_read_unfold, result_ok_then.
    destruct (setup_read_address_cases addr h) as [[E _]|[[E _]|[[E _]|[E _]]]];
      cbn zeta in E; rewrite E; cbn [is_ok]; try discriminate.
    unfold read_after_address. rewrite result_bind.
    destruct (read_loop_result len
                (final (setup_read_switch len (final (setup_read_address addr h)))))
      as [Hx|[Hx|[Hx|Hx]]]; cbn zeta in Hx; rewrite Hx; discriminate.
  - exists v. subst xr. rewrite master_read_unfold.
    apply ok_then_first. unfold setup_read_address.
    apply ok_then_first. exact Hfirst.
Qed.

(** C10.  For a negative length, when the busy wait and the address
    phase succeed, the set-up takes the default branch of its switch
    (acknowledge enabled, ADDR cleared), the data loop is not entered and
    the read returns [I2C_OK]: no read of the data register, no byte
    stored, no stop anywhere in the call. *)
Theorem read_negative_length :
  forall (hw : Type) (dev : I2C_TypeDef hw) (i2c : KI2CNum) (addr len : Z) (h : hw),
  let a := setup_read_address addr h in
  let x := kprv_i2c_master_read i2c addr len h in
  len < 0 ->
  result a = I2C_OK ->
  result x = I2C_OK /\
  trace x = trace a ++ [Cr1Set I2C_CR1_ACK; ClrAddr] /\
  dr_reads (trace x) = [] /\ stored (trace x) = [] /\ stops (trace x) = 0%nat.
Proof.
  intros hw dev i2c addr len h a x Hlen Ha.
  assert (Hx : x = (I2C_OK,
                    clear_addrflag (cr1_set I2C_CR1_ACK (final a)),
                    trace a ++ [Cr1Set I2C_CR1_ACK; ClrAddr])).
  { subst x. rewrite master_read_unfold.
    rewrite (ok_then_ok (setup_read_address addr) _ h Ha). fold a.
    unfold read_after_address. rewrite bind_run.
    rewrite read_loop_done by lia. cbn [result final trace fst snd].
    rewrite switch_trace, switch_final.
    destruct len as [|p|p]; try lia. rewrite app_nil_r. reflexivity. }
  rewrite Hx. cbn [result trace fst snd].
  assert (Hact : actions (trace a) =
    [Cr1Clr I2C_CR1_POS; Cr1Set I2C_CR1_ACK; Cr1Set I2C_CR1_START;
     DrWr (I2C_7BIT_ADD_READ (u16 (Z.shiftl addr 1)))]).
  { destruct (setup_read_address_cases addr h) as [[_ E]|[[E _]|[[E _]|[E _]]]];
      cbn zeta in E; fold a in E; congruence. }
  repeat split.
  - rewrite <- dr_reads_actions, actions_app, Hact. reflexivity.
  - rewrite <- stored_actions, actions_app, Hact. reflexivity.
  - rewrite <- stops_actions, actions_app, Hact. reflexivity.
Qed.

(** C10 on a bus that is always ready, with length -1. *)
Lemma read_negative_length_witness :
  trace (@kprv_i2c_master_read nat (scripted ready_flags clock_data) 1%nat 0x50 (-1) 0%nat) =
  trace (@setup_read_address nat (scripted ready_flags clock_data) 0x50 0%nat) ++
  [Cr1Set I2C_CR1_ACK; ClrAddr].
Proof.
  apply (read_negative_length nat (scripted ready_flags clock_data) 1%nat 0x50 (-1) 0%nat);
    [lia | reflexivity].
Defined.

(** * Further properties of the driver *)

(** ** Counting delays and polls *)

(** ** Time and polls *)

Lemma ticks_cons (o : op) (t : list op) :
  ticks (o :: t) = match o with Delay n => n | _ => 0 end + ticks t.
Proof. destruct o; reflexivity. Qed.

Lemma ticks_app (a b : list op) : ticks (a ++ b) = ticks a + ticks b.
Proof.
  induction a as [|o a IH]; [reflexivity|].
  rewrite <- app_comm_cons, !ticks_cons, IH. lia.
Qed.

Lemma polls_app flag (a b : list op) :
  polls flag (a ++ b) = (polls flag a + polls flag b)%nat.
Proof. unfold polls. rewrite filter_app, length_app. reflexivity. Qed.

Lemma ticks_nonneg_spin flag status (pre : list op) :
  Forall (spin_op flag status) pre -> 0 <= ticks pre.
Proof.
  induction 1 as [|o t Ho _ IH]; [cbn; lia|].
  rewrite ticks_cons. destruct Ho as [->|[->| ->]]; lia.
Qed.

Section ExtraWaits.
Context {hw : Type} {dev : I2C_TypeDef hw}.

(** The classifier neither delays nor, on a wait for a flag other than
    AF, reads the flag waited for. *)
Lemma special_quiet (flag : i2c_flag) (h : hw) :
  ticks (trace (hal_i2c_check_flag_special flag h)) = 0 /\
  (flag <> I2C_FLAG_AF ->
   polls flag (trace (hal_i2c_check_flag_special flag h)) = 0%nat).
Proof.
  destruct (special_cases flag h) as [H|[H|[_ [H|H]]]]; cbn zeta in H.
  - destruct H as (Hf & _ & _ & -> & _). split; [reflexivity|].
    intros _. destruct Hf as [->| ->]; reflexivity.
  - destruct H as (-> & _ & _ & -> & _). split; reflexivity.
  - destruct H as (_ & _ & _ & -> & _). split; reflexivity.
  - destruct H as (Hf & _ & -> & _). split; [reflexivity|].
    intros _. destruct Hf as [->|[->| ->]]; reflexivity.
Qed.

Lemma polls_self flag v : polls flag [RdFlag flag v] = 1%nat.
Proof. unfold polls. cbn. destruct (i2c_flag_eq_dec flag flag); [reflexivity|contradiction]. Qed.

(** Polls and delays of the loop of the poller, entered with [count]. *)
Lemma check_flag_loop_budget (flag : i2c_flag) (status : bool) :
  flag <> I2C_FLAG_AF ->
  forall (n : nat) (count : Z) (h : hw),
  polls_left count = n -> 0 <= count <= FLAG_CHECK_TIMEOUT ->
  let x := check_flag_loop flag status count h in
  (1 <= polls flag (trace x))%nat /\
  Z.of_nat (polls flag (trace x)) <= FLAG_CHECK_TIMEOUT + 1 - count /\
  ticks (trace x) = 50 * (Z.of_nat (polls flag (trace x)) - 1) /\
  (result x = I2C_ERROR_TIMEOUT ->
   Z.of_nat (polls flag (trace x)) = FLAG_CHECK_TIMEOUT + 1 - count).
Proof.
  intros Hnaf.
  assert (Hexit : forall (count : Z) (h1 : hw) (v : bool) (r : KI2CStatus) (t : list op),
            0 <= count <= FLAG_CHECK_TIMEOUT ->
            r <> I2C_ERROR_TIMEOUT ->
            ticks t = 0 -> polls flag t = 0%nat ->
            let x := (r, h1, RdFlag flag v :: t) in
            (1 <= polls flag (trace x))%nat /\
            Z.of_nat (polls flag (trace x)) <= FLAG_CHECK_TIMEOUT + 1 - count /\
            ticks (trace x) = 50 * (Z.of_nat (polls flag (trace x)) - 1) /\
            (result x = I2C_ERROR_TIMEOUT ->
             Z.of_nat (polls flag (trace x)) = FLAG_CHECK_TIMEOUT + 1 - count)).
  { intros count h1 v r t Hc Hr Ht Hp. cbn zeta. cbn [result trace fst snd].
    change (RdFlag flag v :: t) with ([RdFlag flag v] ++ t).
    rewrite polls_app, ticks_app, polls_self, Hp, Ht.
    change (ticks [RdFlag flag v]) with 0.
    unfold FLAG_CHECK_TIMEOUT in *. repeat split; try lia. intros E. contradiction. }
  induction n as [|n IH]; intros count h Hn Hc; cbn zeta;
    rewrite check_flag_loop_step; cbn zeta;
    destruct (get_flag flag h) as [v h1]; cbn [fst snd];
    destruct (special_quiet flag h1) as [Hst Hsp]; specialize (Hsp Hnaf);
    (destruct (Bool.eqb v status);
     [| apply (Hexit count h1 (negb status) I2C_OK []); auto; discriminate]);
    (destruct (special_result flag h1) as [Hsr|[Hsr|Hsr]]; cbn zeta in Hsr;
     rewrite Hsr; cbn [is_ok];
     [| apply Hexit; auto; discriminate | apply Hexit; auto; discriminate]).
  - assert (E : (count >=? FLAG_CHECK_TIMEOUT) = true)
      by (apply Z.geb_le; unfold polls_left, FLAG_CHECK_TIMEOUT in *; lia).
    rewrite E. cbn [result trace fst snd].
    change (RdFlag flag status :: trace (hal_i2c_check_flag_special flag h1))
      with ([RdFlag flag status] ++ trace (hal_i2c_check_flag_special flag h1)).
    rewrite polls_app, ticks_app, polls_self, Hsp, Hst.
    change (ticks [RdFlag flag status]) with 0.
    unfold polls_left, FLAG_CHECK_TIMEOUT in *. repeat split; lia.
  - destruct (count >=? FLAG_CHECK_TIMEOUT) eqn:E.
    { apply Z.geb_le in E. unfold polls_left, FLAG_CHECK_TIMEOUT in *. lia. }
    assert (Hlt : count < FLAG_CHECK_TIMEOUT).
    { assert (~ FLAG_CHECK_TIMEOUT <= count) by (rewrite <- Z.geb_le; congruence). lia. }
    specialize (IH (count + 1)
                  (task_delay 50 (final (hal_i2c_check_flag_special flag h1)))
                  ltac:(unfold polls_left in *; lia) ltac:(lia)).
    cbn zeta in IH. cbn [result trace fst snd].
    set (y := check_flag_loop flag status (count + 1) _) in *.
    change (RdFlag flag status ::
            trace (hal_i2c_check_flag_special flag h1) ++ Delay 50 :: trace y)
      with ([RdFlag flag status] ++
            trace (hal_i2c_check_flag_special flag h1) ++ [Delay 50] ++ trace y).
    rewrite !polls_app, !ticks_app, polls_self, Hsp, Hst.
    change (polls flag [Delay 50]) with 0%nat. change (ticks [Delay 50]) with 50.
    change (ticks [RdFlag flag status]) with 0.
    destruct IH as (I1 & I2 & I3 & I4). rewrite I3.
    repeat split; try lia. intros Hr. specialize (I4 Hr). lia.
Qed.

End ExtraWaits.

Section ExtraPoller.
Context {hw : Type} {dev : I2C_TypeDef hw}.

(** The first iteration on which a wait does not go round its loop, if
    there is one among the first [n]. *)
Lemma first_exit (flag : i2c_flag) (status : bool) (h : hw) (n : nat) :
  (forall j, (j < n)%nat ->
     flag_at flag j h = status /\ special_at flag j h = I2C_OK) \/
  (exists i, (i < n)%nat /\
     (forall j, (j < i)%nat ->
        flag_at flag j h = status /\ special_at flag j h = I2C_OK) /\
     (flag_at flag i h <> status \/
      (flag_at flag i h = status /\ special_at flag i h <> I2C_OK))).
Proof.
  induction n as [|n IH].
  - left. intros j Hj. lia.
  - destruct IH as [Hall|(i & Hi & Hq & Hex)].
    + destruct (Bool.bool_dec (flag_at flag n h) status) as [Hf|Hf].
      * destruct (KI2CStatus_eq_dec (special_at flag n h) I2C_OK) as [Hs|Hs].
        -- left. intros j Hj. destruct (Nat.eq_dec j n) as [->|Hne]; [auto|].
           apply Hall. lia.
        -- right. exists n. split; [lia|]. split; [exact Hall|]. right. auto.
      * right. exists n. split; [lia|]. split; [exact Hall|]. left. exact Hf.
    + right. exists i. split; [lia|]. split; [exact Hq|exact Hex].
Qed.

(** A wait succeeds exactly when, on some iteration reached, the flag is
    seen away from [status]. *)
Lemma poll_ok_iff (flag : i2c_flag) (status : bool) (h : hw) :
  result (hal_i2c_check_flag_timeout flag status h) = I2C_OK <->
  exists i, (i <= 100)%nat /\
    (forall j, (j < i)%nat ->
       flag_at flag j h = status /\ special_at flag j h = I2C_OK) /\
    flag_at flag i h <> status.
Proof.
  split.
  - intros Hr.
    destruct (first_exit flag status h 101) as [Hall|(i & Hi & Hq & [Hex|[Hf Hs]])].
    + assert (E : result (hal_i2c_check_flag_timeout flag status h) = I2C_ERROR_TIMEOUT).
      { apply poll_timeout_iff. intros i Hi. apply Hall. lia. }
      congruence.
    + exists i. split; [lia|]. split; [exact Hq|exact Hex].
    + rewrite (poll_error_wins flag status h i) in Hr by (auto; lia).
      contradiction.
  - intros (i & Hi & Hq & Hf). unfold hal_i2c_check_flag_timeout.
    rewrite (check_flag_loop_ahead flag status h i 0 Hq)
      by (unfold FLAG_CHECK_TIMEOUT; lia).
    destruct (check_flag_loop_here flag status (0 + Z.of_nat i) i h) as (Hok & _).
    exact (Hok Hf).
Qed.

(** On a wait for BTF, TXE or ADDR, the classifier is silent exactly when
    the acknowledge-failure flag reads as reset. *)
Lemma special_at_ok_iff (flag : i2c_flag) (i : nat) (h : hw) :
  flag = I2C_FLAG_BTF \/ flag = I2C_FLAG_TXE \/ flag = I2C_FLAG_ADDR ->
  (special_at flag i h = I2C_OK <-> af_at flag i h = false).
Proof.
  intros Hf. split.
  - intros Hs. destruct (af_at flag i h) eqn:E; [|reflexivity].
    rewrite (af_seen_is_reported flag i h Hf E) in Hs.
    destruct flag; discriminate.
  - unfold af_at, special_at. intros Haf.
    destruct (special_cases flag (snd (get_flag flag (iteration_start flag i h))))
      as [H|[H|[E _]]]; cbn zeta in *.
    + destruct H as (_ & E & _). congruence.
    + destruct H as (_ & E & _). congruence.
    + exact E.
Qed.

End ExtraPoller.

(** X1.  The time budget of a wait.  A wait for a flag other than the
    acknowledge-failure flag reads its flag at least once and at most 101
    times, and sleeps 50 ticks between two reads and nowhere else: its
    delay is 50 ticks times one less than the number of reads, so at most
    5000 ticks.  A wait that reports the generic time-out has read its flag
    exactly 101 times and has slept exactly 5000 ticks.  (The flag AF is
    left out because the classifier reads AF too.) *)
Theorem flag_wait_budget :
  forall (hw : Type) (dev : I2C_TypeDef hw) (flag : i2c_flag) (status : bool) (h : hw),
  flag <> I2C_FLAG_AF ->
  let x := hal_i2c_check_flag_timeout flag status h in
  (1 <= polls flag (trace x) <= 101)%nat /\
  ticks (trace x) = 50 * (Z.of_nat (polls flag (trace x)) - 1) /\
  ticks (trace x) <= 5000 /\
  (result x = I2C_ERROR_TIMEOUT ->
   polls flag (trace x) = 101%nat /\ ticks (trace x) = 5000).
Proof.
  intros hw dev flag status h Hf x.
  destruct (check_flag_loop_budget flag status Hf _ 0 h eq_refl
              ltac:(unfold FLAG_CHECK_TIMEOUT; lia)) as (H1 & H2 & H3 & H4).
  cbn zeta in *. fold (hal_i2c_check_flag_timeout flag status h) in H1, H2, H3, H4.
  fold x in H1, H2, H3, H4. unfold FLAG_CHECK_TIMEOUT in *.
  repeat split; try lia; specialize (H4 H); lia.
Qed.

Lemma flag_wait_budget_witness :
  polls I2C_FLAG_SB
    (trace (@hal_i2c_check_flag_timeout nat (scripted no_start_flags clock_data)
              I2C_FLAG_SB RESET 0%nat)) = 101%nat /\
  ticks (trace (@hal_i2c_check_flag_timeout nat (scripted no_start_flags clock_data)
                  I2C_FLAG_SB RESET 0%nat)) = 5000.
Proof.
  apply (flag_wait_budget nat (scripted no_start_flags clock_data)
           I2C_FLAG_SB RESET 0%nat); [discriminate | reflexivity].
Defined.

(** X2.  When a wait succeeds.  [hal_i2c_check_flag_timeout] returns
    [I2C_OK] exactly when at some iteration [i <= 100] the flag is read
    different from [status], every earlier iteration having read it equal
    to [status] with nothing reported by the classifier.  When already the
    first read differs from [status], the whole wait is that one read: the
    classifier is not consulted and nothing is delayed. *)
Theorem flag_wait_ok_iff :
  forall (hw : Type) (dev : I2C_TypeDef hw) (flag : i2c_flag) (status : bool) (h : hw),
  let x := hal_i2c_check_flag_timeout flag status h in
  (result x = I2C_OK <->
   exists i, (i <= 100)%nat /\
     (forall j, (j < i)%nat ->
        flag_at flag j h = status /\ special_at flag j h = I2C_OK) /\
     flag_at flag i h <> status) /\
  (flag_at flag 0 h <> status ->
   x = (I2C_OK, snd (get_flag flag h), [RdFlag flag (negb status)])).
Proof.
  intros hw dev flag status h x. split.
  - apply poll_ok_iff.
  - intros Hf. subst x. unfold hal_i2c_check_flag_timeout.
    rewrite check_flag_loop_step. cbn zeta.
    unfold flag_at in Hf. cbn in Hf.
    apply Bool.eqb_false_iff in Hf. rewrite Hf. reflexivity.
Qed.

(** X3.  The three wrappers.  The wait for BTF returns [I2C_OK],
    [I2C_ERROR_BTF_TIMEOUT] or [I2C_ERROR_NACK]; the wait for TXE returns
    [I2C_OK], [I2C_ERROR_TXE_TIMEOUT] or [I2C_ERROR_NACK]; the wait for ADDR
    returns [I2C_OK], [I2C_ERROR_ADDR_TIMEOUT] or [I2C_ERROR_AF]: none of
    them lets the generic [I2C_ERROR_TIMEOUT] through.  Each reports its own
    time-out exactly when, on all 101 iterations, its flag is read reset
    and the classifier reads the acknowledge-failure flag reset. *)
Theorem wait_wrappers_retag :
  forall (hw : Type) (dev : I2C_TypeDef hw) (h : hw),
  let b := hal_i2c_check_btf_timeout h in
  let t := hal_i2c_check_txe_timeout h in
  let a := hal_i2c_check_addr_timeout I2C_FLAG_ADDR h in
  (result b = I2C_OK \/ result b = I2C_ERROR_BTF_TIMEOUT \/ result b = I2C_ERROR_NACK) /\
  (result t = I2C_OK \/ result t = I2C_ERROR_TXE_TIMEOUT \/ result t = I2C_ERROR_NACK) /\
  (result a = I2C_OK \/ result a = I2C_ERROR_ADDR_TIMEOUT \/ result a = I2C_ERROR_AF) /\
  (result b = I2C_ERROR_BTF_TIMEOUT <->
   forall i, (i <= 100)%nat ->
     flag_at I2C_FLAG_BTF i h = RESET /\ af_at I2C_FLAG_BTF i h = RESET) /\
  (result t = I2C_ERROR_TXE_TIMEOUT <->
   forall i, (i <= 100)%nat ->
     flag_at I2C_FLAG_TXE i h = RESET /\ af_at I2C_FLAG_TXE i h = RESET) /\
  (result a = I2C_ERROR_ADDR_TIMEOUT <->
   forall i, (i <= 100)%nat ->
     flag_at I2C_FLAG_ADDR i h = RESET /\ af_at I2C_FLAG_ADDR i h = RESET).
Proof.
  intros hw dev h b t a.
  assert (Hgen : forall flag, 
            flag = I2C_FLAG_BTF \/ flag = I2C_FLAG_TXE \/ flag = I2C_FLAG_ADDR ->
            forall to, to <> I2C_OK -> to <> I2C_ERROR_NACK -> to <> I2C_ERROR_AF ->
            (retag to (result (hal_i2c_check_flag_timeout flag false h)) = to <->
             forall i, (i <= 100)%nat ->
               flag_at flag i h = false /\ af_at flag i h = false)).
  { intros flag Hf to H1 H2 H3. split.
    - intros Hr i Hi.
      assert (E : result (hal_i2c_check_flag_timeout flag false h) = I2C_ERROR_TIMEOUT).
      { destruct (flag_wait_cases flag false h) as [[E _]|[_ Hg]]; cbn zeta in *.
        - rewrite E in Hr. cbn in Hr. congruence.
        - destruct (gave_up_result _ _ _ _ Hg) as [E|[[E _]|[E _]]];
            [exact E| |]; rewrite E in Hr; cbn in Hr; congruence. }
      destruct (proj1 (poll_timeout_iff flag false h) E i Hi) as [Ha Hb].
      split; [exact Ha|]. apply (special_at_ok_iff flag i h Hf). exact Hb.
    - intros Hall.
      assert (E : result (hal_i2c_check_flag_timeout flag false h) = I2C_ERROR_TIMEOUT).
      { apply poll_timeout_iff. intros i Hi. destruct (Hall i Hi) as [Ha Hb].
        split; [exact Ha|]. apply (special_at_ok_iff flag i h Hf). exact Hb. }
      rewrite E. reflexivity. }
  subst b t a. rewrite btf_timeout_run, txe_timeout_run, addr_timeout_run.
  cbn [result fst].
  split; [|split; [|split; [|split; [|split]]]].
  - destruct (btf_wait_cases h) as [[E _]|[[E|E] _]]; cbn zeta in E;
      rewrite btf_timeout_run in E; cbn [result fst] in E; auto.
  - destruct (txe_wait_cases h) as [[E _]|[[E|E] _]]; cbn zeta in E;
      rewrite txe_timeout_run in E; cbn [result fst] in E; auto.
  - destruct (flag_wait_cases I2C_FLAG_ADDR false h) as [[E _]|[_ Hg]]; cbn zeta in *.
    + rewrite E. auto.
    + destruct (gave_up_result _ _ _ _ Hg) as [E|[[E [F|F]]|[E _]]];
        try discriminate; rewrite E; cbn; auto.
  - apply Hgen; auto; discriminate.
  - apply Hgen; auto; discriminate.
  - apply Hgen; auto; discriminate.
Qed.

(** ** Accounting for the read loop *)

Lemma dr_reads_app (a b : list op) : dr_reads (a ++ b) = dr_reads a ++ dr_reads b.
Proof. apply flat_map_app. Qed.

Lemma stored_app (a b : list op) : stored (a ++ b) = stored a ++ stored b.
Proof. apply flat_map_app. Qed.

Lemma dr_writes_app (a b : list op) : dr_writes (a ++ b) = dr_writes a ++ dr_writes b.
Proof. apply flat_map_app. Qed.

Lemma byte_reads_cons (v : Z) (vs : list Z) :
  byte_reads (v :: vs) = [DrRd v; Store (u8 v)] ++ byte_reads vs.
Proof. reflexivity. Qed.

Lemma byte_reads_account (vs : list Z) :
  actions (byte_reads vs) = byte_reads vs /\
  dr_reads (byte_reads vs) = vs /\
  stored (byte_reads vs) = map u8 vs /\
  dr_writes (byte_reads vs) = [] /\
  stops (byte_reads vs) = 0%nat.
Proof.
  induction vs as [|v vs (I1 & I2 & I3 & I4 & I5)]; [repeat split|].
  rewrite byte_reads_cons.
  rewrite actions_app, dr_reads_app, stored_app, dr_writes_app, stops_app,
    I1, I2, I3, I4, I5.
  repeat split.
Qed.

Section ExtraRead.
Context {hw : Type} {dev : I2C_TypeDef hw}.

Local Arguments Z.mul : simpl never.
Local Arguments Z.add : simpl never.
Local Arguments Z.sub : simpl never.
Local Arguments Z.max : simpl never.
Local Arguments Z.of_nat : simpl never.

Local Ltac count_up :=
  repeat split; cbn; rewrite ?Nat.add_0_r, ?app_nil_r;
  try lia; try contradiction; try discriminate.

Lemma flag_wait_ticks (flag : i2c_flag) (status : bool) (h : hw) :
  flag <> I2C_FLAG_AF ->
  0 <= ticks (trace (hal_i2c_check_flag_timeout flag status h)) <= 5000.
Proof.
  intros Hf.
  destruct (check_flag_loop_budget flag status Hf _ 0 h eq_refl
              ltac:(unfold FLAG_CHECK_TIMEOUT; lia)) as (H1 & H2 & H3 & _).
  cbn zeta in *. unfold hal_i2c_check_flag_timeout, FLAG_CHECK_TIMEOUT in *. lia.
Qed.

Lemma btf_wait_ticks (h : hw) :
  0 <= ticks (trace (hal_i2c_check_btf_timeout h)) <= 5000.
Proof.
  rewrite btf_timeout_run. cbn [trace snd]. apply flag_wait_ticks. discriminate.
Qed.

Lemma txe_wait_ticks (h : hw) :
  0 <= ticks (trace (hal_i2c_check_txe_timeout h)) <= 5000.
Proof.
  rewrite txe_timeout_run. cbn [trace snd]. apply flag_wait_ticks. discriminate.
Qed.

Lemma addr_wait_ticks (h : hw) :
  0 <= ticks (trace (hal_i2c_check_addr_timeout I2C_FLAG_ADDR h)) <= 5000.
Proof.
  rewrite addr_timeout_run. cbn [trace snd]. apply flag_wait_ticks. discriminate.
Qed.

(** The general branch, counted: the bytes it read and the bytes it
    leaves add up to the length it was entered with; it fails only with
    more than three bytes left; each byte read cost at most one wait. *)
Lemma general_phase_count :
  forall (n : nat) (len : Z) (h : hw), bytes_left len = n ->
  let g := general_phase len h in
  exists vs,
    actions (trace g) = byte_reads vs /\
    Z.of_nat (length vs) = len - snd (result g) /\
    (fst (result g) <> I2C_OK -> snd (result g) > 3) /\
    0 <= ticks (trace g) <=
      5000 * (len - snd (result g) + if is_ok (fst (result g)) then 0 else 1) /\
    (fst (result g) <> I2C_OK ->
     exists pre h',
       trace g = pre ++ trace (hal_i2c_check_flag_timeout I2C_FLAG_RXNE SET h') /\
       result (hal_i2c_check_flag_timeout I2C_FLAG_RXNE SET h') = fst (result g)).
Proof.
  induction n as [n IH] using lt_wf_ind. intros len h Hn. cbn zeta.
  rewrite general_phase_equation_1.
  destruct (Z_gt_dec len 3) as [Hgt|Hle].
  { pose proof (flag_wait_ticks I2C_FLAG_RXNE true h ltac:(discriminate)) as Htk.
    destruct (plain_wait_cases I2C_FLAG_RXNE true h) as [[Hr Hw]|[Hr Ha]];
      try discriminate; cbn zeta in *.
    - rewrite (bind_run (hal_i2c_check_flag_timeout _ _)), Hr.
      cbn [is_ok result final trace fst snd].
      set (w := hal_i2c_check_flag_timeout I2C_FLAG_RXNE true h) in *.
      rewrite !(bind_run read_byte), !(bind_run (GET_FLAG _)), !read_byte_run, !get_flag_run.
      cbn [result final trace fst snd].
      set (h1 := snd (dr_read (final w))). set (v1 := fst (dr_read (final w))).
      set (btf := fst (get_flag I2C_FLAG_BTF h1)). set (h2 := snd (get_flag I2C_FLAG_BTF h1)).
      pose proof (waited_actions _ _ _ Hw) as Haw.
      destruct (Bool.eqb btf true).
      + rewrite !(bind_run read_byte), !read_byte_run. cbn [result final trace fst snd].
        set (h3 := snd (dr_read h2)). set (v2 := fst (dr_read h2)).
        destruct (IH (bytes_left (len - 1 - 1)) ltac:(unfold bytes_left in *; lia)
                    (len - 1 - 1) h3 eq_refl) as (vs & Hact & Hlen & Hfail & Htg & Hend).
        cbn zeta in *. set (g := general_phase (len - 1 - 1) h3) in *.
        exists (v1 :: v2 :: vs).
        split; [rewrite !actions_app, Haw, Hact; reflexivity|].
        split; [cbn [length]; lia|]. split; [exact Hfail|].
        split.
        { rewrite !ticks_app.
          change (ticks [DrRd v1; Store (u8 v1)]) with 0.
          change (ticks [RdFlag I2C_FLAG_BTF btf]) with 0.
          change (ticks [DrRd v2; Store (u8 v2)]) with 0.
          destruct (is_ok (fst (result g))); lia. }
        intros Hne. destruct (Hend Hne) as (pre & h' & Hp & Hq).
        exists (trace w ++ [DrRd v1; Store (u8 v1)] ++ [RdFlag I2C_FLAG_BTF btf] ++
                [DrRd v2; Store (u8 v2)] ++ pre), h'.
        split; [rewrite Hp, <- !app_assoc; reflexivity | exact Hq].
      + destruct (IH (bytes_left (len - 1)) ltac:(unfold bytes_left in *; lia)
                    (len - 1) h2 eq_refl) as (vs & Hact & Hlen & Hfail & Htg & Hend).
        cbn zeta in *. set (g := general_phase (len - 1) h2) in *.
        exists (v1 :: vs).
        split; [rewrite !actions_app, Haw, Hact; reflexivity|].
        split; [cbn [length]; lia|]. split; [exact Hfail|].
        split.
        { rewrite !ticks_app.
          change (ticks [DrRd v1; Store (u8 v1)]) with 0.
          change (ticks [RdFlag I2C_FLAG_BTF btf]) with 0.
          destruct (is_ok (fst (result g))); lia. }
        intros Hne. destruct (Hend Hne) as (pre & h' & Hp & Hq).
        exists (trace w ++ [DrRd v1; Store (u8 v1)] ++ [RdFlag I2C_FLAG_BTF btf] ++ pre), h'.
        split; [rewrite Hp, <- !app_assoc; reflexivity | exact Hq].
    - rewrite bind_run, Hr. cbn [is_ok mret result final trace fst snd].
      rewrite app_nil_r. exists [].
      split; [exact Ha|]. split; [cbn [length]; lia|]. split; [intros _; lia|].
      split; [lia|]. intros _. exists [], h. auto. }
  cbn [mret result trace fst snd is_ok]. exists [].
  split; [reflexivity|]. split; [cbn [length]; lia|].
  split; [intros H; contradiction|]. change (ticks []) with 0.
  split; [lia|]. intros H; contradiction.
Qed.

(** The data loop of a read, counted. *)
Lemma read_loop_account (len : Z) (h : hw) :
  let x := master_read_loop len h in
  dr_writes (trace x) = [] /\
  stored (trace x) = map u8 (dr_reads (trace x)) /\
  0 <= ticks (trace x) <= 5000 * Z.max 0 len /\
  (result x = I2C_OK ->
   Z.of_nat (length (dr_reads (trace x))) = Z.max 0 len /\
   stops (trace x) = if 2 <=? len then 1%nat else 0%nat) /\
  (result x <> I2C_OK ->
   stops (trace x) = 0%nat /\ Z.of_nat (length (dr_reads (trace x))) < len).
Proof.
  cbn zeta.
  destruct (general_phase_spec _ len h eq_refl) as (_ & Hr & Hk & Hsmall & Hloop).
  destruct (general_phase_count _ len h eq_refl) as (vs & Hact & Hlen & Hfail & Htg & Hend).
  cbn zeta in *. rewrite Hloop. clear Hloop.
  set (g := general_phase len h) in *.
  destruct (byte_reads_account vs) as (B1 & B2 & B3 & B4 & B5).
  assert (G1 : dr_writes (trace g) = [])
    by (rewrite <- dr_writes_actions, Hact; exact B4).
  assert (G2 : dr_reads (trace g) = vs)
    by (rewrite <- dr_reads_actions, Hact; exact B2).
  assert (G3 : stored (trace g) = map u8 vs)
    by (rewrite <- stored_actions, Hact; exact B3).
  assert (G4 : stops (trace g) = 0%nat)
    by (rewrite <- stops_actions, Hact; exact B5).
  destruct Hr as [Hr|Hr]; rewrite Hr in *; cbn [is_ok result trace fst snd] in *.
  2:{ specialize (Hfail ltac:(discriminate)).
      rewrite G1, G2, G3, G4. repeat split; try lia; try discriminate. }
  assert (Hk3 : snd (result g) <= 3 /\ (len > 3 -> 2 <= snd (result g)) /\
                (len <= 3 -> snd (result g) = len)).
  { destruct (Z_gt_dec len 3) as [Hg|Hg].
    - destruct (Hk eq_refl Hg) as [E|E]; rewrite E; lia.
    - rewrite Hsmall by lia. cbn. lia. }
  set (k := snd (result g)) in *. set (h1 := final g).
  rewrite dr_writes_app, dr_reads_app, stored_app, stops_app, ticks_app, map_app,
    length_app, G1, G2, G3, G4.
  destruct (Z_le_gt_dec k 0) as [H0|H0].
  { rewrite read_loop_done by exact H0. cbn [result trace fst snd app length].
    rewrite !app_nil_r.
    assert (E2 : (2 <=? len) = false) by (apply Z.leb_gt; lia). rewrite E2.
    change (ticks []) with 0.
    count_up. }
  assert (Hc : k = 1 \/ k = 2 \/ k = 3) by lia.
  destruct Hc as [Hc|[Hc|Hc]]; rewrite Hc in *.
  - pose proof (flag_wait_ticks I2C_FLAG_RXNE true h1 ltac:(discriminate)) as Hwt.
    assert (E2 : (2 <=? len) = false) by (apply Z.leb_gt; lia). rewrite E2.
    assert (Hrun : master_read_loop 1 h1 =
                   ok_then (hal_i2c_check_flag_timeout I2C_FLAG_RXNE true)
                     (bind read_byte (fun _ => master_read_loop (1 - 1))) h1).
    { rewrite master_read_loop_equation_1. reflexivity. }
    destruct (plain_wait_cases I2C_FLAG_RXNE true h1) as [[Hw1 Hw2]|[Hw1 Hw2]];
      try discriminate; cbn zeta in *.
    + rewrite Hrun, (ok_then_ok _ _ _ Hw1). cbn [result final trace fst snd].
      rewrite bind_run, read_byte_run. cbn [result final trace fst snd].
      rewrite read_loop_done by lia. cbn [result trace fst snd].
      rewrite app_nil_r, dr_writes_app, dr_reads_app, stored_app, stops_app, ticks_app.
      rewrite <- (dr_writes_actions (trace _)), <- (dr_reads_actions (trace _)),
        <- (stored_actions (trace _)), <- (stops_actions (trace _)),
        (waited_actions _ _ _ Hw2).
      cbn. rewrite ?map_app, ?length_app. count_up.
    + rewrite Hrun, ok_then_err by (rewrite Hw1; discriminate).
      rewrite <- (dr_writes_actions (trace _)), <- (dr_reads_actions (trace _)),
        <- (stored_actions (trace _)), <- (stops_actions (trace _)), Hw2, Hw1.
      count_up.
  - pose proof (btf_wait_ticks h1) as Hwt.
    assert (E2 : (2 <=? len) = true) by (apply Z.leb_le; lia). rewrite E2.
    assert (Hrun : master_read_loop 2 h1 =
                   ok_then hal_i2c_check_btf_timeout
                     (bind (CR1_SET I2C_CR1_STOP) (fun _ =>
                      bind read_byte (fun _ =>
                      bind read_byte (fun _ => master_read_loop (2 - 1 - 1))))) h1).
    { rewrite master_read_loop_equation_1. reflexivity. }
    destruct (btf_wait_cases h1) as [[Hw1 Hw2]|[Hw1 Hw2]]; cbn zeta in *.
    + rewrite Hrun, (ok_then_ok _ _ _ Hw1). cbn [result final trace fst snd].
      rewrite !bind_run, !read_byte_run. cbn [CR1_SET result final trace fst snd].
      rewrite read_loop_done by lia. cbn [result trace fst snd].
      rewrite app_nil_r, dr_writes_app, dr_reads_app, stored_app, stops_app, ticks_app.
      rewrite <- (dr_writes_actions (trace _)), <- (dr_reads_actions (trace _)),
        <- (stored_actions (trace _)), <- (stops_actions (trace _)),
        (waited_actions _ _ _ Hw2).
      cbn. rewrite ?map_app, ?length_app. count_up.
    + rewrite Hrun, ok_then_err by (destruct Hw1 as [E|E]; rewrite E; discriminate).
      rewrite <- (dr_writes_actions (trace _)), <- (dr_reads_actions (trace _)),
        <- (stored_actions (trace _)), <- (stops_actions (trace _)), Hw2.
      destruct Hw1 as [E|E]; rewrite E in *; count_up.
  - pose proof (btf_wait_ticks h1) as Hwt.
    assert (E2 : (2 <=? len) = true) by (apply Z.leb_le; lia). rewrite E2.
    assert (Hrun : master_read_loop 3 h1 =
                   ok_then hal_i2c_check_btf_timeout
                     (bind (CR1_CLEAR I2C_CR1_ACK) (fun _ =>
                      bind read_byte (fun _ =>
                      ok_then hal_i2c_check_btf_timeout
                        (bind (CR1_SET I2C_CR1_STOP) (fun _ =>
                         bind read_byte (fun _ =>
                         bind read_byte (fun _ =>
                         master_read_loop (3 - 1 - 1 - 1)))))))) h1).
    { rewrite master_read_loop_equation_1. reflexivity. }
    destruct (btf_wait_cases h1) as [[Hw1 Hw2]|[Hw1 Hw2]]; cbn zeta in *.
    + rewrite Hrun, (ok_then_ok _ _ _ Hw1). cbn [result final trace fst snd].
      rewrite !bind_run, !read_byte_run. cbn [CR1_CLEAR result final trace fst snd].
      set (h2 := snd (dr_read _)).
      pose proof (btf_wait_ticks h2) as Hwt2.
      destruct (btf_wait_cases h2) as [[Hv1 Hv2]|[Hv1 Hv2]]; cbn zeta in *.
      * rewrite (ok_then_ok _ _ _ Hv1). cbn [result final trace fst snd].
        rewrite !bind_run, !read_byte_run. cbn [CR1_SET result final trace fst snd].
        rewrite read_loop_done by lia. cbn [result trace fst snd].
        rewrite app_nil_r.
        rewrite !dr_writes_app, !dr_reads_app, !stored_app, !stops_app, !ticks_app.
        rewrite <- !(dr_writes_actions (trace _)), <- !(dr_reads_actions (trace _)),
          <- !(stored_actions (trace _)), <- !(stops_actions (trace _)),
          (waited_actions _ _ _ Hw2), (waited_actions _ _ _ Hv2).
        cbn. rewrite ?map_app, ?length_app. count_up.
      * rewrite ok_then_err by (destruct Hv1 as [E|E]; rewrite E; discriminate).
        rewrite !dr_writes_app, !dr_reads_app, !stored_app, !stops_app, !ticks_app.
        rewrite <- !(dr_writes_actions (trace _)), <- !(dr_reads_actions (trace _)),
          <- !(stored_actions (trace _)), <- !(stops_actions (trace _)),
          (waited_actions _ _ _ Hw2), Hv2.
        cbn. rewrite ?map_app, ?length_app.
        destruct Hv1 as [E|E]; rewrite E in *; count_up.
    + rewrite Hrun, ok_then_err by (destruct Hw1 as [E|E]; rewrite E; discriminate).
      rewrite <- (dr_writes_actions (trace _)), <- (dr_reads_actions (trace _)),
        <- (stored_actions (trace _)), <- (stops_actions (trace _)), Hw2.
      destruct Hw1 as [E|E]; rewrite E in *; count_up.
Qed.

(** A data loop that fails ends with the accesses of the wait that
    failed, whose result it returns. *)
Lemma read_loop_fail_end (len : Z) (h : hw) :
  let x := master_read_loop len h in
  result x <> I2C_OK ->
  exists pre h',
    (trace x = pre ++ trace (hal_i2c_check_flag_timeout I2C_FLAG_RXNE SET h') /\
     result (hal_i2c_check_flag_timeout I2C_FLAG_RXNE SET h') = result x) \/
    (trace x = pre ++ trace (hal_i2c_check_btf_timeout h') /\
     result (hal_i2c_check_btf_timeout h') = result x).
Proof.
  cbn zeta.
  destruct (general_phase_spec _ len h eq_refl) as (_ & Hr & Hk & Hsmall & Hloop).
  destruct (general_phase_count _ len h eq_refl) as (vs & _ & _ & _ & _ & Hend).
  cbn zeta in *. rewrite Hloop. clear Hloop.
  set (g := general_phase len h) in *.
  destruct Hr as [Hr|Hr]; rewrite Hr in *; cbn [is_ok result trace fst snd] in *.
  2:{ intros _. destruct (Hend ltac:(discriminate)) as (pre & h' & Hp & Hq).
      exists pre, h'. left. auto. }
  assert (Hk3 : snd (result g) <= 3).
  { destruct (Z_gt_dec len 3) as [Hg|Hg].
    - destruct (Hk eq_refl Hg) as [E|E]; rewrite E; lia.
    - rewrite Hsmall by lia. cbn. lia. }
  set (k := snd (result g)) in *. set (h1 := final g).
  destruct (Z_le_gt_dec k 0) as [H0|H0].
  { rewrite read_loop_done by exact H0. intros E. contradiction. }
  assert (Hc : k = 1 \/ k = 2 \/ k = 3) by lia.
  destruct Hc as [Hc|[Hc|Hc]]; rewrite Hc in *; rewrite master_read_loop_equation_1;
    cbn.
  - destruct (KI2CStatus_eq_dec
                (result (hal_i2c_check_flag_timeout I2C_FLAG_RXNE true h1)) I2C_OK)
      as [E|E].
    + rewrite (ok_then_ok _ _ _ E). cbn [result final trace fst snd].
      rewrite bind_run, read_byte_run. cbn [result final trace fst snd].
      rewrite read_loop_done by lia. intros F. contradiction.
    + rewrite (ok_then_err _ _ _ E). intros _.
      exists (trace g), h1. left. auto.
  - destruct (KI2CStatus_eq_dec (result (hal_i2c_check_btf_timeout h1)) I2C_OK)
      as [E|E].
    + rewrite (ok_then_ok _ _ _ E). cbn [result final trace fst snd].
      rewrite !bind_run, !read_byte_run. cbn [CR1_SET result final trace fst snd].
      rewrite read_loop_done by lia. intros F. contradiction.
    + rewrite (ok_then_err _ _ _ E). intros _.
      exists (trace g), h1. right. auto.
  - destruct (KI2CStatus_eq_dec (result (hal_i2c_check_btf_timeout h1)) I2C_OK)
      as [E|E].
    + rewrite (ok_then_ok _ _ _ E). cbn [result final trace fst snd].
      rewrite !bind_run, !read_byte_run. cbn [CR1_CLEAR result final trace fst snd].
      set (h2 := snd (dr_read _)).
      destruct (KI2CStatus_eq_dec (result (hal_i2c_check_btf_timeout h2)) I2C_OK)
        as [E2|E2].
      * rewrite (ok_then_ok _ _ _ E2). cbn [result final trace fst snd].
        rewrite !bind_run, !read_byte_run. cbn [CR1_SET result final trace fst snd].
        rewrite read_loop_done by lia. intros F. contradiction.
      * rewrite (ok_then_err _ _ _ E2). intros _.
        exists (trace g ++ trace (hal_i2c_check_btf_timeout h1) ++
                [Cr1Clr I2C_CR1_ACK] ++
                [DrRd (fst (dr_read (cr1_clear I2C_CR1_ACK
                                       (final (hal_i2c_check_btf_timeout h1)))));
                 Store (u8 (fst (dr_read (cr1_clear I2C_CR1_ACK
                                            (final (hal_i2c_check_btf_timeout h1))))))]),
               h2.
        right. split; [|reflexivity].
        rewrite <- !app_assoc. reflexivity.
    + rewrite (ok_then_err _ _ _ E). intros _.
      exists (trace g), h1. right. auto.
Qed.

End ExtraRead.

(** ** Accounting for the address phase and the write loop *)

Section ExtraSetup.
Context {hw : Type} {dev : I2C_TypeDef hw}.

Lemma request_ticks (byte : Z) (h : hw) :
  let x := ok_then (hal_i2c_check_flag_timeout I2C_FLAG_SB RESET)
             (bind (DR_WRITE byte)
                (fun _ => hal_i2c_check_addr_timeout I2C_FLAG_ADDR)) h in
  0 <= ticks (trace x) <= 10000.
Proof.
  cbn zeta. rewrite trace_ok_then, ticks_app.
  pose proof (flag_wait_ticks I2C_FLAG_SB false h ltac:(discriminate)) as H1.
  destruct (is_ok _).
  - rewrite trace_bind, ticks_app. cbn [DR_WRITE result final trace fst snd].
    pose proof (addr_wait_ticks
                  (dr_write byte (final (hal_i2c_check_flag_timeout I2C_FLAG_SB false h))))
      as H2.
    change (ticks [DrWr byte]) with 0. lia.
  - change (ticks []) with 0. lia.
Qed.

Lemma request_write_ticks (addr : Z) (h : hw) :
  0 <= ticks (trace (hal_i2c_master_request_write addr h)) <= 10000.
Proof.
  unfold hal_i2c_master_request_write.
  rewrite trace_bind, ticks_app. cbn [CR1_SET result final trace fst snd].
  pose proof (request_ticks (I2C_7BIT_ADD_WRITE addr) (cr1_set I2C_CR1_START h)) as H.
  cbn zeta in H. change (ticks [Cr1Set I2C_CR1_START]) with 0. lia.
Qed.

Lemma request_read_ticks (addr : Z) (h : hw) :
  0 <= ticks (trace (hal_i2c_master_request_read addr h)) <= 10000.
Proof.
  unfold hal_i2c_master_request_read.
  rewrite !trace_bind, !ticks_app. cbn [CR1_SET result final trace fst snd].
  pose proof (request_ticks (I2C_7BIT_ADD_READ addr)
                (cr1_set I2C_CR1_START (cr1_set I2C_CR1_ACK h))) as H.
  cbn zeta in H.
  change (ticks [Cr1Set I2C_CR1_START]) with 0.
  change (ticks [Cr1Set I2C_CR1_ACK]) with 0. lia.
Qed.

Lemma setup_write_ticks (addr : Z) (h : hw) :
  0 <= ticks (trace (hal_i2c_master_setup_write addr h)) <= 15000.
Proof.
  unfold hal_i2c_master_setup_write. rewrite trace_ok_then, ticks_app.
  pose proof (flag_wait_ticks I2C_FLAG_BUSY true h ltac:(discriminate)) as H1.
  destruct (is_ok _); [|change (ticks []) with 0; lia].
  rewrite trace_bind, ticks_app. cbn [CR1_CLEAR result final trace fst snd].
  rewrite trace_bind, ticks_app.
  set (h1 := cr1_clear I2C_CR1_POS _).
  pose proof (request_write_ticks (u16 (Z.shiftl addr 1)) h1) as H2.
  set (q := hal_i2c_master_request_write _ _) in *.
  change (ticks [Cr1Clr I2C_CR1_POS]) with 0.
  destruct (is_ok (result q)).
  - rewrite trace_bind. cbn [CLEAR_ADDRFLAG mret result final trace fst snd].
    change (ticks ([ClrAddr] ++ [])) with 0. lia.
  - cbn [mret trace snd]. change (ticks []) with 0. lia.
Qed.

Lemma setup_read_address_ticks (addr : Z) (h : hw) :
  0 <= ticks (trace (setup_read_address addr h)) <= 15000.
Proof.
  unfold setup_read_address. rewrite trace_ok_then, ticks_app.
  pose proof (flag_wait_ticks I2C_FLAG_BUSY true h ltac:(discriminate)) as H1.
  destruct (is_ok _); [|change (ticks []) with 0; lia].
  rewrite trace_bind, ticks_app. cbn [CR1_CLEAR result final trace fst snd].
  set (h1 := cr1_clear I2C_CR1_POS _).
  pose proof (request_read_ticks (u16 (Z.shiftl addr 1)) h1) as H2.
  change (ticks [Cr1Clr I2C_CR1_POS]) with 0. lia.
Qed.

(** The address part of the set-up of a read, counted. *)
Lemma setup_read_address_account (addr : Z) (h : hw) :
  let a := setup_read_address addr h in
  dr_reads (trace a) = [] /\ stored (trace a) = [] /\
  (dr_writes (trace a) = [] \/
   dr_writes (trace a) = [I2C_7BIT_ADD_READ (u16 (Z.shiftl addr 1))]) /\
  stops (trace a) =
    (if KI2CStatus_eq_dec (result a) I2C_ERROR_AF then 1%nat else 0%nat).
Proof.
  cbn zeta.
  rewrite <- dr_reads_actions, <- stored_actions, <- dr_writes_actions, <- stops_actions.
  destruct (setup_read_address_cases addr h)
    as [[E Ha]|[[E [Ha|Ha]]|[[E Ha]|[E Ha]]]]; cbn zeta in *;
    rewrite E, Ha; cbn; auto.
Qed.

(** The set-up switch of a read, counted. *)
Lemma switch_account (len : Z) (h : hw) :
  let t := trace (setup_read_switch len h) in
  dr_reads t = [] /\ stored t = [] /\ dr_writes t = [] /\ ticks t = 0 /\
  stops t = (if (len =? 0) || (len =? 1) then 1%nat else 0%nat).
Proof.
  cbn zeta. rewrite switch_trace.
  destruct len as [|[p|[p|p|]|]|p]; repeat split.
Qed.

End ExtraSetup.

Section ExtraWrite.
Context {hw : Type} {dev : I2C_TypeDef hw}.

(** The time the write loop spends waiting: two waits for each trip. *)
Lemma write_loop_ticks :
  forall (n : nat) (ptr : list Z) (len : Z) (h : hw), bytes_left len = n ->
  0 <= ticks (trace (master_write_loop ptr len h)) <= 10000 * Z.max 0 len.
Proof.
  induction n as [n IH] using lt_wf_ind. intros ptr len h Hn.
  rewrite master_write_loop_equation_1.
  destruct (Z_gt_dec len 0) as [Hpos|Hle].
  2:{ rewrite bind_run. cbn [CR1_SET mret result final trace fst snd].
      change (ticks ([Cr1Set I2C_CR1_STOP] ++ [])) with 0. lia. }
  pose proof (txe_wait_ticks h) as Ht.
  destruct (KI2CStatus_eq_dec (result (hal_i2c_check_txe_timeout h)) I2C_OK) as [E|E].
  2:{ rewrite (ok_else_stop_err _ _ _ E). cbn [trace snd]. rewrite ticks_app.
      change (ticks [Cr1Set I2C_CR1_STOP]) with 0. lia. }
  rewrite (ok_else_stop_ok _ _ _ E). cbn [result final trace fst snd].
  set (h0 := final _).
  rewrite bind_run. cbn [DR_WRITE result final trace fst snd].
  rewrite bind_run, get_flag_run. cbn [result final trace fst snd].
  set (h1 := dr_write _ _). set (btf := fst (get_flag I2C_FLAG_BTF h1)).
  set (h2 := snd (get_flag I2C_FLAG_BTF h1)).
  rewrite !ticks_app.
  change (ticks [DrWr (hd 0 ptr)]) with 0.
  change (ticks [RdFlag I2C_FLAG_BTF btf]) with 0.
  destruct (Bool.eqb btf true && negb (len - 1 =? 0)) eqn:Ec.
  - apply andb_prop in Ec. destruct Ec as [_ Ec].
    apply negb_true_iff, Z.eqb_neq in Ec.
    rewrite bind_run. cbn [DR_WRITE result final trace fst snd].
    set (h3 := dr_write _ h2). rewrite ticks_app.
    change (ticks [DrWr (hd 0 (tl ptr))]) with 0.
    pose proof (btf_wait_ticks h3) as Hb.
    destruct (KI2CStatus_eq_dec (result (hal_i2c_check_btf_timeout h3)) I2C_OK) as [E3|E3].
    + rewrite (ok_else_stop_ok _ _ _ E3). cbn [trace snd]. rewrite ticks_app.
      pose proof (IH (bytes_left (len - 1 - 1)) ltac:(unfold bytes_left in *; lia)
                    (tl (tl ptr)) (len - 1 - 1)
                    (final (hal_i2c_check_btf_timeout h3)) eq_refl) as Hi.
      lia.
    + rewrite (ok_else_stop_err _ _ _ E3). cbn [trace snd]. rewrite ticks_app.
      change (ticks [Cr1Set I2C_CR1_STOP]) with 0. lia.
  - pose proof (btf_wait_ticks h2) as Hb.
    destruct (KI2CStatus_eq_dec (result (hal_i2c_check_btf_timeout h2)) I2C_OK) as [E3|E3].
    + rewrite (ok_else_stop_ok _ _ _ E3). cbn [trace snd]. rewrite ticks_app.
      pose proof (IH (bytes_left (len - 1)) ltac:(unfold bytes_left in *; lia)
                    (tl ptr) (len - 1)
                    (final (hal_i2c_check_btf_timeout h2)) eq_refl) as Hi.
      lia.
    + rewrite (ok_else_stop_err _ _ _ E3). cbn [trace snd]. rewrite ticks_app.
      change (ticks [Cr1Set I2C_CR1_STOP]) with 0. lia.
Qed.

(** A wait that the classifier ends with a NACK ends with the poll, the
    read of the acknowledge-failure flag and its clear. *)
Lemma nack_end (flag : i2c_flag) (h : hw) :
  result (hal_i2c_check_flag_timeout flag RESET h) = I2C_ERROR_NACK ->
  exists pre,
    trace (hal_i2c_check_flag_timeout flag RESET h) =
    pre ++ [RdFlag flag RESET; RdFlag I2C_FLAG_AF true; ClrFlag I2C_FLAG_AF].
Proof.
  intros Hr.
  destruct (flag_wait_cases flag false h) as [[E _]|[_ Hg]]; cbn zeta in *;
    [congruence|].
  rewrite Hr in Hg.
  destruct Hg as (pre & _ & [(E & _)|[(_ & _ & Ht)|(E & _)]]); try discriminate.
  exists pre. exact Ht.
Qed.

Lemma btf_nack_end (h : hw) :
  result (hal_i2c_check_btf_timeout h) = I2C_ERROR_NACK ->
  exists pre,
    trace (hal_i2c_check_btf_timeout h) =
    pre ++ [RdFlag I2C_FLAG_BTF RESET; RdFlag I2C_FLAG_AF true; ClrFlag I2C_FLAG_AF].
Proof.
  rewrite btf_timeout_run. cbn [result trace fst snd]. intros Hr.
  apply nack_end.
  destruct (result (hal_i2c_check_flag_timeout I2C_FLAG_BTF false h));
    cbn in Hr; congruence.
Qed.

Lemma txe_nack_end (h : hw) :
  result (hal_i2c_check_txe_timeout h) = I2C_ERROR_NACK ->
  exists pre,
    trace (hal_i2c_check_txe_timeout h) =
    pre ++ [RdFlag I2C_FLAG_TXE RESET; RdFlag I2C_FLAG_AF true; ClrFlag I2C_FLAG_AF].
Proof.
  rewrite txe_timeout_run. cbn [result trace fst snd]. intros Hr.
  apply nack_end.
  destruct (result (hal_i2c_check_flag_timeout I2C_FLAG_TXE false h));
    cbn in Hr; congruence.
Qed.

End ExtraWrite.

(** ** Whole reads *)

Section ExtraTransactions.
Context {hw : Type} {dev : I2C_TypeDef hw}.

Local Arguments Z.mul : simpl never.
Local Arguments Z.add : simpl never.
Local Arguments Z.sub : simpl never.
Local Arguments Z.max : simpl never.
Local Arguments Z.of_nat : simpl never.

(** What a read does after its address phase, counted. *)
Lemma read_after_address_account (len : Z) (h : hw) :
  let y := read_after_address len h in
  dr_writes (trace y) = [] /\
  stored (trace y) = map u8 (dr_reads (trace y)) /\
  0 <= ticks (trace y) <= 5000 * Z.max 0 len /\
  (result y = I2C_OK ->
   Z.of_nat (length (dr_reads (trace y))) = Z.max 0 len /\
   stops (trace y) = if 0 <=? len then 1%nat else 0%nat) /\
  (result y <> I2C_OK ->
   1 <= len /\
   stops (trace y) = (if len =? 1 then 1%nat else 0%nat) /\
   Z.of_nat (length (dr_reads (trace y))) < len).
Proof.
  cbn zeta. unfold read_after_address. rewrite bind_run.
  cbn [result final trace fst snd].
  set (h1 := final (setup_read_switch len h)).
  destruct (switch_account len h) as (S1 & S2 & S3 & S4 & S5). cbn zeta in *.
  destruct (read_loop_account len h1) as (L1 & L2 & L3 & L4 & L5). cbn zeta in *.
  rewrite dr_writes_app, stored_app, dr_reads_app, ticks_app, stops_app,
    S1, S2, S3, S4, S5, L1, L2.
  cbn [app]. split; [reflexivity|]. split; [reflexivity|]. split; [lia|].
  split.
  - intros Hr. destruct (L4 Hr) as [La Lb]. split; [exact La|]. rewrite Lb.
    destruct (Z.eqb_spec len 0) as [->|N0]; [reflexivity|].
    destruct (Z.eqb_spec len 1) as [->|N1]; [reflexivity|].
    cbn [orb].
    destruct (Z.leb_spec 2 len); destruct (Z.leb_spec 0 len); try lia; reflexivity.
  - intros Hr. destruct (L5 Hr) as [La Lb]. rewrite La.
    assert (H1 : 1 <= len) by lia.
    split; [exact H1|]. split; [|exact Lb].
    destruct (Z.eqb_spec len 0) as [->|N0]; [lia|].
    destruct (Z.eqb_spec len 1) as [->|N1]; reflexivity.
Qed.

End ExtraTransactions.

(** X4.  A read of length 0 whose address phase succeeds returns [I2C_OK];
    after the address phase it clears ADDR and generates the stop, and that
    is all: the data register is never read and nothing is stored. *)
Theorem read_length_0 :
  forall (hw : Type) (dev : I2C_TypeDef hw) (i2c : KI2CNum) (addr : Z) (h : hw),
  let a := setup_read_address addr h in
  let x := kprv_i2c_master_read i2c addr 0 h in
  result a = I2C_OK ->
  result x = I2C_OK /\
  trace x = trace a ++ [ClrAddr; Cr1Set I2C_CR1_STOP] /\
  dr_reads (trace x) = [] /\ stored (trace x) = [] /\ stops (trace x) = 1%nat.
Proof.
  intros hw dev i2c addr h a x Ha.
  assert (Hx : x = (I2C_OK, cr1_set I2C_CR1_STOP (clear_addrflag (final a)),
                    trace a ++ [ClrAddr; Cr1Set I2C_CR1_STOP])).
  { subst x. rewrite master_read_unfold.
    rewrite (ok_then_ok (setup_read_address addr) _ h Ha). fold a.
    unfold read_after_address. rewrite bind_run.
    rewrite read_loop_done by lia. cbn [result final trace fst snd].
    rewrite switch_trace, switch_final, app_nil_r. reflexivity. }
  rewrite Hx. cbn [result trace fst snd].
  destruct (setup_read_address_account addr h) as (A1 & A2 & _ & A4).
  cbn zeta in *. fold a in A1, A2, A4. rewrite Ha in A4.
  rewrite dr_reads_app, stored_app, stops_app, A1, A2, A4.
  repeat split.
Qed.

Lemma read_length_0_witness :
  trace (@kprv_i2c_master_read nat (scripted ready_flags clock_data) 1%nat 0x50 0 0%nat) =
  trace (@setup_read_address nat (scripted ready_flags clock_data) 0x50 0%nat) ++
  [ClrAddr; Cr1Set I2C_CR1_STOP].
Proof.
  apply (read_length_0 nat (scripted ready_flags clock_data) 1%nat 0x50 0%nat).
  reflexivity.
Defined.

(** X5.  A read stores what it reads.  For every length and every device,
    the bytes stored in the caller's buffer are the values read from the
    data register, in order, each truncated to 8 bits.  A successful read
    stores exactly [max 0 len] bytes; a read that fails after its address
    phase stores fewer than [len]; a read whose address phase fails stores
    nothing. *)
Theorem read_stores_what_it_reads :
  forall (hw : Type) (dev : I2C_TypeDef hw) (i2c : KI2CNum) (addr len : Z) (h : hw),
  let a := setup_read_address addr h in
  let x := kprv_i2c_master_read i2c addr len h in
  stored (trace x) = map u8 (dr_reads (trace x)) /\
  (result x = I2C_OK -> Z.of_nat (length (stored (trace x))) = Z.max 0 len) /\
  (result a = I2C_OK -> result x <> I2C_OK ->
   Z.of_nat (length (stored (trace x))) < len) /\
  (result a <> I2C_OK -> stored (trace x) = []).
Proof.
  intros hw dev i2c addr len h a x.
  destruct (setup_read_address_account addr h) as (A1 & A2 & _ & _).
  cbn zeta in *. fold a in A1, A2.
  subst x. rewrite master_read_unfold.
  destruct (KI2CStatus_eq_dec (result a) I2C_OK) as [Ha|Ha].
  - rewrite (ok_then_ok (setup_read_address addr) _ h Ha). fold a.
    cbn [result trace fst snd].
    destruct (read_after_address_account len (final a)) as (R1 & R2 & _ & R4 & R5).
    cbn zeta in *.
    rewrite stored_app, dr_reads_app, A1, A2, R2. cbn [app].
    rewrite length_map.
    split; [reflexivity|]. split; [intros Hr; apply R4; exact Hr|].
    split; [intros _ Hr; apply R5; exact Hr|]. intros F. contradiction.
  - rewrite (ok_then_err (setup_read_address addr) _ h Ha). fold a.
    rewrite A1, A2. split; [reflexivity|].
    split; [intros F; contradiction|]. split; [intros F; contradiction|]. reflexivity.
Qed.

(** X6.  A successful read of any length [len >= 0] generates exactly one
    stop condition. *)
Theorem read_success_one_stop :
  forall (hw : Type) (dev : I2C_TypeDef hw) (i2c : KI2CNum) (addr len : Z) (h : hw),
  let x := kprv_i2c_master_read i2c addr len h in
  0 <= len ->
  result x = I2C_OK ->
  stops (trace x) = 1%nat.
Proof.
  intros hw dev i2c addr len h x Hlen Hx.
  destruct (setup_read_address_account addr h) as (_ & _ & _ & A4). cbn zeta in A4.
  subst x. rewrite master_read_unfold in *.
  destruct (KI2CStatus_eq_dec (result (setup_read_address addr h)) I2C_OK) as [Ha|Ha].
  - rewrite (ok_then_ok (setup_read_address addr) _ h Ha) in *.
    cbn [result trace fst snd] in *.
    destruct (read_after_address_account len (final (setup_read_address addr h)))
      as (_ & _ & _ & R4 & _). cbn zeta in R4.
    destruct (R4 Hx) as [_ Hs].
    rewrite stops_app, A4, Ha, Hs.
    destruct (Z.leb_spec 0 len); [reflexivity|lia].
  - rewrite (ok_then_err (setup_read_address addr) _ h Ha) in Hx. contradiction.
Qed.

Lemma read_success_one_stop_witness :
  stops (trace (@kprv_i2c_master_read nat (scripted ready_flags clock_data)
                  1%nat 0x50 7 0%nat)) = 1%nat.
Proof.
  apply (read_success_one_stop nat (scripted ready_flags clock_data) 1%nat 0x50 7 0%nat);
    [lia | reflexivity].
Defined.

(** X7.  A read that fails in its data phase.  If the address phase
    succeeds and the read fails, then [len >= 1], the trace ends with the
    wait that failed (for RXNE, or for BTF), whose result is the result of
    the read, and no stop is generated on the way out: the trace holds no
    stop at all, except for [len = 1], where the set-up switch generated
    it before the data phase began. *)
Theorem read_data_failure_leaves_no_stop :
  forall (hw : Type) (dev : I2C_TypeDef hw) (i2c : KI2CNum) (addr len : Z) (h : hw),
  let a := setup_read_address addr h in
  let x := kprv_i2c_master_read i2c addr len h in
  result a = I2C_OK ->
  result x <> I2C_OK ->
  1 <= len /\
  stops (trace x) = (if len =? 1 then 1%nat else 0%nat) /\
  exists pre h',
    (trace x = pre ++ trace (hal_i2c_check_flag_timeout I2C_FLAG_RXNE SET h') /\
     result (hal_i2c_check_flag_timeout I2C_FLAG_RXNE SET h') = result x) \/
    (trace x = pre ++ trace (hal_i2c_check_btf_timeout h') /\
     result (hal_i2c_check_btf_timeout h') = result x).
Proof.
  intros hw dev i2c addr len h a x Ha Hx. subst x a.
  destruct (setup_read_address_account addr h) as (_ & _ & _ & A4). cbn zeta in A4.
  rewrite Ha in A4. cbn in A4.
  rewrite master_read_unfold in *.
  rewrite (ok_then_ok (setup_read_address addr) _ h Ha) in *.
  cbn [result trace fst snd] in *.
  set (h1 := final (setup_read_address addr h)) in *.
  destruct (read_after_address_account len h1) as (_ & _ & _ & _ & R5).
  cbn zeta in R5. destruct (R5 Hx) as (R1 & R2 & _).
  split; [exact R1|]. split; [rewrite stops_app, A4, R2; reflexivity|].
  unfold read_after_address in *. rewrite bind_run in *.
  cbn [result final trace fst snd] in *.
  destruct (read_loop_fail_end len _ Hx) as (pre & h' & Hend).
  exists (trace (setup_read_address addr h) ++ trace (setup_read_switch len h1) ++ pre), h'.
  destruct Hend as [[Hp Hq]|[Hp Hq]]; [left|right]; split; auto;
    rewrite Hp, <- !app_assoc; reflexivity.
Qed.

Lemma read_data_failure_leaves_no_stop_witness :
  stops (trace (@kprv_i2c_master_read nat (scripted stalled_flags clock_data)
                  1%nat 0x50 2 0%nat)) = 0%nat.
Proof.
  apply (read_data_failure_leaves_no_stop nat (scripted stalled_flags clock_data)
           1%nat 0x50 2 0%nat); [reflexivity | vm_compute; discriminate].
Defined.

(** ** Outcomes of the entry points *)

Lemma DrWr_account (l : list Z) :
  dr_reads (map DrWr l) = [] /\ stored (map DrWr l) = [].
Proof. induction l as [|v l [I1 I2]]; split; auto. Qed.

Section ExtraOutcomes.
Context {hw : Type} {dev : I2C_TypeDef hw}.

(** The outcomes of the write loop, and what it never does. *)
Lemma write_loop_account (ptr : list Z) (len : Z) (h : hw) :
  let x := master_write_loop ptr len h in
  (result x = I2C_OK \/ result x = I2C_ERROR_TXE_TIMEOUT \/
   result x = I2C_ERROR_BTF_TIMEOUT \/ result x = I2C_ERROR_NACK) /\
  dr_reads (trace x) = [] /\ stored (trace x) = [].
Proof.
  cbn zeta.
  destruct (write_loop_shape _ ptr len h eq_refl) as (body & k & Ht & Hact & _ & Hres).
  cbn zeta in *. rewrite Ht.
  split; [destruct Hres as [[E _]|[[E|[E|E]] _]]; auto|].
  rewrite <- dr_reads_actions, <- stored_actions, actions_app, Hact.
  rewrite dr_reads_app, stored_app.
  destruct (DrWr_account (deref_n k ptr)) as [-> ->]. split; reflexivity.
Qed.

(** The outcomes of [hal_i2c_master_setup_write], counted. *)
Lemma setup_write_account (addr : Z) (h : hw) :
  let s := hal_i2c_master_setup_write addr h in
  dr_reads (trace s) = [] /\ stored (trace s) = [] /\
  (result s = I2C_OK \/ result s = I2C_ERROR_TIMEOUT \/
   result s = I2C_ERROR_ADDR_TIMEOUT \/ result s = I2C_ERROR_AF).
Proof.
  cbn zeta. rewrite <- dr_reads_actions, <- stored_actions.
  destruct (setup_write_cases addr h)
    as [[E Ha]|[[E [Ha|Ha]]|[[E Ha]|[E Ha]]]]; cbn zeta in *;
    rewrite E, Ha; cbn; auto 10.
Qed.

End ExtraOutcomes.

(** X8.  A write of length [len <= 0] (zero or negative) whose address
    phase succeeds returns [I2C_OK] and does one thing after the address
    phase: it generates the stop.  No data byte is written. *)
Theorem write_without_bytes :
  forall (hw : Type) (dev : I2C_TypeDef hw)
         (i2c : KI2CNum) (addr : Z) (ptr : list Z) (len : Z) (h : hw),
  let s := hal_i2c_master_setup_write addr h in
  let x := kprv_i2c_master_write i2c addr ptr len h in
  len <= 0 ->
  result s = I2C_OK ->
  result x = I2C_OK /\ trace x = trace s ++ [Cr1Set I2C_CR1_STOP].
Proof.
  intros hw dev i2c addr ptr len h s x Hlen Hs. subst x.
  unfold kprv_i2c_master_write, hal_i2c_get_handle.
  rewrite (ok_then_ok (hal_i2c_master_setup_write addr) _ h Hs). fold s.
  rewrite master_write_loop_equation_1.
  destruct (Z_gt_dec len 0) as [Hpos|_]; [lia|].
  rewrite bind_run. cbn. split; reflexivity.
Qed.

Lemma write_without_bytes_witness :
  trace (@kprv_i2c_master_write nat (scripted ready_flags clock_data)
           1%nat 0x50 [1; 2; 3] (-3) 0%nat) =
  trace (@hal_i2c_master_setup_write nat (scripted ready_flags clock_data) 0x50 0%nat) ++
  [Cr1Set I2C_CR1_STOP].
Proof.
  apply (write_without_bytes nat (scripted ready_flags clock_data)
           1%nat 0x50 [1; 2; 3] (-3) 0%nat); [lia | reflexivity].
Defined.

(** X9.  A busy bus is left alone.  If BUSY is read set on all 101
    iterations of the first wait, both [kprv_i2c_master_write] and
    [kprv_i2c_master_read] return [I2C_ERROR_TIMEOUT] without having acted
    on the bus: no bit of CR1 is set or cleared (so no start and no stop is
    generated), ADDR is not cleared, the data register is neither written
    nor read, and nothing is stored. *)
Theorem busy_bus_is_left_alone :
  forall (hw : Type) (dev : I2C_TypeDef hw)
         (i2c : KI2CNum) (addr : Z) (ptr : list Z) (len : Z) (h : hw),
  let xw := kprv_i2c_master_write i2c addr ptr len h in
  let xr := kprv_i2c_master_read i2c addr len h in
  (forall i, (i <= 100)%nat -> flag_at I2C_FLAG_BUSY i h = SET) ->
  result xw = I2C_ERROR_TIMEOUT /\ actions (trace xw) = [] /\
  result xr = I2C_ERROR_TIMEOUT /\ actions (trace xr) = [].
Proof.
  intros hw dev i2c addr ptr len h xw xr Hbusy.
  assert (E : result (hal_i2c_check_flag_timeout I2C_FLAG_BUSY true h) = I2C_ERROR_TIMEOUT).
  { apply poll_timeout_iff. intros i Hi. split; [auto|reflexivity]. }
  assert (Ha : actions (trace (hal_i2c_check_flag_timeout I2C_FLAG_BUSY true h)) = []).
  { destruct (plain_wait_cases I2C_FLAG_BUSY true h) as [[F _]|[_ F]];
      try discriminate; cbn zeta in *; [congruence|exact F]. }
  assert (Hw : hal_i2c_master_setup_write addr h =
               hal_i2c_check_flag_timeout I2C_FLAG_BUSY true h).
  { unfold hal_i2c_master_setup_write. apply ok_then_err. rewrite E. discriminate. }
  assert (Hr : setup_read_address addr h =
               hal_i2c_check_flag_timeout I2C_FLAG_BUSY true h).
  { unfold setup_read_address. apply ok_then_err. rewrite E. discriminate. }
  subst xw xr. unfold kprv_i2c_master_write, hal_i2c_get_handle.
  rewrite master_read_unfold.
  rewrite !ok_then_err by (rewrite ?Hw, ?Hr, E; discriminate).
  rewrite Hw, Hr, E, Ha. repeat split.
Qed.

Lemma busy_bus_is_left_alone_witness :
  actions (trace (@kprv_i2c_master_write nat (scripted busy_flags clock_data)
                    1%nat 0x50 [1] 1 0%nat)) = [] /\
  actions (trace (@kprv_i2c_master_read nat (scripted busy_flags clock_data)
                    1%nat 0x50 1 0%nat)) = [].
Proof.
  destruct (busy_bus_is_left_alone nat (scripted busy_flags clock_data)
              1%nat 0x50 [1] 1 0%nat) as (_ & Hw & _ & Hr).
  - intros i _. reflexivity.
  - split; [exact Hw | exact Hr].
Defined.

(** X10.  What has happened when the address is not acknowledged or its
    wait times out.  Status-flag accesses and delays apart, a write that
    returns [I2C_ERROR_AF] has cleared POS, generated the start, written
    the address byte and generated one stop, in this order, and nothing
    else; one that returns [I2C_ERROR_ADDR_TIMEOUT] has done the same
    without the stop.  A read is alike, with ACK enabled before the start.
    In particular neither result can come from the data phase. *)
Theorem address_failure_outcomes :
  forall (hw : Type) (dev : I2C_TypeDef hw)
         (i2c : KI2CNum) (addr : Z) (ptr : list Z) (len : Z) (h : hw),
  let xw := kprv_i2c_master_write i2c addr ptr len h in
  let xr := kprv_i2c_master_read i2c addr len h in
  let bw := I2C_7BIT_ADD_WRITE (u16 (Z.shiftl addr 1)) in
  let br := I2C_7BIT_ADD_READ (u16 (Z.shiftl addr 1)) in
  (result xw = I2C_ERROR_AF ->
   actions (trace xw) =
     [Cr1Clr I2C_CR1_POS; Cr1Set I2C_CR1_START; DrWr bw; Cr1Set I2C_CR1_STOP]) /\
  (result xw = I2C_ERROR_ADDR_TIMEOUT ->
   actions (trace xw) = [Cr1Clr I2C_CR1_POS; Cr1Set I2C_CR1_START; DrWr bw]) /\
  (result xr = I2C_ERROR_AF ->
   actions (trace xr) =
     [Cr1Clr I2C_CR1_POS; Cr1Set I2C_CR1_ACK; Cr1Set I2C_CR1_START; DrWr br;
      Cr1Set I2C_CR1_STOP]) /\
  (result xr = I2C_ERROR_ADDR_TIMEOUT ->
   actions (trace xr) =
     [Cr1Clr I2C_CR1_POS; Cr1Set I2C_CR1_ACK; Cr1Set I2C_CR1_START; DrWr br]).
Proof.
  intros hw dev i2c addr ptr len h xw xr bw br.
  assert (Hw : forall r, r = I2C_ERROR_AF \/ r = I2C_ERROR_ADDR_TIMEOUT ->
            result xw = r ->
            result (hal_i2c_master_setup_write addr h) = r /\
            trace xw = trace (hal_i2c_master_setup_write addr h)).
  { intros r Hr Hx. subst xw. unfold kprv_i2c_master_write, hal_i2c_get_handle in *.
    destruct (KI2CStatus_eq_dec (result (hal_i2c_master_setup_write addr h)) I2C_OK)
      as [E|E]; [|rewrite (ok_then_err _ _ _ E) in *; auto].
    rewrite (ok_then_ok _ _ _ E) in Hx. cbn [result fst] in Hx.
    destruct (write_loop_account ptr len (final (hal_i2c_master_setup_write addr h)))
      as ([F|[F|[F|F]]] & _); cbn zeta in F; rewrite F in Hx;
      destruct Hr as [-> | ->]; discriminate. }
  assert (Hr : forall r, r = I2C_ERROR_AF \/ r = I2C_ERROR_ADDR_TIMEOUT ->
            result xr = r ->
            result (setup_read_address addr h) = r /\
            trace xr = trace (setup_read_address addr h)).
  { intros r Hr Hx. subst xr. rewrite master_read_unfold in *.
    destruct (KI2CStatus_eq_dec (result (setup_read_address addr h)) I2C_OK)
      as [E|E]; [|rewrite (ok_then_err _ _ _ E) in *; auto].
    rewrite (ok_then_ok _ _ _ E) in Hx. cbn [result fst] in Hx.
    unfold read_after_address in Hx. rewrite result_bind in Hx.
    destruct (read_loop_result len
                (final (setup_read_switch len (final (setup_read_address addr h)))))
      as [F|[F|[F|F]]]; cbn zeta in F; rewrite F in Hx;
      destruct Hr as [-> | ->]; discriminate. }
  split; [|split; [|split]]; intros Hx.
  - destruct (Hw _ (or_introl eq_refl) Hx) as [Hs ->].
    destruct (setup_write_cases addr h) as [[E _]|[[E _]|[[E _]|[_ Ha]]]];
      cbn zeta in *; try congruence. exact Ha.
  - destruct (Hw _ (or_intror eq_refl) Hx) as [Hs ->].
    destruct (setup_write_cases addr h) as [[E _]|[[E _]|[[_ Ha]|[E _]]]];
      cbn zeta in *; try congruence. exact Ha.
  - destruct (Hr _ (or_introl eq_refl) Hx) as [Hs ->].
    destruct (setup_read_address_cases addr h) as [[E _]|[[E _]|[[E _]|[_ Ha]]]];
      cbn zeta in *; try congruence. exact Ha.
  - destruct (Hr _ (or_intror eq_refl) Hx) as [Hs ->].
    destruct (setup_read_address_cases addr h) as [[E _]|[[E _]|[[_ Ha]|[E _]]]];
      cbn zeta in *; try congruence. exact Ha.
Qed.

(** X10 on a slave that does not answer its address. *)
Lemma address_failure_outcomes_witness :
  actions (trace (@kprv_i2c_master_write nat (scripted address_nack_flags clock_data)
                    1%nat 0x50 [1] 1 0%nat)) =
  [Cr1Clr I2C_CR1_POS; Cr1Set I2C_CR1_START;
   DrWr (I2C_7BIT_ADD_WRITE (u16 (Z.shiftl 0x50 1))); Cr1Set I2C_CR1_STOP].
Proof.
  apply (proj1 (address_failure_outcomes nat (scripted address_nack_flags clock_data)
                  1%nat 0x50 [1] 1 0%nat)).
  reflexivity.
Defined.

(** X11.  The longest a transaction can sleep.  A write sleeps at most
    [5000 * (3 + 2 * max 0 len)] ticks and a read at most
    [5000 * (3 + max 0 len)] ticks, whatever the device does: three waits
    for the address phase, then at most two waits per byte written and at
    most one per byte read. *)
Theorem transaction_time_bound :
  forall (hw : Type) (dev : I2C_TypeDef hw)
         (i2c : KI2CNum) (addr : Z) (ptr : list Z) (len : Z) (h : hw),
  0 <= ticks (trace (kprv_i2c_master_write i2c addr ptr len h))
    <= 5000 * (3 + 2 * Z.max 0 len) /\
  0 <= ticks (trace (kprv_i2c_master_read i2c addr len h))
    <= 5000 * (3 + Z.max 0 len).
Proof.
  intros hw dev i2c addr ptr len h. split.
  - unfold kprv_i2c_master_write, hal_i2c_get_handle.
    rewrite trace_ok_then, ticks_app.
    pose proof (setup_write_ticks addr h) as Hs.
    destruct (is_ok _).
    + pose proof (write_loop_ticks _ ptr len
                    (final (hal_i2c_master_setup_write addr h)) eq_refl) as Hl.
      lia.
    + change (ticks []) with 0. lia.
  - rewrite master_read_unfold, trace_ok_then, ticks_app.
    pose proof (setup_read_address_ticks addr h) as Hs.
    destruct (is_ok _).
    + destruct (read_after_address_account len (final (setup_read_address addr h)))
        as (_ & _ & Ht & _). cbn zeta in Ht. lia.
    + change (ticks []) with 0. lia.
Qed.

(** X12.  The outcomes of the two entry points.  A write returns one of
    [I2C_OK], [I2C_ERROR_TIMEOUT], [I2C_ERROR_ADDR_TIMEOUT], [I2C_ERROR_AF],
    [I2C_ERROR_TXE_TIMEOUT], [I2C_ERROR_BTF_TIMEOUT], [I2C_ERROR_NACK]; it
    never reads the data register and stores nothing.  A read returns one
    of [I2C_OK], [I2C_ERROR_TIMEOUT], [I2C_ERROR_ADDR_TIMEOUT],
    [I2C_ERROR_AF], [I2C_ERROR_BTF_TIMEOUT], [I2C_ERROR_NACK] (never
    [I2C_ERROR_TXE_TIMEOUT]); the only value it can write to the data
    register is the address byte, at most once.  Neither returns
    [I2C_ERROR_NULL_HANDLE] or [I2C_ERROR_CONFIG]. *)
Theorem transaction_outcomes :
  forall (hw : Type) (dev : I2C_TypeDef hw)
         (i2c : KI2CNum) (addr : Z) (ptr : list Z) (len : Z) (h : hw),
  let xw := kprv_i2c_master_write i2c addr ptr len h in
  let xr := kprv_i2c_master_read i2c addr len h in
  (result xw = I2C_OK \/ result xw = I2C_ERROR_TIMEOUT \/
   result xw = I2C_ERROR_ADDR_TIMEOUT \/ result xw = I2C_ERROR_AF \/
   result xw = I2C_ERROR_TXE_TIMEOUT \/ result xw = I2C_ERROR_BTF_TIMEOUT \/
   result xw = I2C_ERROR_NACK) /\
  dr_reads (trace xw) = [] /\ stored (trace xw) = [] /\
  (result xr = I2C_OK \/ result xr = I2C_ERROR_TIMEOUT \/
   result xr = I2C_ERROR_ADDR_TIMEOUT \/ result xr = I2C_ERROR_AF \/
   result xr = I2C_ERROR_BTF_TIMEOUT \/ result xr = I2C_ERROR_NACK) /\
  (dr_writes (trace xr) = [] \/
   dr_writes (trace xr) = [I2C_7BIT_ADD_READ (u16 (Z.shiftl addr 1))]).
Proof.
  intros hw dev i2c addr ptr len h xw xr.
  assert (Hw : (result xw = I2C_OK \/ result xw = I2C_ERROR_TIMEOUT \/
                result xw = I2C_ERROR_ADDR_TIMEOUT \/ result xw = I2C_ERROR_AF \/
                result xw = I2C_ERROR_TXE_TIMEOUT \/ result xw = I2C_ERROR_BTF_TIMEOUT \/
                result xw = I2C_ERROR_NACK) /\
               dr_reads (trace xw) = [] /\ stored (trace xw) = []).
  { subst xw. unfold kprv_i2c_master_write, hal_i2c_get_handle.
    destruct (setup_write_account addr h) as (S1 & S2 & S3). cbn zeta in *.
    destruct (KI2CStatus_eq_dec (result (hal_i2c_master_setup_write addr h)) I2C_OK)
      as [E|E].
    - rewrite (ok_then_ok _ _ _ E). cbn [result trace fst snd].
      destruct (write_loop_account ptr len (final (hal_i2c_master_setup_write addr h)))
        as (L1 & L2 & L3). cbn zeta in *.
      rewrite dr_reads_app, stored_app, S1, S2, L2, L3.
      split; [|split; reflexivity].
      destruct L1 as [F|[F|[F|F]]]; rewrite F; auto 10.
    - rewrite (ok_then_err _ _ _ E). rewrite S1, S2.
      split; [|split; reflexivity].
      destruct S3 as [F|[F|[F|F]]]; rewrite F; auto 10. }
  destruct Hw as (W1 & W2 & W3).
  split; [exact W1|]. split; [exact W2|]. split; [exact W3|].
  subst xr. rewrite master_read_unfold.
  destruct (setup_read_address_account addr h) as (_ & _ & A3 & _). cbn zeta in *.
  destruct (KI2CStatus_eq_dec (result (setup_read_address addr h)) I2C_OK) as [E|E].
  - rewrite (ok_then_ok _ _ _ E). cbn [result trace fst snd].
    destruct (read_after_address_account len (final (setup_read_address addr h)))
      as (R1 & _). cbn zeta in R1.
    rewrite dr_writes_app, R1, app_nil_r. split; [|exact A3].
    unfold read_after_address. rewrite result_bind.
    destruct (read_loop_result len
                (final (setup_read_switch len (final (setup_read_address addr h)))))
      as [F|[F|[F|F]]]; cbn zeta in F; rewrite F; auto 10.
  - rewrite (ok_then_err _ _ _ E). split; [|exact A3].
    destruct (setup_read_address_cases addr h) as [[F _]|[[F _]|[[F _]|[F _]]]];
      cbn zeta in F; rewrite F in *; auto 10.
Qed.

(** X13.  A data byte that is not acknowledged, on a write.  A write that
    returns [I2C_ERROR_NACK] ends with: the waited flag (TXE or BTF) read
    reset, the acknowledge-failure flag read set, the acknowledge-failure
    flag cleared, the stop generated. *)
Theorem write_data_nack_ending :
  forall (hw : Type) (dev : I2C_TypeDef hw)
         (i2c : KI2CNum) (addr : Z) (ptr : list Z) (len : Z) (h : hw),
  let x := kprv_i2c_master_write i2c addr ptr len h in
  result x = I2C_ERROR_NACK ->
  exists pre f, (f = I2C_FLAG_TXE \/ f = I2C_FLAG_BTF) /\
    trace x = pre ++ [RdFlag f RESET; RdFlag I2C_FLAG_AF true;
                      ClrFlag I2C_FLAG_AF; Cr1Set I2C_CR1_STOP].
Proof.
  intros hw dev i2c addr ptr len h x Hx. subst x.
  unfold kprv_i2c_master_write, hal_i2c_get_handle in *.
  destruct (KI2CStatus_eq_dec (result (hal_i2c_master_setup_write addr h)) I2C_OK)
    as [E|E].
  2:{ rewrite (ok_then_err _ _ _ E) in Hx.
      destruct (setup_write_account addr h) as (_ & _ & [F|[F|[F|F]]]);
        cbn zeta in F; congruence. }
  rewrite (ok_then_ok _ _ _ E) in *. cbn [result trace fst snd] in *.
  set (h1 := final (hal_i2c_master_setup_write addr h)) in *.
  destruct (write_loop_shape _ ptr len h1 eq_refl)
    as (body & k & Ht & _ & _ & [[F _]|[_ (pre & h' & Hend)]]); cbn zeta in *;
    [congruence|].
  rewrite Ht.
  destruct Hend as [[Hb Hr]|[Hb Hr]]; rewrite Hx in Hr.
  - destruct (txe_nack_end h' Hr) as (q & Hq).
    exists (trace (hal_i2c_master_setup_write addr h) ++ pre ++ q), I2C_FLAG_TXE.
    split; [auto|]. rewrite Hb, Hq, <- !app_assoc. reflexivity.
  - destruct (btf_nack_end h' Hr) as (q & Hq).
    exists (trace (hal_i2c_master_setup_write addr h) ++ pre ++ q), I2C_FLAG_BTF.
    split; [auto|]. rewrite Hb, Hq, <- !app_assoc. reflexivity.
Qed.

Lemma write_data_nack_ending_witness :
  exists pre f, (f = I2C_FLAG_TXE \/ f = I2C_FLAG_BTF) /\
    trace (@kprv_i2c_master_write nat (scripted data_nack_flags clock_data)
             1%nat 0x50 [1; 2] 2 0%nat) =
    pre ++ [RdFlag f RESET; RdFlag I2C_FLAG_AF true;
            ClrFlag I2C_FLAG_AF; Cr1Set I2C_CR1_STOP].
Proof.
  apply (write_data_nack_ending nat (scripted data_nack_flags clock_data)
           1%nat 0x50 [1; 2] 2 0%nat).
  reflexivity.
Defined.

(** X14.  A data byte that is not acknowledged, on a read.  A read that
    returns [I2C_ERROR_NACK] has [len >= 2] and ends with: BTF read reset,
    the acknowledge-failure flag read set, the acknowledge-failure flag
    cleared.  Unlike the write, it generates no stop: the trace holds
    none. *)
Theorem read_data_nack_ending :
  forall (hw : Type) (dev : I2C_TypeDef hw) (i2c : KI2CNum) (addr len : Z) (h : hw),
  let x := kprv_i2c_master_read i2c addr len h in
  result x = I2C_ERROR_NACK ->
  2 <= len /\
  stops (trace x) = 0%nat /\
  exists pre,
    trace x = pre ++ [RdFlag I2C_FLAG_BTF RESET; RdFlag I2C_FLAG_AF true;
                      ClrFlag I2C_FLAG_AF].
Proof.
  intros hw dev i2c addr len h x Hx.
  assert (Ha : result (setup_read_address addr h) = I2C_OK).
  { destruct (KI2CStatus_eq_dec (result (setup_read_address addr h)) I2C_OK)
      as [E|E]; [exact E|].
    subst x. rewrite master_read_unfold, (ok_then_err _ _ _ E) in Hx.
    destruct (setup_read_address_cases addr h) as [[F _]|[[F _]|[[F _]|[F _]]]];
      cbn zeta in F; congruence. }
  assert (Hne : result x <> I2C_OK) by (rewrite Hx; discriminate).
  subst x.
  destruct (setup_read_address_account addr h) as (_ & _ & _ & A4). cbn zeta in A4.
  rewrite Ha in A4. cbn in A4.
  rewrite master_read_unfold in *.
  rewrite (ok_then_ok (setup_read_address addr) _ h Ha) in *.
  cbn [result trace fst snd] in *.
  set (h1 := final (setup_read_address addr h)) in *.
  destruct (read_after_address_account len h1) as (_ & _ & _ & _ & R5).
  cbn zeta in R5. destruct (R5 Hne) as (R1 & R2 & _).
  rewrite stops_app, A4, R2.
  unfold read_after_address in *. rewrite bind_run in *.
  cbn [result final trace fst snd] in *.
  set (h2 := final (setup_read_switch len h1)) in *.
  assert (Hl : len <> 1).
  { intros ->.
    destruct (read_loop_1_cases h2) as [[F _]|[F _]]; cbn zeta in F; congruence. }
  split; [lia|]. split; [destruct (Z.eqb_spec len 1); [contradiction|reflexivity]|].
  destruct (read_loop_fail_end len h2 Hne) as (pre & h' & [[Hp Hq]|[Hp Hq]]);
    rewrite Hx in Hq.
  - destruct (plain_wait_cases I2C_FLAG_RXNE true h') as [[F _]|[F _]];
      try discriminate; cbn zeta in F; congruence.
  - destruct (btf_nack_end h' Hq) as (q & Hq').
    exists (trace (setup_read_address addr h) ++ trace (setup_read_switch len h1) ++
            pre ++ q).
    rewrite Hp, Hq', <- !app_assoc. reflexivity.
Qed.

Lemma read_data_nack_ending_witness :
  stops (trace (@kprv_i2c_master_read nat (scripted data_nack_flags clock_data)
                  1%nat 0x50 2 0%nat)) = 0%nat.
Proof.
  apply (read_data_nack_ending nat (scripted data_nack_flags clock_data)
           1%nat 0x50 2 0%nat).
  reflexivity.
Defined.
